(** * CalDAV calendar synchronisation: the service of
      [caldav-calendar.service.ts] as a shallow embedding.

    The service talks to a CalDAV server through [cdav-library] and edits
    iCalendar objects through [ical.js].  Both libraries are outside the
    repository; they appear here as an interface (the handles the library
    hands out carry the server's answers to the requests sent through
    them, the iCalendar codec is a type class).  Everything the service
    itself computes (settings validation,
    text escaping, date formatting, the ICS templates, change detection,
    the SEQUENCE bump, the order of notifications, log lines and network
    requests) is written out and executable, with the arithmetic of
    JavaScript numbers and dates where the code relies on it.  The
    effects of
    [CaldavCalendarEffects] and the connection test of the settings form
    are embedded over the service in the same way. *)

From Stdlib Require Import ZArith String Ascii List Bool Lia DecimalString.
From Stdlib Require DecimalPos.
From stdpp Require Import base option strings gmap.
Import ListNotations.

Local Open Scope string_scope.
Local Open Scope Z_scope.

(** Appending to a literal computes under [simpl]. *)
#[local] Arguments String.append !s1 s2 : simpl nomatch.

(** ** JavaScript strings *)

Module JsString.

Definition backslash : ascii := "092"%char.
Definition newline : ascii := "010"%char.
Definition dquote : ascii := "034"%char.

Definition char (c : ascii) : string := String c EmptyString.

Definition nl : string := char newline.

(** [s.replace(/c/g, r)] for a pattern that is one literal character. *)
Fixpoint replaceAll (c : ascii) (r : string) (s : string) : string :=
  match s with
  | EmptyString => EmptyString
  | String x rest =>
      if Ascii.eqb x c then r +:+ replaceAll c r rest
      else String x (replaceAll c r rest)
  end.

(** [Array.prototype.join]. *)
Fixpoint join (sep : string) (l : list string) : string :=
  match l with
  | [] => EmptyString
  | [x] => x
  | x :: rest => x +:+ sep +:+ join sep rest
  end.

(** [String.prototype.lastIndexOf] for a one-character needle, read
    through [substring(lastIndexOf(c) + 1)]: the part after the last
    [c], the whole string when [c] does not occur. *)
Fixpoint afterLast (c : ascii) (s : string) : string :=
  match s with
  | EmptyString => EmptyString
  | String x rest =>
      if existsb (Ascii.eqb c) (list_ascii_of_string rest)
      then afterLast c rest
      else if Ascii.eqb x c then rest else s
  end.

(** [s.endsWith(c) ? s.substring(0, s.length - 1) : s]. *)
Fixpoint dropTrailing (c : ascii) (s : string) : string :=
  match s with
  | EmptyString => EmptyString
  | String x EmptyString => if Ascii.eqb x c then EmptyString else s
  | String x rest => String x (dropTrailing c rest)
  end.

(** The text cut at every line feed. *)
Fixpoint lines_aux (cur : string) (s : string) : list string :=
  match s with
  | EmptyString => [cur]
  | String x rest =>
      if Ascii.eqb x newline then cur :: lines_aux EmptyString rest
      else lines_aux (cur +:+ char x) rest
  end.

Definition lines (s : string) : list string := lines_aux EmptyString s.

(** [t.includes(s)] as a proposition. *)
Definition includes (t s : string) : Prop :=
  exists a b, t = a +:+ s +:+ b.

Fixpoint hasNewline (s : string) : bool :=
  match s with
  | EmptyString => false
  | String c rest => Ascii.eqb c newline || hasNewline rest
  end.

Definition is_digit (c : ascii) : bool :=
  let n := nat_of_ascii c in (48 <=? n)%nat && (n <=? 57)%nat.

End JsString.

Import JsString.

(** ** JavaScript numbers *)

(** The integers among the Numbers: a Number is a double, which holds an
    integer with 53 significant bits.  Infinity and NaN are no integers
    and are left out, so the integers here stay below 2^1024. *)
Module JsNumber.

(** The Number value for an integer: the nearest double, the one with
    an even significand when two are as near. *)
Definition round (z : Z) : Z :=
  let a := Z.abs z in
  let sh := Z.log2 a - 52 in
  if sh <=? 0 then z
  else
    let q := Z.shiftr a sh in
    let r := a mod 2 ^ sh in
    let half := 2 ^ (sh - 1) in
    Z.sgn z
    * Z.shiftl (if (half <? r) || ((r =? half) && Z.odd q) then q + 1 else q)
        sh.

Definition decimal (z : Z) : string := NilZero.string_of_int (Z.to_int z).

Fixpoint digitCount (fuel : nat) (a : Z) : Z :=
  match fuel with
  | O => 1
  | S fuel => if a <? 10 then 1 else 1 + digitCount fuel (a / 10)
  end.

(** The number of decimal digits of a positive integer. *)
Definition digits (a : Z) : Z := digitCount (Z.to_nat (Z.log2 a)) a.

(** Number::toString, the choice of the digits: among the decimals that
    read back as the double [a], the one with the fewest significant
    digits (here [k] of the [n] digits), the nearest to [a] when there
    are two, the even one when both are as near. *)
Fixpoint shortestFrom (fuel : nat) (k n a : Z) : Z :=
  match fuel with
  | O => a
  | S fuel =>
      let p := 10 ^ (n - k) in
      let lo := a / p * p in
      let hi := lo + p in
      if (round lo =? a) && (round hi =? a) then
        if a - lo <? hi - a then lo
        else if hi - a <? a - lo then hi
        else if Z.even (a / p) then lo else hi
      else if round lo =? a then lo
      else if round hi =? a then hi
      else shortestFrom fuel (k + 1) n a
  end.

Definition shortest (a : Z) : Z :=
  shortestFrom (Z.to_nat (Z.min 17 (digits a))) 1 (digits a) a.

Fixpoint stripZeros (fuel : nat) (x : Z) : Z :=
  match fuel with
  | O => x
  | S fuel => if x mod 10 =? 0 then stripZeros fuel (x / 10) else x
  end.

(** The exponent form of a decimal with more than 21 digits: the first
    significant digit, the others after a point, and the exponent. *)
Definition exponentForm (x : Z) : string :=
  let exponent := "e+" +:+ decimal (digits x - 1) in
  match decimal (stripZeros (Z.to_nat (digits x)) x) with
  | String d EmptyString => String d exponent
  | String d rest => String d ("." +:+ rest +:+ exponent)
  | EmptyString => exponent
  end.

(** Number::toString for an integer, as a template literal and
    [parseInt] apply it.  A double below 2^53 is the integer itself and
    prints as its digits. *)
Definition toString (z : Z) : string :=
  let v := round z in
  if Z.abs v <? 2 ^ 53 then decimal v
  else
    let x := shortest (Z.abs v) in
    (if v <? 0 then "-" else EmptyString)
    +:+ (if digits x <=? 21 then decimal x else exponentForm x).

Definition digitValue (c : ascii) : Z := Z.of_nat (nat_of_ascii c) - 48.

(** The digits at the front of a text as an integer; [None] when the
    text starts with no digit. *)
Fixpoint parseDigits (acc : option Z) (s : string) : option Z :=
  match s with
  | String c rest =>
      if is_digit c
      then parseDigits
             (Some (10 * match acc with Some m => m | None => 0 end
                    + digitValue c)) rest
      else acc
  | EmptyString => acc
  end.

(** [parseInt] of the text of a Number, which has no white space and no
    [0x] at its front: a sign, then the digits up to the first character
    that is none; [None] is NaN. *)
Definition parseInt (s : string) : option Z :=
  match s with
  | String "-" rest => option_map (fun m => round (- m)) (parseDigits None rest)
  | String "+" rest => option_map round (parseDigits None rest)
  | _ => option_map round (parseDigits None s)
  end.

(** [x + y] for integers. *)
Definition add (x y : Z) : Z := round (x + y).

End JsNumber.

(** ** Text escaping *)

(** [_escapeIcalText]: four global replacements, chained in the order of
    the source. *)
Definition _escapeIcalText (text : string) : string :=
  replaceAll newline (String backslash "n")
    (replaceAll "," (String backslash ",")
       (replaceAll ";" (String backslash ";")
          (replaceAll backslash (String backslash (char backslash)) text))).

(** What one character of the input becomes when no character is escaped
    twice. *)
Definition escapeChar (c : ascii) : string :=
  if Ascii.eqb c backslash then String backslash (char backslash)
  else if Ascii.eqb c ";" then String backslash ";"
  else if Ascii.eqb c "," then String backslash ","
  else if Ascii.eqb c newline then String backslash "n"
  else char c.

Fixpoint escapeEach (s : string) : string :=
  match s with
  | EmptyString => EmptyString
  | String c rest => escapeChar c +:+ escapeEach rest
  end.

(** ** Dates *)

(** A JavaScript [Date] is a count of milliseconds since the epoch, valid
    within 8.64e15 of it.  Numbers are integers here: fractional
    timestamps and NaN are outside the model. *)
Definition validTime (t : Z) : bool :=
  (-8640000000000000 <=? t) && (t <=? 8640000000000000).

(** The proleptic Gregorian date of a day count since 1970-01-01. *)
Definition civilFromDays (days : Z) : Z * Z * Z :=
  let z := days + 719468 in
  let era := z / 146097 in
  let doe := z - era * 146097 in
  let yoe := (doe - doe / 1460 + doe / 36524 - doe / 146096) / 365 in
  let doy := doe - (365 * yoe + yoe / 4 - yoe / 100) in
  let mp := (5 * doy + 2) / 153 in
  let d := doy - (153 * mp + 2) / 5 + 1 in
  let m := if mp <? 10 then mp + 3 else mp - 9 in
  let y := yoe + era * 400 + (if m <=? 2 then 1 else 0) in
  (y, m, d).

Definition digitChar (d : Z) : ascii := ascii_of_nat (48 + Z.to_nat d).

(** The last [width] decimal digits of [v], zero padded. *)
Fixpoint padDigits (width : nat) (v : Z) : string :=
  match width with
  | O => EmptyString
  | S w => padDigits w (v / 10) +:+ char (digitChar (v mod 10))
  end.

Definition isoYear (y : Z) : string :=
  if (0 <=? y) && (y <=? 9999) then padDigits 4 y
  else (if y <? 0 then "-" else "+") +:+ padDigits 6 (Z.abs y).

(** [Date.prototype.toISOString]; [None] is the RangeError of an invalid
    date. *)
Definition toISOString (t : Z) : option string :=
  if validTime t then
    let days := t / 86400000 in
    let ms := t mod 86400000 in
    let '(y, m, d) := civilFromDays days in
    Some (isoYear y +:+ "-" +:+ padDigits 2 m +:+ "-" +:+ padDigits 2 d
          +:+ "T" +:+ padDigits 2 (ms / 3600000)
          +:+ ":" +:+ padDigits 2 (ms / 60000 mod 60)
          +:+ ":" +:+ padDigits 2 (ms / 1000 mod 60)
          +:+ "." +:+ padDigits 3 (ms mod 1000) +:+ "Z")
  else None.

(** [s.replace(/[-:]/g, '')]. *)
Fixpoint removeDashColon (s : string) : string :=
  match s with
  | EmptyString => EmptyString
  | String x rest =>
      if Ascii.eqb x "-" || Ascii.eqb x ":" then removeDashColon rest
      else String x (removeDashColon rest)
  end.

(** [s.replace(/\.\d{3}/, '')]: the first dot that three digits follow
    goes, with the digits. *)
Fixpoint removeMillis (s : string) : string :=
  match s with
  | EmptyString => EmptyString
  | String x rest =>
      match rest with
      | String a (String b (String c tail)) =>
          if Ascii.eqb x "." && is_digit a && is_digit b && is_digit c
          then tail
          else String x (removeMillis rest)
      | _ => String x (removeMillis rest)
      end
  end.

(** [_formatIcalDateTime]. *)
Definition _formatIcalDateTime (timestamp : Z) : option string :=
  match toISOString timestamp with
  | Some iso => Some (removeMillis (removeDashColon iso))
  | None => None
  end.

(** ** The data model of [caldav-calendar.model.ts] *)

(** [string | null]: [None] is [null]. *)
Definition js_string_of (o : option string) : string :=
  match o with Some s => s | None => "null" end.

(** Truthiness of a [string | null | undefined] value. *)
Definition truthy (o : option string) : bool :=
  match o with
  | Some s => negb (String.eqb s EmptyString)
  | None => false
  end.

Record CaldavCalendarCfg := mkCfg {
  isEnabled : bool;
  caldavUrl : option string;
  calendarName : option string;
  username : option string;
  password : option string;
  syncTodos : bool
}.

Definition DEFAULT_CALDAV_CALENDAR_CFG : CaldavCalendarCfg :=
  {| isEnabled := false; caldavUrl := None; calendarName := None;
     username := None; password := None; syncTodos := false |}.

Inductive TodoStatus := NEEDS_ACTION | IN_PROCESS | COMPLETED_ | CANCELLED.

Definition statusText (s : TodoStatus) : string :=
  match s with
  | NEEDS_ACTION => "NEEDS-ACTION"
  | IN_PROCESS => "IN-PROCESS"
  | COMPLETED_ => "COMPLETED"
  | CANCELLED => "CANCELLED"
  end.

(** [CalendarEventData]. *)
Module Event.
Record data := mk {
  uid : string;
  summary : string;
  start : Z;
  end_ : Z;
  description : option string
}.
End Event.

(** [Partial<CalendarEventData>]: [None] is [undefined]. *)
Module EventPatch.
Record data := mk {
  uid : option string;
  summary : option string;
  start : option Z;
  end_ : option Z;
  description : option string
}.
End EventPatch.

(** [CalendarTodoData]. *)
Module Todo.
Record data := mk {
  uid : string;
  summary : string;
  description : option string;
  priority : option Z;
  dueDate : option Z;
  percentComplete : option Z;
  status : option TodoStatus
}.
End Todo.

(** [Partial<CalendarTodoData>]. *)
Module TodoPatch.
Record data := mk {
  uid : option string;
  summary : option string;
  description : option string;
  priority : option Z;
  dueDate : option Z;
  percentComplete : option Z;
  status : option TodoStatus
}.
End TodoPatch.

(** ** iCalendar components, as [ical.js] presents them *)

(** An [ICAL.Time], kept as the JavaScript timestamp it was built from:
    [fromJSDate ms] is [ICAL.Time.fromJSDate(new Date(ms), false)]. *)
Record ICAL_Time := fromJSDate { jsDate : Z }.

(** The properties of one component.  [ical.js] decodes a property by the
    value type its design table gives the property name, so the
    properties the service reads or writes are typed here: text, date-time
    or integer.  A field is [None] when the component has no such
    property, which is when [getFirstPropertyValue] answers [null].
    [other] keeps the remaining content lines. *)
Record Props := mkProps {
  SUMMARY : option string;
  DESCRIPTION : option string;
  STATUS : option string;
  DTSTART : option ICAL_Time;
  DTEND : option ICAL_Time;
  DUE : option ICAL_Time;
  COMPLETED : option ICAL_Time;
  LAST_MODIFIED : option ICAL_Time;
  DTSTAMP : option ICAL_Time;
  SEQUENCE : option Z;
  PERCENT_COMPLETE : option Z;
  PRIORITY : option Z;
  other : list (string * string)
}.

(** [updatePropertyWithValue(name, value)], one setter per property. *)
Definition set_SUMMARY (v : string) (p : Props) : Props :=
  mkProps (Some v) (DESCRIPTION p) (STATUS p) (DTSTART p) (DTEND p) (DUE p)
    (COMPLETED p) (LAST_MODIFIED p) (DTSTAMP p) (SEQUENCE p)
    (PERCENT_COMPLETE p) (PRIORITY p) (other p).
Definition set_DESCRIPTION (v : string) (p : Props) : Props :=
  mkProps (SUMMARY p) (Some v) (STATUS p) (DTSTART p) (DTEND p) (DUE p)
    (COMPLETED p) (LAST_MODIFIED p) (DTSTAMP p) (SEQUENCE p)
    (PERCENT_COMPLETE p) (PRIORITY p) (other p).
Definition set_STATUS (v : string) (p : Props) : Props :=
  mkProps (SUMMARY p) (DESCRIPTION p) (Some v) (DTSTART p) (DTEND p) (DUE p)
    (COMPLETED p) (LAST_MODIFIED p) (DTSTAMP p) (SEQUENCE p)
    (PERCENT_COMPLETE p) (PRIORITY p) (other p).
Definition set_DTSTART (v : ICAL_Time) (p : Props) : Props :=
  mkProps (SUMMARY p) (DESCRIPTION p) (STATUS p) (Some v) (DTEND p) (DUE p)
    (COMPLETED p) (LAST_MODIFIED p) (DTSTAMP p) (SEQUENCE p)
    (PERCENT_COMPLETE p) (PRIORITY p) (other p).
Definition set_DTEND (v : ICAL_Time) (p : Props) : Props :=
  mkProps (SUMMARY p) (DESCRIPTION p) (STATUS p) (DTSTART p) (Some v) (DUE p)
    (COMPLETED p) (LAST_MODIFIED p) (DTSTAMP p) (SEQUENCE p)
    (PERCENT_COMPLETE p) (PRIORITY p) (other p).
Definition set_DUE (v : ICAL_Time) (p : Props) : Props :=
  mkProps (SUMMARY p) (DESCRIPTION p) (STATUS p) (DTSTART p) (DTEND p)
    (Some v) (COMPLETED p) (LAST_MODIFIED p) (DTSTAMP p) (SEQUENCE p)
    (PERCENT_COMPLETE p) (PRIORITY p) (other p).
Definition set_COMPLETED (v : ICAL_Time) (p : Props) : Props :=
  mkProps (SUMMARY p) (DESCRIPTION p) (STATUS p) (DTSTART p) (DTEND p) (DUE p)
    (Some v) (LAST_MODIFIED p) (DTSTAMP p) (SEQUENCE p)
    (PERCENT_COMPLETE p) (PRIORITY p) (other p).
Definition set_LAST_MODIFIED (v : ICAL_Time) (p : Props) : Props :=
  mkProps (SUMMARY p) (DESCRIPTION p) (STATUS p) (DTSTART p) (DTEND p) (DUE p)
    (COMPLETED p) (Some v) (DTSTAMP p) (SEQUENCE p)
    (PERCENT_COMPLETE p) (PRIORITY p) (other p).
Definition set_DTSTAMP (v : ICAL_Time) (p : Props) : Props :=
  mkProps (SUMMARY p) (DESCRIPTION p) (STATUS p) (DTSTART p) (DTEND p) (DUE p)
    (COMPLETED p) (LAST_MODIFIED p) (Some v) (SEQUENCE p)
    (PERCENT_COMPLETE p) (PRIORITY p) (other p).
Definition set_SEQUENCE (v : Z) (p : Props) : Props :=
  mkProps (SUMMARY p) (DESCRIPTION p) (STATUS p) (DTSTART p) (DTEND p) (DUE p)
    (COMPLETED p) (LAST_MODIFIED p) (DTSTAMP p) (Some v)
    (PERCENT_COMPLETE p) (PRIORITY p) (other p).
Definition set_PERCENT_COMPLETE (v : Z) (p : Props) : Props :=
  mkProps (SUMMARY p) (DESCRIPTION p) (STATUS p) (DTSTART p) (DTEND p) (DUE p)
    (COMPLETED p) (LAST_MODIFIED p) (DTSTAMP p) (SEQUENCE p)
    (Some v) (PRIORITY p) (other p).
Definition set_PRIORITY (v : Z) (p : Props) : Props :=
  mkProps (SUMMARY p) (DESCRIPTION p) (STATUS p) (DTSTART p) (DTEND p) (DUE p)
    (COMPLETED p) (LAST_MODIFIED p) (DTSTAMP p) (SEQUENCE p)
    (PERCENT_COMPLETE p) (Some v) (other p).

(** A component of the parsed tree: its lower-case name, its properties
    and its subcomponents. *)
#[local] Set Warnings "-register-all".
Inductive Component :=
| Comp (name : string) (props : Props) (subs : list Component).

Definition compName (c : Component) : string :=
  match c with Comp n _ _ => n end.
Definition compProps (c : Component) : Props :=
  match c with Comp _ p _ => p end.
Definition compSubs (c : Component) : list Component :=
  match c with Comp _ _ s => s end.

(** [comp.getFirstSubcomponent(name)]. *)
Definition getFirstSubcomponent (name : string) (c : Component)
  : option Component :=
  find (fun s => String.eqb (compName s) name) (compSubs c).

(** The subcomponent handed out by [getFirstSubcomponent] shares its
    storage with the tree: a property update on it is an update of the
    first subcomponent of that name inside the tree. *)
Fixpoint updateFirst (name : string) (f : Props -> Props)
  (l : list Component) : list Component :=
  match l with
  | [] => []
  | s :: rest =>
      if String.eqb (compName s) name
      then Comp (compName s) (f (compProps s)) (compSubs s) :: rest
      else s :: updateFirst name f rest
  end.

Definition withFirstSubcomponent (name : string) (f : Props -> Props)
  (c : Component) : Component :=
  Comp (compName c) (compProps c) (updateFirst name f (compSubs c)).

(** A value thrown or rejected by a library: whether it is an [Error],
    its [message], and its [String(...)] rendering. *)
Record Thrown := mkThrown {
  instanceofError : bool;
  message : string;
  asString : string
}.

(** [ICAL.parse] (which may throw) and [ICAL.stringify]. *)
Class ICAL := {
  ICAL_parse : string -> Thrown + Component;
  ICAL_stringify : Component -> string
}.

(** ** The CalDAV library, as the service sees it *)

(** What [_getXhrProvider] adds to every request: the client
    identification header and the text that goes, base64 encoded, into
    the Basic [Authorization] header. *)
Record XhrProvider := mkXhr {
  X_Requested_With : string;
  basicCredentials : string
}.

(** A located calendar object.  [update] and [delete] are the optional
    capabilities; a present capability answers with the outcome of the
    request it sends ([update] sends the object's current [data]). *)
Module VObject.
Record t := mk {
  data : string;
  url : string;
  etag : string;
  update : option (string -> Thrown + unit);
  delete : option (Thrown + unit)
}.
End VObject.

(** A calendar handle with the two requests the service sends through
    it: [calendarQuery] (by component name and uid text) and
    [createVObject]. *)
Module Calendar.
Record t := mk {
  displayname : option string;
  url : string;
  readOnly : bool;
  calendarQuery : string -> string -> Thrown + list VObject.t;
  createVObject : string -> Thrown + unit
}.
End Calendar.

Record CalendarHome := mkHome {
  findAllCalendars : Thrown + list Calendar.t
}.

Record DavClient := mkClient {
  rootUrl : option string;
  xhrProvider : XhrProvider;
  calendarHomes : list CalendarHome
}.

(** [interface ClientCache]. *)
Record ClientCache := mkClientCache {
  client : DavClient;
  calendars : gmap string Calendar.t
}.

(** ** Effects *)

Inductive SnackMsg :=
| CALENDAR_NOT_FOUND | CALENDAR_READ_ONLY | ERR_NETWORK | ERR_NOT_CONFIGURED.

Inductive Request :=
| Connect (rootUrl : option string) (xhr : XhrProvider)
| FindAllCalendars
| CalendarQuery (calendarUrl compName uid : string)
| CreateVObject (calendarUrl data : string)
| UpdateVObject (objectUrl data : string)
| DeleteVObject (objectUrl : string).

(** What an operation does that can be seen from outside, in order:
    error notifications, log lines and requests to the server. *)
Inductive Effect :=
| Snack (msg : SnackMsg) (translateParams : string * string)
| Log_log (text arg : string)
| Log_warn (text arg : string)
| Log_err (text : string)
| console_log (text : string)
| Net (r : Request).

Definition isWrite (e : Effect) : bool :=
  match e with
  | Net (CreateVObject _ _) | Net (UpdateVObject _ _)
  | Net (DeleteVObject _) => true
  | _ => false
  end.

Definition isNet (e : Effect) : bool :=
  match e with Net _ => true | _ => false end.

(** What an operation can reject with: an [Error] made by the service,
    the TypeError of a member access on [undefined], the RangeError of an
    invalid date, a library rejection passed on as it came, what
    [throwHandledError] throws, and the object
    [{ [HANDLED_ERROR_PROP_STR]: prefix + err }] of the public
    observables, kept as the prefix and the error that was caught. *)
Inductive js_error :=
| Error (message : string)
| TypeError
| RangeError
| Rejected (e : Thrown)
| HandledError (text : string)
| HandledErrorObject (prefix : string) (err : js_error).

Inductive Result (A : Type) :=
| Ok (a : A)
| Throw (e : js_error).
Arguments Ok {A} a.
Arguments Throw {A} e.

(** The service's own state ([_clientCache]) with what surrounds one
    call: the server's answer to a connection attempt, the clock and the
    next random UUID. *)
Record World := mkWorld {
  dav_connect : option string -> XhrProvider -> Thrown + list CalendarHome;
  clock : Z;
  randomUUID : string;
  _clientCache : gmap string ClientCache
}.

(** One run of an operation: how it settled, the world it left, and the
    effects it had, in order. *)
Record Run (A : Type) := mkRun {
  result : Result A;
  after : World;
  effects : list Effect
}.
Arguments mkRun {A} result after effects.
Arguments result {A} r.
Arguments after {A} r.
Arguments effects {A} r.

Definition M (A : Type) : Type := World -> Run A.

Definition ret {A} (a : A) : M A := fun w => mkRun (Ok a) w [].

Definition bind {A B} (c : M A) (k : A -> M B) : M B :=
  fun w =>
    match c w with
    | mkRun (Ok a) w' t =>
        match k a w' with
        | mkRun r w'' t' => mkRun r w'' (t ++ t')
        end
    | mkRun (Throw e) w' t => mkRun (Throw e) w' t
    end.

Definition throw {A} (e : js_error) : M A := fun w => mkRun (Throw e) w [].

Notation "x <- c1 ;; c2" := (bind c1 (fun x => c2))
  (at level 20, c1 at level 99, c2 at level 200).
Notation "c1 ;; c2" := (bind c1 (fun _ => c2))
  (at level 100, c2 at level 200, right associativity).

Definition getWorld : M World := fun w => mkRun (Ok w) w [].

Definition perform (e : Effect) : M unit := fun w => mkRun (Ok tt) w [e].

Definition setCache (c : gmap string ClientCache) : M unit :=
  fun w => mkRun (Ok tt)
             (mkWorld (dav_connect w) (clock w) (randomUUID w) c) [].

(** [await promise]: the request goes out, a rejection is thrown on. *)
Definition await {A} (r : Request) (answer : Thrown + A) : M A :=
  perform (Net r) ;;
  match answer with
  | inr a => ret a
  | inl e => throw (Rejected e)
  end.

(** ** The service *)

(** [field.length > 0], reached only for a truthy field. *)
Definition lengthPositive (o : option string) : bool :=
  match o with
  | Some s => (0 <? String.length s)%nat
  | None => false
  end.

(** [_isValidSettings].  The configuration is an object here, as its
    TypeScript type has it, so the leading [!!cfg] is true. *)
Definition _isValidSettings (cfg : CaldavCalendarCfg) : bool :=
  isEnabled cfg
  && truthy (caldavUrl cfg) && lengthPositive (caldavUrl cfg)
  && truthy (calendarName cfg) && lengthPositive (calendarName cfg)
  && truthy (username cfg) && lengthPositive (username cfg)
  && truthy (password cfg) && lengthPositive (password cfg).

(** [_getCalendarUriFromUrl]. *)
Definition _getCalendarUriFromUrl (url : string) : string :=
  afterLast "/" (dropTrailing "/" url).

(** [cal.displayname || _getCalendarUriFromUrl(cal.url)]. *)
Definition displayNameOf (cal : Calendar.t) : string :=
  if truthy (Calendar.displayname cal)
  then js_string_of (Calendar.displayname cal)
  else _getCalendarUriFromUrl (Calendar.url cal).

(** [_generateUid]. *)
Definition _generateUid : M string :=
  w <- getWorld ;; ret ("sp-" +:+ randomUUID w).

(** [_formatIcalDateTime] inside an operation: an invalid date throws. *)
Definition formatIcalDateTime (timestamp : Z) : M string :=
  match _formatIcalDateTime timestamp with
  | Some s => ret s
  | None => throw RangeError
  end.

(** [_getXhrProvider]. *)
Definition _getXhrProvider (cfg : CaldavCalendarCfg) : XhrProvider :=
  {| X_Requested_With := "SuperProductivity";
     basicCredentials :=
       js_string_of (username cfg) +:+ ":" +:+ js_string_of (password cfg) |}.

(** [_handleNetErr]. *)
Definition _handleNetErr {A} (err : Thrown) : M A :=
  perform (Snack ERR_NETWORK ("issueProviderName", "CalDAV Calendar")) ;;
  throw (Error ("CALDAV CALENDAR NETWORK ERROR: " +:+ asString err)).

(** [await promise.catch((err) => this._handleNetErr(err))]. *)
Definition await_catch {A} (r : Request) (answer : Thrown + A) : M A :=
  perform (Net r) ;;
  match answer with
  | inr a => ret a
  | inl e => _handleNetErr e
  end.

(** Modelled from the spec: [throwHandledError] of
    [util/throw-handled-error], which is not among the sources.  The
    configuration check "fails fast with NotConfigured": the helper
    throws, and what it throws carries the text it was given. *)
Definition throwHandledError {A} (text : string) : M A :=
  throw (HandledError text).

(** [_checkSettings]. *)
Definition _checkSettings (cfg : CaldavCalendarCfg) : M unit :=
  if negb (_isValidSettings cfg) then
    perform (Snack ERR_NOT_CONFIGURED
               ("issueProviderName", "CalDAV Calendar")) ;;
    throwHandledError "CalDAV Calendar: Not enough settings"
  else ret tt.

(** [_getClient].  The cache entry is a shared object; it is returned
    with the key it is stored under. *)
Definition _getClient (cfg : CaldavCalendarCfg) : M (string * ClientCache) :=
  _checkSettings cfg ;;
  let clientKey :=
    js_string_of (caldavUrl cfg) +:+ "|" +:+ js_string_of (username cfg)
    +:+ "|" +:+ js_string_of (password cfg) in
  w <- getWorld ;;
  match _clientCache w !! clientKey with
  | Some cache => ret (clientKey, cache)
  | None =>
      let xhr := _getXhrProvider cfg in
      homes <- await_catch (Connect (caldavUrl cfg) xhr)
                 (dav_connect w (caldavUrl cfg) xhr) ;;
      let cache :=
        {| client := {| rootUrl := caldavUrl cfg; xhrProvider := xhr;
                        calendarHomes := homes |};
           calendars := ∅ |} in
      setCache (<[clientKey := cache]> (_clientCache w)) ;;
      ret (clientKey, cache)
  end.

(** [_getCalendar].  [calendars.set] writes into the cache entry that
    [_getClient] handed out, which is the one stored in [_clientCache]. *)
Definition _getCalendar (cfg : CaldavCalendarCfg) : M Calendar.t :=
  kc <- _getClient cfg ;;
  let clientKey := fst kc in
  let clientCache := snd kc in
  let resource := js_string_of (calendarName cfg) in
  match calendars clientCache !! resource with
  | Some calendar => ret calendar
  | None =>
      match calendarHomes (client clientCache) with
      | [] => throw TypeError
      | home :: _ =>
          cals <- await_catch FindAllCalendars (findAllCalendars home) ;;
          match find (fun item => String.eqb (displayNameOf item) resource)
                  cals with
          | Some calendar =>
              w <- getWorld ;;
              setCache
                (<[clientKey :=
                     {| client := client clientCache;
                        calendars :=
                          <[resource := calendar]> (calendars clientCache) |}]>
                   (_clientCache w)) ;;
              ret calendar
          | None =>
              perform (Snack CALENDAR_NOT_FOUND
                         ("calendarName", js_string_of (calendarName cfg))) ;;
              throw (Error ("CALENDAR NOT FOUND: "
                            +:+ js_string_of (calendarName cfg)))
          end
      end
  end.

(** The guard that opens every create and update. *)
Definition rejectReadOnly (cfg : CaldavCalendarCfg) (calendar : Calendar.t)
  : M unit :=
  if Calendar.readOnly calendar then
    perform (Snack CALENDAR_READ_ONLY
               ("calendarName", js_string_of (calendarName cfg))) ;;
    throw (Error ("CALENDAR READ ONLY: " +:+ js_string_of (calendarName cfg)))
  else ret tt.

(** [_findEventByUid] and [_findTodoByUid]: one [calendar-query] for the
    component type and the uid text; a rejection is not caught. *)
Definition _findEventByUid (calendar : Calendar.t) (eventUid : string)
  : M (list VObject.t) :=
  await (CalendarQuery (Calendar.url calendar) "VEVENT" eventUid)
    (Calendar.calendarQuery calendar "VEVENT" eventUid).

Definition _findTodoByUid (calendar : Calendar.t) (todoUid : string)
  : M (list VObject.t) :=
  await (CalendarQuery (Calendar.url calendar) "VTODO" todoUid)
    (Calendar.calendarQuery calendar "VTODO" todoUid).

Definition PRODID : string :=
  "PRODID:-//Super Productivity//CalDAV Calendar Sync//EN".

(** The template literal of [_createEvent]. *)
Definition eventIcalData (uid now dtstart dtend : string)
  (eventData : Event.data) : string :=
  "BEGIN:VCALENDAR" +:+ nl +:+
  "VERSION:2.0" +:+ nl +:+
  PRODID +:+ nl +:+
  "BEGIN:VEVENT" +:+ nl +:+
  "UID:" +:+ uid +:+ nl +:+
  "DTSTAMP:" +:+ now +:+ nl +:+
  "DTSTART:" +:+ dtstart +:+ nl +:+
  "DTEND:" +:+ dtend +:+ nl +:+
  "SUMMARY:" +:+ _escapeIcalText (Event.summary eventData) +:+ nl +:+
  (if truthy (Event.description eventData)
   then "DESCRIPTION:"
        +:+ _escapeIcalText (js_string_of (Event.description eventData))
   else EmptyString) +:+ nl +:+
  "SEQUENCE:0" +:+ nl +:+
  "END:VEVENT" +:+ nl +:+
  "END:VCALENDAR".

(** [eventData.uid || _generateUid()]. *)
Definition uidOrGenerated (uid : string) : M string :=
  if truthy (Some uid) then ret uid else _generateUid.

(** [_createEvent]. *)
Definition _createEvent (cfg : CaldavCalendarCfg) (eventData : Event.data)
  : M string :=
  perform (console_log "CalDAV: Creating event") ;;
  calendar <- _getCalendar cfg ;;
  perform (console_log "CalDAV: Got calendar") ;;
  rejectReadOnly cfg calendar ;;
  uid <- uidOrGenerated (Event.uid eventData) ;;
  w <- getWorld ;;
  now <- formatIcalDateTime (clock w) ;;
  dtstart <- formatIcalDateTime (Event.start eventData) ;;
  dtend <- formatIcalDateTime (Event.end_ eventData) ;;
  let icalData := eventIcalData uid now dtstart dtend eventData in
  await_catch (CreateVObject (Calendar.url calendar) icalData)
    (Calendar.createVObject calendar icalData) ;;
  perform (Log_log "CalDAV Calendar: Created event" uid) ;;
  ret uid.

(** A number inside a template literal (integers only). *)
Definition numberToString (n : Z) : string := JsNumber.toString n.

(** The text [_createTodo] builds: a template literal, four conditional
    appends, and the closing lines. *)
Definition todoIcalData (uid now : string) (due : option string)
  (todoData : Todo.data) : string :=
  let icalData :=
    "BEGIN:VCALENDAR" +:+ nl +:+
    "VERSION:2.0" +:+ nl +:+
    PRODID +:+ nl +:+
    "BEGIN:VTODO" +:+ nl +:+
    "UID:" +:+ uid +:+ nl +:+
    "DTSTAMP:" +:+ now +:+ nl +:+
    "CREATED:" +:+ now +:+ nl +:+
    "SUMMARY:" +:+ _escapeIcalText (Todo.summary todoData) +:+ nl +:+
    "STATUS:" +:+ match Todo.status todoData with
                  | Some s => statusText s
                  | None => "NEEDS-ACTION"
                  end in
  let icalData :=
    if truthy (Todo.description todoData)
    then icalData +:+ nl +:+ "DESCRIPTION:"
         +:+ _escapeIcalText (js_string_of (Todo.description todoData))
    else icalData in
  let icalData :=
    match Todo.priority todoData with
    | Some p => icalData +:+ nl +:+ "PRIORITY:" +:+ numberToString p
    | None => icalData
    end in
  let icalData :=
    match due with
    | Some dueStr => icalData +:+ nl +:+ "DUE:" +:+ dueStr
    | None => icalData
    end in
  let icalData :=
    match Todo.percentComplete todoData with
    | Some p => icalData +:+ nl +:+ "PERCENT-COMPLETE:" +:+ numberToString p
    | None => icalData
    end in
  icalData +:+ nl +:+
  "SEQUENCE:0" +:+ nl +:+
  "END:VTODO" +:+ nl +:+
  "END:VCALENDAR".

(** [_createTodo]. *)
Definition _createTodo (cfg : CaldavCalendarCfg) (todoData : Todo.data)
  : M string :=
  perform (console_log "CalDAV: Creating VTODO") ;;
  calendar <- _getCalendar cfg ;;
  perform (console_log "CalDAV: Got calendar for VTODO") ;;
  rejectReadOnly cfg calendar ;;
  uid <- uidOrGenerated (Todo.uid todoData) ;;
  w <- getWorld ;;
  now <- formatIcalDateTime (clock w) ;;
  due <- match Todo.dueDate todoData with
         | Some d => s <- formatIcalDateTime d ;; ret (Some s)
         | None => ret None
         end ;;
  let icalData := todoIcalData uid now due todoData in
  await_catch (CreateVObject (Calendar.url calendar) icalData)
    (Calendar.createVObject calendar icalData) ;;
  perform (Log_log "CalDAV Calendar: Created VTODO" uid) ;;
  ret uid.

(** *** Change detection and the revision bump *)

(** [eventData.summary !== oldSummary] on a provided summary. *)
Definition differs (summary : string) (oldSummary : option string) : bool :=
  match oldSummary with
  | Some old => negb (String.eqb summary old)
  | None => true
  end.

(** The running pair of the edited properties and [changeObserved]. *)
Definition Edit : Type := Props * bool.

Definition ifChanged (summary : option string) (st : Edit) : Edit :=
  match summary with
  | Some s =>
      if differs s (SUMMARY (fst st)) then (set_SUMMARY s (fst st), true)
      else st
  | None => st
  end.

Definition whenProvided {V} (set : V -> Props -> Props) (v : option V)
  (st : Edit) : Edit :=
  match v with
  | Some x => (set x (fst st), true)
  | None => st
  end.

(** The four [if (eventData.x !== undefined)] blocks of [_updateEvent],
    in order. *)
Definition patchEvent (eventData : EventPatch.data) (vevent : Props) : Edit :=
  let st := (vevent, false) in
  let st := ifChanged (EventPatch.summary eventData) st in
  let st := whenProvided set_DTSTART
              (option_map fromJSDate (EventPatch.start eventData)) st in
  let st := whenProvided set_DTEND
              (option_map fromJSDate (EventPatch.end_ eventData)) st in
  let st := whenProvided set_DESCRIPTION
              (EventPatch.description eventData) st in
  st.

Definition isCompleted (s : TodoStatus) : bool :=
  match s with COMPLETED_ => true | _ => false end.

(** The [status] block of [_updateTodo]. *)
Definition patchStatus (now : ICAL_Time) (status : option TodoStatus)
  (st : Edit) : Edit :=
  match status with
  | Some s =>
      let v := set_STATUS (statusText s) (fst st) in
      (if isCompleted s then set_COMPLETED now v else v, true)
  | None => st
  end.

(** The six blocks of [_updateTodo], in order. *)
Definition patchTodo (now : ICAL_Time) (todoData : TodoPatch.data)
  (vtodo : Props) : Edit :=
  let st := (vtodo, false) in
  let st := ifChanged (TodoPatch.summary todoData) st in
  let st := whenProvided set_DESCRIPTION
              (TodoPatch.description todoData) st in
  let st := patchStatus now (TodoPatch.status todoData) st in
  let st := whenProvided set_PERCENT_COMPLETE
              (TodoPatch.percentComplete todoData) st in
  let st := whenProvided set_PRIORITY (TodoPatch.priority todoData) st in
  let st := whenProvided set_DUE
              (option_map fromJSDate (TodoPatch.dueDate todoData)) st in
  st.

(** [sequence ? parseInt(sequence) + 1 : 1]: [null] and [0] are falsy.
    The value read is a Number, so [parseInt] reads its text, and the
    sum is a Number again.  NaN, which [parseInt] gives for a text
    without digit, is not the case for the text of an integer. *)
Definition sequenceInt (sequence : option Z) : Z :=
  match sequence with
  | Some n =>
      if n =? 0 then 1
      else match JsNumber.parseInt (JsNumber.toString n) with
           | Some m => JsNumber.add m 1
           | None => n
           end
  | None => 1
  end.

(** The three updates that precede every write. *)
Definition bumpRevision (now : ICAL_Time) (v : Props) : Props :=
  let v := set_LAST_MODIFIED now v in
  let v := set_DTSTAMP now v in
  set_SEQUENCE (sequenceInt (SEQUENCE v)) v.

(** *** Update, delete and the connection test *)

(** [if (obj.update) await obj.update().catch(_handleNetErr)], after
    [obj.data = data]. *)
Definition updateIfCapable (obj : VObject.t) (data : string) : M unit :=
  match VObject.update obj with
  | Some update =>
      await_catch (UpdateVObject (VObject.url obj) data) (update data)
  | None => ret tt
  end.

(** [if (obj.delete) await obj.delete().catch(_handleNetErr)]. *)
Definition deleteIfCapable (obj : VObject.t) : M unit :=
  match VObject.delete obj with
  | Some answer => await_catch (DeleteVObject (VObject.url obj)) answer
  | None => ret tt
  end.

(** [_deleteEvent]. *)
Definition _deleteEvent (cfg : CaldavCalendarCfg) (uid : string) : M unit :=
  calendar <- _getCalendar cfg ;;
  events <- _findEventByUid calendar uid ;;
  match events with
  | [] => perform (Log_warn "CalDAV Calendar: Event not found for deletion" uid)
  | event :: _ =>
      deleteIfCapable event ;;
      perform (Log_log "CalDAV Calendar: Deleted event" uid)
  end.

(** [_deleteTodo]. *)
Definition _deleteTodo (cfg : CaldavCalendarCfg) (uid : string) : M unit :=
  calendar <- _getCalendar cfg ;;
  todos <- _findTodoByUid calendar uid ;;
  match todos with
  | [] => perform (Log_warn "CalDAV Calendar: VTODO not found for deletion" uid)
  | todo :: _ =>
      deleteIfCapable todo ;;
      perform (Log_log "CalDAV Calendar: Deleted VTODO" uid)
  end.

(** The outcome of [testConnection]. *)
Module ConnectionTest.
Record t := mk {
  success : bool;
  calendars : option (list string);
  error : option string
}.
End ConnectionTest.

(** [err instanceof Error ? err.message : String(err)]. *)
Definition errorMsg (err : Thrown) : string :=
  if instanceofError err then message err else asString err.

(** An [await] inside the [try] of [testConnection]: a rejection ends
    the test with [success: false]. *)
Definition await_or_fail {A} (r : Request) (answer : Thrown + A)
  (k : A -> M ConnectionTest.t) : M ConnectionTest.t :=
  perform (Net r) ;;
  match answer with
  | inr a => k a
  | inl err => ret (ConnectionTest.mk false None (Some (errorMsg err)))
  end.

Definition notFoundMessage (targetCalendar : option string)
  (calendarNames : list string) : string :=
  "Calendar " +:+ char dquote +:+ js_string_of targetCalendar +:+ char dquote
  +:+ " not found. Available: " +:+ join ", " calendarNames.

(** [testConnection]. *)
Definition testConnection (cfg : CaldavCalendarCfg) : M ConnectionTest.t :=
  setCache ∅ ;;
  w <- getWorld ;;
  let xhr := _getXhrProvider cfg in
  await_or_fail (Connect (caldavUrl cfg) xhr)
    (dav_connect w (caldavUrl cfg) xhr)
    (fun homes =>
       match homes with
       | [] => ret (ConnectionTest.mk false None
                      (Some "No calendar home found"))
       | home :: _ =>
           await_or_fail FindAllCalendars (findAllCalendars home)
             (fun cals =>
                let calendarNames := map displayNameOf cals in
                let targetCalendar := calendarName cfg in
                let calendarFound :=
                  if truthy targetCalendar
                  then existsb (String.eqb (js_string_of targetCalendar))
                         calendarNames
                  else true in
                ret (ConnectionTest.mk true (Some calendarNames)
                       (if calendarFound then None
                        else Some (notFoundMessage targetCalendar
                                     calendarNames))))
       end).

Section WithICAL.

Context `{ICAL}.

(** [_updateEvent].  The edits go to the subcomponent inside the parsed
    tree, which is what [ICAL.stringify] then serialises. *)
Definition _updateEvent (cfg : CaldavCalendarCfg) (uid : string)
  (eventData : EventPatch.data) : M unit :=
  calendar <- _getCalendar cfg ;;
  rejectReadOnly cfg calendar ;;
  events <- _findEventByUid calendar uid ;;
  match events with
  | [] => perform (Log_warn "CalDAV Calendar: Event not found for update" uid)
  | event :: _ =>
      match ICAL_parse (VObject.data event) with
      | inl err => throw (Rejected err)
      | inr jCal =>
          match getFirstSubcomponent "vevent" jCal with
          | None => perform (Log_err "No vevent found")
          | Some vevent =>
              w <- getWorld ;;
              let now := fromJSDate (clock w) in
              let changeObserved :=
                snd (patchEvent eventData (compProps vevent)) in
              if negb changeObserved then ret tt
              else
                let edit v := bumpRevision now (fst (patchEvent eventData v)) in
                let data :=
                  ICAL_stringify (withFirstSubcomponent "vevent" edit jCal) in
                updateIfCapable event data ;;
                perform (Log_log "CalDAV Calendar: Updated event" uid)
          end
      end
  end.

(** [_updateTodo]. *)
Definition _updateTodo (cfg : CaldavCalendarCfg) (uid : string)
  (todoData : TodoPatch.data) : M unit :=
  calendar <- _getCalendar cfg ;;
  rejectReadOnly cfg calendar ;;
  todos <- _findTodoByUid calendar uid ;;
  match todos with
  | [] => perform (Log_warn "CalDAV Calendar: VTODO not found for update" uid)
  | todo :: _ =>
      match ICAL_parse (VObject.data todo) with
      | inl err => throw (Rejected err)
      | inr jCal =>
          match getFirstSubcomponent "vtodo" jCal with
          | None => perform (Log_err "No vtodo found")
          | Some vtodo =>
              w <- getWorld ;;
              let now := fromJSDate (clock w) in
              let changeObserved :=
                snd (patchTodo now todoData (compProps vtodo)) in
              if negb changeObserved then ret tt
              else
                let edit v :=
                  bumpRevision now (fst (patchTodo now todoData v)) in
                let data :=
                  ICAL_stringify (withFirstSubcomponent "vtodo" edit jCal) in
                updateIfCapable todo data ;;
                perform (Log_log "CalDAV Calendar: Updated VTODO" uid)
          end
      end
  end.

(** The payload of [completeTodo$]. *)
Definition completedPatch : TodoPatch.data :=
  TodoPatch.mk None None None None None (Some 100) (Some COMPLETED_).

End WithICAL.

(** *** The public observables *)

(** [from(promise).pipe(catchError((err) => throwError(...)))].  The
    observables [createEvent$], [updateEvent$] and so on are written
    [createEvent'], [updateEvent'] here. *)
Definition observe {A} (prefix : string) (c : M A) : M A :=
  fun w =>
    match c w with
    | mkRun (Ok a) w' t => mkRun (Ok a) w' t
    | mkRun (Throw e) w' t => mkRun (Throw (HandledErrorObject prefix e)) w' t
    end.

Definition createEvent' cfg eventData :=
  observe "CalDAV Calendar: " (_createEvent cfg eventData).
Definition updateEvent' `{ICAL} cfg uid eventData :=
  observe "CalDAV Calendar: " (_updateEvent cfg uid eventData).
Definition deleteEvent' cfg uid :=
  observe "CalDAV Calendar: " (_deleteEvent cfg uid).
Definition createTodo' cfg todoData :=
  observe "CalDAV Calendar (VTODO): " (_createTodo cfg todoData).
Definition updateTodo' `{ICAL} cfg uid todoData :=
  observe "CalDAV Calendar (VTODO): " (_updateTodo cfg uid todoData).
Definition completeTodo' `{ICAL} cfg uid :=
  observe "CalDAV Calendar (VTODO): " (_updateTodo cfg uid completedPatch).
Definition deleteTodo' cfg uid :=
  observe "CalDAV Calendar (VTODO): " (_deleteTodo cfg uid).

(** ** The effects of [CaldavCalendarEffects] *)

(** The fields of a task that the effects read.  A field that can be
    [undefined] or [null] is [None] then. *)
Module Task.
Record t := mk {
  id : string;
  title : string;
  timeEstimate : Z;
  notes : option string;
  calendarEventUid : option string;
  parentId : option string
}.
End Task.

(** The [changes] of an [updateTask] action, with the fields the effects
    read or write.  For [calendarEventUid], [Some None] is [null]. *)
Module Changes.
Record t := mk {
  title : option string;
  isDone : option bool;
  calendarEventUid : option (option string);
  dueWithTime : option Z
}.
End Changes.

Inductive Action :=
| scheduleTaskWithTime (task : Task.t) (dueWithTime : Z)
| reScheduleTaskWithTime (task : Task.t) (dueWithTime : Z)
| unscheduleTask (id : string)
| deleteTask (task : Task.t)
| addTask (task : Task.t)
| updateTask (id : string) (changes : Changes.t) (isIgnoreShortSyntax : bool)
| otherAction (type : string).

(** What the effects read from the application: the latest value of
    [caldavCalendar$], the task store behind [getByIdOnce$], and the
    time zone of the host, as the offset of local time in milliseconds
    at a time value that is in UTC ([true]) or local ([false]). *)
Record App := mkApp {
  caldavCalendar : option CaldavCalendarCfg;
  getByIdOnce : string -> option Task.t;
  LocalTZA : Z -> bool -> Z
}.

(** *** Local time *)

(** The time arithmetic of [Date]: a time value is a count of
    milliseconds, [None] is NaN. *)
Definition Day (t : Z) : Z := t / 86400000.
Definition HourFromTime (t : Z) : Z := (t / 3600000) mod 24.
Definition MinFromTime (t : Z) : Z := (t / 60000) mod 60.
Definition SecFromTime (t : Z) : Z := (t / 1000) mod 60.
Definition msFromTime (t : Z) : Z := t mod 1000.

Definition MakeTime (hour min sec ms : Z) : Z :=
  hour * 3600000 + min * 60000 + sec * 1000 + ms.

Definition MakeDate (day time : Z) : Z := day * 86400000 + time.

Definition TimeClip (t : Z) : option Z :=
  if validTime t then Some t else None.

Definition LocalTime (app : App) (t : Z) : Z := t + LocalTZA app t true.

Definition UTC (app : App) (t : Z) : Z := t - LocalTZA app t false.

(** [date.setMinutes(min, sec, ms)], [date.getHours()] and
    [date.setHours(hour)]. *)
Definition setMinutes (app : App) (date : option Z) (min sec ms : Z)
  : option Z :=
  match date with
  | Some t =>
      let t := LocalTime app t in
      TimeClip (UTC app (MakeDate (Day t) (MakeTime (HourFromTime t) min sec ms)))
  | None => None
  end.

Definition getHours (app : App) (date : option Z) : option Z :=
  option_map (fun t => HourFromTime (LocalTime app t)) date.

Definition setHours (app : App) (date : option Z) (hour : option Z)
  : option Z :=
  match date, hour with
  | Some t, Some hour =>
      let t := LocalTime app t in
      TimeClip (UTC app (MakeDate (Day t)
                           (MakeTime hour (MinFromTime t) (SecFromTime t)
                              (msFromTime t))))
  | _, _ => None
  end.

(** [date.getTime()].  The service does one thing with a time, it
    formats it, which throws for NaN as for every number outside the
    range of dates: NaN is kept as such a number. *)
Definition getTime (date : option Z) : Z :=
  match date with
  | Some t => t
  | None => 8640000000000001
  end.

(** The start of the event of a new task: [new Date(now)], then
    [setMinutes(0, 0, 0)], then [setHours(getHours() + 1)]. *)
Definition nextFullHour (app : App) (now : Z) : Z :=
  let nextHour := TimeClip now in
  let nextHour := setMinutes app nextHour 0 0 0 in
  let nextHour :=
    setHours app nextHour
      (option_map (fun hour => hour + 1) (getHours app nextHour)) in
  getTime nextHour.

(** What can be seen of an effect, in order: what the service did, the
    lines of the effect itself, the actions it hands to the store with
    [_store.dispatch], and the notifications of the settings form. *)
Inductive Seen :=
| Did (e : Effect)
| console_error (text : string)
| store_dispatch (a : Action)
| snack_open (type msg : string) (ico : option string).

(** One action through one effect: the actions the effect emits, the
    world it leaves, and what was seen. *)
Record Outcome := mkOutcome {
  emitted : list Action;
  world : World;
  seen : list Seen
}.

Definition Fx : Type := World -> Outcome.

(** The action does not pass the filters. *)
Definition nothing : Fx := fun w => mkOutcome [] w [].

(** What follows the value of a service call in the pipe: [map] to an
    action in an effect that dispatches, [map] to [_store.dispatch] or
    nothing at all in an effect with [dispatch: false]. *)
Definition emit {A} (f : A -> Action) (a : A) : list Action * list Seen :=
  ([f a], []).

Definition dispatch {A} (f : A -> Action) (a : A)
  : list Action * list Seen :=
  ([], [store_dispatch (f a)]).

Definition ignore {A} (a : A) : list Action * list Seen := ([], []).

(** [call.pipe(map(next), catchError((err) => { ...; return EMPTY; }))]. *)
Definition pipe {A} (call : M A) (next : A -> list Action * list Seen)
  (caught : list Seen) : Fx :=
  fun w =>
    match call w with
    | mkRun (Ok a) w' t =>
        mkOutcome (fst (next a)) w' (map Did t ++ snd (next a))%list
    | mkRun (Throw _) w' t => mkOutcome [] w' (map Did t ++ caught)%list
    end.

Definition DEFAULT_EVENT_DURATION_MS : Z := 60 * 60 * 1000.

(** [_isEnabled]. *)
Definition _isEnabled (cfg : option CaldavCalendarCfg) : bool :=
  match cfg with
  | Some cfg =>
      isEnabled cfg && truthy (caldavUrl cfg) && truthy (calendarName cfg)
      && truthy (username cfg) && truthy (password cfg)
  | None => false
  end.

(** [_isTodoSyncEnabled]. *)
Definition _isTodoSyncEnabled (cfg : option CaldavCalendarCfg) : bool :=
  _isEnabled cfg
  && match cfg with Some cfg => syncTodos cfg | None => false end.

(** [withLatestFrom(caldavCalendar$), filter(([_, cfg]) => gate(cfg))],
    and [cfg!] behind it. *)
Definition withLatestCfg (gate : option CaldavCalendarCfg -> bool)
  (app : App) (k : CaldavCalendarCfg -> Fx) : Fx :=
  if gate (caldavCalendar app) then
    match caldavCalendar app with
    | Some cfg => k cfg
    | None => nothing
    end
  else nothing.

(** [getByIdOnce$(id).pipe(filter((task) => !!task?.calendarEventUid
    && ...), mergeMap(...))]. *)
Definition withLinkedTask (app : App) (id : string)
  (accepts : string -> bool) (k : string -> Fx) : Fx :=
  match getByIdOnce app id with
  | Some task =>
      if truthy (Task.calendarEventUid task)
         && accepts (js_string_of (Task.calendarEventUid task))
      then k (js_string_of (Task.calendarEventUid task))
      else nothing
  | None => nothing
  end.

(** [task.timeEstimate || DEFAULT_EVENT_DURATION_MS]. *)
Definition durationOf (task : Task.t) : Z :=
  if Task.timeEstimate task =? 0 then DEFAULT_EVENT_DURATION_MS
  else Task.timeEstimate task.

(** The record [eventData] that three effects build for a task. *)
Definition taskEventData (task : Task.t) (start : Z) : Event.data :=
  Event.mk ("sp-task-" +:+ Task.id task) (Task.title task) start
    (start + durationOf task)
    (if truthy (Task.notes task) then Task.notes task else None).

(** [updateTask({ task: { id, changes: { calendarEventUid } },
    isIgnoreShortSyntax: true })]. *)
Definition setEventUid (id : string) (uid : option string) : Action :=
  updateTask id (Changes.mk None None (Some uid) None) true.

Definition startsWith (prefix s : string) : bool := String.prefix prefix s.

Definition anyUid (uid : string) : bool := true.

(** [createEventOnSchedule$]. *)
Definition createEventOnSchedule (app : App) (action : Action) : Fx :=
  match action with
  | scheduleTaskWithTime task dueWithTime =>
      withLatestCfg _isEnabled app (fun cfg =>
        pipe (createEvent' cfg (taskEventData task dueWithTime))
          (emit (fun uid => setEventUid (Task.id task) (Some uid)))
          [console_error "CalDAV Calendar: Failed to create event";
           Did (Log_err "CalDAV Calendar: Failed to create event")])
  | _ => nothing
  end.

(** [deleteEventOnUnschedule$]. *)
Definition deleteEventOnUnschedule (app : App) (action : Action) : Fx :=
  match action with
  | unscheduleTask id =>
      withLatestCfg _isEnabled app (fun cfg =>
        withLinkedTask app id anyUid (fun uid =>
          pipe (deleteEvent' cfg uid)
            (dispatch (fun _ => setEventUid id None))
            [Did (Log_err "CalDAV Calendar: Failed to delete event")]))
  | _ => nothing
  end.

(** [deleteEventOnTaskDelete$]. *)
Definition deleteEventOnTaskDelete (app : App) (action : Action) : Fx :=
  match action with
  | deleteTask task =>
      withLatestCfg
        (fun cfg => _isEnabled cfg && truthy (Task.calendarEventUid task))
        app (fun cfg =>
          pipe (deleteEvent' cfg (js_string_of (Task.calendarEventUid task)))
            ignore
            [Did (Log_err
                    "CalDAV Calendar: Failed to delete event on task delete")])
  | _ => nothing
  end.

(** The pipe that both effects on a finished task end in. *)
Definition deleteOnTaskDone (cfg : CaldavCalendarCfg) (id uid : string) : Fx :=
  pipe (deleteEvent' cfg uid)
    (dispatch (fun _ => setEventUid id None))
    [Did (Log_err "CalDAV Calendar: Failed to delete event on task done")].

(** [deleteEventOnTaskDone$]. *)
Definition deleteEventOnTaskDone (app : App) (action : Action) : Fx :=
  match action with
  | updateTask id changes _ =>
      match Changes.isDone changes with
      | Some true =>
          withLatestCfg _isEnabled app (fun cfg =>
            withLinkedTask app id anyUid (deleteOnTaskDone cfg id))
      | _ => nothing
      end
  | _ => nothing
  end.

(** [createEventOnAddTask$]. *)
Definition createEventOnAddTask (app : App) (action : Action) : Fx :=
  match action with
  | addTask task =>
      withLatestCfg
        (fun cfg => _isTodoSyncEnabled cfg && negb (truthy (Task.parentId task)))
        app (fun cfg w =>
          let startTime := nextFullHour app (clock w) in
          pipe (createEvent' cfg (taskEventData task startTime))
            (emit (fun uid =>
                     updateTask (Task.id task)
                       (Changes.mk None None (Some (Some uid)) (Some startTime))
                       true))
            [Did (Log_err "CalDAV Calendar: Failed to create event for task")]
            w)
  | _ => nothing
  end.

(** [deleteSyncedEventOnTaskDone$]. *)
Definition deleteSyncedEventOnTaskDone (app : App) (action : Action) : Fx :=
  match action with
  | updateTask id changes _ =>
      match Changes.isDone changes with
      | Some true =>
          withLatestCfg _isTodoSyncEnabled app (fun cfg =>
            withLinkedTask app id (startsWith "sp-task-")
              (deleteOnTaskDone cfg id))
      | _ => nothing
      end
  | _ => nothing
  end.

(** [deleteSyncedEventOnTaskDelete$]. *)
Definition deleteSyncedEventOnTaskDelete (app : App) (action : Action) : Fx :=
  match action with
  | deleteTask task =>
      withLatestCfg
        (fun cfg =>
           _isTodoSyncEnabled cfg && truthy (Task.calendarEventUid task)
           && startsWith "sp-task-" (js_string_of (Task.calendarEventUid task)))
        app (fun cfg =>
          pipe (deleteEvent' cfg (js_string_of (Task.calendarEventUid task)))
            ignore
            [Did (Log_err "CalDAV Calendar: Failed to delete synced event")])
  | _ => nothing
  end.

Section Effects.

Context `{ICAL}.

(** [updateEventOnReschedule$]. *)
Definition updateEventOnReschedule (app : App) (action : Action) : Fx :=
  match action with
  | reScheduleTaskWithTime task dueWithTime =>
      withLatestCfg _isEnabled app (fun cfg =>
        if negb (truthy (Task.calendarEventUid task)) then
          pipe (createEvent' cfg (taskEventData task dueWithTime))
            (dispatch (fun uid => setEventUid (Task.id task) (Some uid)))
            [Did (Log_err
                    "CalDAV Calendar: Failed to create event on reschedule")]
        else
          pipe (updateEvent' cfg (js_string_of (Task.calendarEventUid task))
                  (EventPatch.mk None None (Some dueWithTime)
                     (Some (dueWithTime + durationOf task)) None))
            ignore
            [Did (Log_err "CalDAV Calendar: Failed to update event")])
  | _ => nothing
  end.

(** The pipe that both effects on a changed title end in. *)
Definition updateTitle (cfg : CaldavCalendarCfg) (title : option string)
  (uid : string) : Fx :=
  pipe (updateEvent' cfg uid
          (EventPatch.mk None (Some (js_string_of title)) None None None))
    ignore
    [Did (Log_err "CalDAV Calendar: Failed to update event title")].

(** [updateEventOnTitleChange$]. *)
Definition updateEventOnTitleChange (app : App) (action : Action) : Fx :=
  match action with
  | updateTask id changes _ =>
      if truthy (Changes.title changes) then
        withLatestCfg _isEnabled app (fun cfg =>
          withLinkedTask app id anyUid (updateTitle cfg (Changes.title changes)))
      else nothing
  | _ => nothing
  end.

(** [updateSyncedEventOnTitleChange$]. *)
Definition updateSyncedEventOnTitleChange (app : App) (action : Action) : Fx :=
  match action with
  | updateTask id changes _ =>
      if truthy (Changes.title changes) then
        withLatestCfg _isTodoSyncEnabled app (fun cfg =>
          withLinkedTask app id (startsWith "sp-task-")
            (updateTitle cfg (Changes.title changes)))
      else nothing
  | _ => nothing
  end.

(** The effects of the class, in the order of their declaration. *)
Definition allEffects (app : App) (action : Action) : list Fx :=
  [createEventOnSchedule app action; updateEventOnReschedule app action;
   deleteEventOnUnschedule app action; deleteEventOnTaskDelete app action;
   updateEventOnTitleChange app action; deleteEventOnTaskDone app action;
   createEventOnAddTask app action; updateSyncedEventOnTitleChange app action;
   deleteSyncedEventOnTaskDone app action;
   deleteSyncedEventOnTaskDelete app action].

End Effects.

(** ** The settings form, [CaldavCalendarCfgComponent] *)

Module CfgComponent.
Record t := mk {
  localCfg : CaldavCalendarCfg;
  isTesting : bool;
  testResult : option ConnectionTest.t
}.
End CfgComponent.

(** The notification that follows the answer of the service. *)
Definition testSnack (result : ConnectionTest.t) : list Seen :=
  if ConnectionTest.success result && negb (truthy (ConnectionTest.error result))
  then [snack_open "SUCCESS" "Connection successful!" None]
  else if ConnectionTest.success result && truthy (ConnectionTest.error result)
  then [snack_open "CUSTOM" (js_string_of (ConnectionTest.error result))
          (Some "warning")]
  else [].

(** [testConnection] of the form, from the click to the end of
    [finally].  [describe] is the text of a caught error,
    [err instanceof Error ? err.message : String(err)]. *)
Definition formTestConnection (describe : js_error -> string)
  (form : CfgComponent.t) (w : World) : CfgComponent.t * World * list Seen :=
  match testConnection (CfgComponent.localCfg form) w with
  | mkRun (Ok result) w' t =>
      (CfgComponent.mk (CfgComponent.localCfg form) false (Some result), w',
       (map Did t ++ testSnack result)%list)
  | mkRun (Throw err) w' t =>
      (CfgComponent.mk (CfgComponent.localCfg form) false
         (Some (ConnectionTest.mk false None (Some (describe err)))), w',
       map Did t)
  end.

(** ** A small server and codec to run the service against *)

Module Sample.

Definition cfg : CaldavCalendarCfg :=
  {| isEnabled := true;
     caldavUrl := Some "https://dav.example.org/";
     calendarName := Some "Work";
     username := Some "alice";
     password := Some "secret";
     syncTodos := true |}.

Definition noProps : Props :=
  mkProps None None None None None None None None None None None None [].

(** A stored event at revision 3 and a stored todo at revision 0. *)
Definition veventProps : Props :=
  mkProps (Some "Write report") None None
    (Some (fromJSDate 1700000000000)) (Some (fromJSDate 1700003600000))
    None None None (Some (fromJSDate 1690000000000)) (Some 3) None None
    [("UID", "sp-task-42")].

Definition vtodoProps : Props :=
  mkProps (Some "Buy milk") None (Some "NEEDS-ACTION")
    None None None None None (Some (fromJSDate 1690000000000)) (Some 0)
    None None [("UID", "sp-task-7")].

Definition eventTree : Component :=
  Comp "vcalendar" noProps [Comp "vevent" veventProps []].

Definition todoTree : Component :=
  Comp "vcalendar" noProps [Comp "vtodo" vtodoProps []].

Definition eventText : string := "ICS text of sp-task-42".
Definition todoText : string := "ICS text of sp-task-7".

Definition parseError : Thrown :=
  mkThrown true "invalid ical body" "ParserError: invalid ical body".

(** The codec of the sample: it reads the two stored texts, and writes a
    tree as the name of its first subcomponent with that component's
    SEQUENCE. *)
Definition render (c : Component) : string :=
  match compSubs c with
  | s :: _ =>
      compName s +:+ " SEQUENCE:"
      +:+ match SEQUENCE (compProps s) with
          | Some n => numberToString n
          | None => "-"
          end
  | [] => "empty"
  end.

Definition codec : ICAL :=
  {| ICAL_parse := fun text =>
       if String.eqb text eventText then inr eventTree
       else if String.eqb text todoText then inr todoTree
       else inl parseError;
     ICAL_stringify := render |}.

Definition storedEvent (canUpdate canDelete : bool) : VObject.t :=
  VObject.mk eventText "https://dav.example.org/cal/work/42.ics" "etag-42"
    (if canUpdate then Some (fun _ => inr tt) else None)
    (if canDelete then Some (inr tt) else None).

Definition storedTodo (canUpdate canDelete : bool) : VObject.t :=
  VObject.mk todoText "https://dav.example.org/cal/work/7.ics" "etag-7"
    (if canUpdate then Some (fun _ => inr tt) else None)
    (if canDelete then Some (inr tt) else None).

(** The calendar named Work: it finds the two stored objects by their
    uids and accepts every new object. *)
Definition work (readOnly canUpdate canDelete : bool) : Calendar.t :=
  Calendar.mk (Some "Work") "https://dav.example.org/cal/work/" readOnly
    (fun compName uid =>
       if String.eqb compName "VEVENT" && String.eqb uid "sp-task-42"
       then inr [storedEvent canUpdate canDelete]
       else if String.eqb compName "VTODO" && String.eqb uid "sp-task-7"
       then inr [storedTodo canUpdate canDelete]
       else inr [])
    (fun _ => inr tt).

(** A calendar without display name, known by its URL. *)
Definition home : Calendar.t :=
  Calendar.mk None "https://dav.example.org/cal/Home/" false
    (fun _ _ => inr []) (fun _ => inr tt).

Definition personal : Calendar.t :=
  Calendar.mk (Some "Personal") "https://dav.example.org/cal/p/" false
    (fun _ _ => inr []) (fun _ => inr tt).

Definition serving (cals : list Calendar.t) : World :=
  {| dav_connect := fun _ _ => inr [mkHome (inr cals)];
     clock := 1700000000000;
     randomUUID := "123e4567-e89b-42d3-a456-426614174000";
     _clientCache := ∅ |}.

Definition refused : Thrown :=
  mkThrown true "Network request failed" "Error: Network request failed".

Definition unreachable : World :=
  {| dav_connect := fun _ _ => inl refused;
     clock := 1700000000000;
     randomUUID := "123e4567-e89b-42d3-a456-426614174000";
     _clientCache := ∅ |}.

Definition report : Event.data :=
  Event.mk "sp-task-42" "Write report" 1700000000000 1700003600000 None.

(** Payloads that repeat what the stored event already has. *)
Definition sameSummary : EventPatch.data :=
  EventPatch.mk None (Some "Write report") None None None.

Definition sameStart : EventPatch.data :=
  EventPatch.mk None None (Some 1700000000000) None None.

(** The Work calendar writable with full capabilities, and with objects
    that carry neither capability. *)
Definition writable : World := serving [home; work false true true].
Definition incapable : World := serving [home; work false false false].
Definition readOnlyWorld : World := serving [home; work true true true].

(** The world and the effects that resolving the calendar leaves. *)
Definition resolved (w : World) : World := after (_getCalendar cfg w).
Definition resolving (w : World) : list Effect := effects (_getCalendar cfg w).

Definition vevent : Component := Comp "vevent" veventProps [].
Definition vtodo : Component := Comp "vtodo" vtodoProps [].

Definition eventUrl : string := "https://dav.example.org/cal/work/42.ics".

(** A record without uid. *)
Definition anonymous : Event.data :=
  Event.mk EmptyString "Lunch; with, Ann" 1700000000000 1700003600000 None.

(** Two configurations with different credentials and the same cache
    key. *)
Definition cfgA : CaldavCalendarCfg :=
  mkCfg true (Some "https://dav.example.org/") (Some "Work")
    (Some "alice|x") (Some "secret") false.

Definition cfgB : CaldavCalendarCfg :=
  mkCfg true (Some "https://dav.example.org/") (Some "Work")
    (Some "alice") (Some "x|secret") false.

(** A server without calendar home, and one whose list request fails. *)
Definition homeless : World :=
  {| dav_connect := fun _ _ => inr [];
     clock := 1700000000000;
     randomUUID := "123e4567-e89b-42d3-a456-426614174000";
     _clientCache := ∅ |}.

Definition listless : World :=
  {| dav_connect := fun _ _ => inr [mkHome (inl refused)];
     clock := 1700000000000;
     randomUUID := "123e4567-e89b-42d3-a456-426614174000";
     _clientCache := ∅ |}.

(** The Work calendar with a server that rejects queries, and one that
    rejects every write. *)
Definition unsearchable : Calendar.t :=
  Calendar.mk (Some "Work") "https://dav.example.org/cal/work/" false
    (fun _ _ => inl refused) (fun _ => inr tt).

Definition rejectedEvent : VObject.t :=
  VObject.mk eventText eventUrl "etag-42"
    (Some (fun _ => inl refused)) (Some (inl refused)).

Definition rejectedTodo : VObject.t :=
  VObject.mk todoText "https://dav.example.org/cal/work/7.ics" "etag-7"
    (Some (fun _ => inl refused)) (Some (inl refused)).

Definition unwritable : Calendar.t :=
  Calendar.mk (Some "Work") "https://dav.example.org/cal/work/" false
    (fun compName uid =>
       if String.eqb compName "VEVENT" then inr [rejectedEvent]
       else inr [rejectedTodo])
    (fun _ => inl refused).

Definition milk : Todo.data :=
  Todo.mk "sp-task-7" "Buy milk" None (Some 5) (Some 1700003600000) None None.

(** An object with two events: the stored one after an override. *)
Definition override : Component :=
  Comp "vevent"
    (mkProps (Some "Write report (moved)") None None None None None None None
       None (Some 1) None None [("UID", "sp-task-42")]) [].

Definition timezone : Component := Comp "vtimezone" noProps [].

Definition seriesTree : Component :=
  Comp "vcalendar" noProps [timezone; vevent; override].

Definition seriesText : string := "ICS text of the moved sp-task-42".

(** A codec for the object with two events: it writes a tree as the
    names and SEQUENCE values of all its components. *)
Definition renderAll (c : Component) : string :=
  join ","
    (map (fun s => compName s +:+ ":"
                   +:+ match SEQUENCE (compProps s) with
                       | Some n => numberToString n
                       | None => "-"
                       end)
       (compSubs c)).

Definition seriesCodec : ICAL :=
  {| ICAL_parse := fun text =>
       if String.eqb text seriesText then inr seriesTree else inl parseError;
     ICAL_stringify := renderAll |}.

Definition seriesEvent : VObject.t :=
  VObject.mk seriesText eventUrl "etag-42" (Some (fun _ => inr tt))
    (Some (inr tt)).

Definition workSeries : Calendar.t :=
  Calendar.mk (Some "Work") "https://dav.example.org/cal/work/" false
    (fun _ _ => inr [seriesEvent]) (fun _ => inr tt).

(** A completed todo, and the payload that reopens it. *)
Definition doneProps : Props :=
  mkProps (Some "Buy milk") None (Some "COMPLETED") None None None
    (Some (fromJSDate 1695000000000)) None None (Some 2) (Some 100) None [].

Definition reopen : TodoPatch.data :=
  TodoPatch.mk None None None None None None (Some NEEDS_ACTION).

(** The stored event at revision 2^53, the first integer that a Number
    cannot raise by one. *)
Definition agedProps : Props :=
  mkProps (Some "Write report") None None
    (Some (fromJSDate 1700000000000)) (Some (fromJSDate 1700003600000))
    None None None (Some (fromJSDate 1690000000000)) (Some 9007199254740992)
    None None [("UID", "sp-task-42")].

Definition agedTree : Component :=
  Comp "vcalendar" noProps [Comp "vevent" agedProps []].

Definition agedText : string := "ICS text of the aged sp-task-42".

Definition agedCodec : ICAL :=
  {| ICAL_parse := fun text =>
       if String.eqb text agedText then inr agedTree else inl parseError;
     ICAL_stringify := render |}.

Definition agedEvent : VObject.t :=
  VObject.mk agedText eventUrl "etag-42" (Some (fun _ => inr tt))
    (Some (inr tt)).

Definition workAged : Calendar.t :=
  Calendar.mk (Some "Work") "https://dav.example.org/cal/work/" false
    (fun _ _ => inr [agedEvent]) (fun _ => inr tt).

(** A payload that renames the stored event and the stored todo. *)
Definition renamed : EventPatch.data :=
  EventPatch.mk None (Some "Write the report") None None None.

Definition renamedTodo : TodoPatch.data :=
  TodoPatch.mk None (Some "Buy oat milk") None None None None None.

(** A task before and after it is linked to its event, a subtask, and
    an application whose local time is five and a half hours ahead of
    UTC. *)
Definition task : Task.t := Task.mk "42" "Write report" 0 None None None.

Definition linkedTask : Task.t :=
  Task.mk "42" "Write report" 0 None (Some "sp-task-42") None.

Definition subtask : Task.t :=
  Task.mk "43" "Collect figures" 0 None None (Some "42").

Definition app : App :=
  mkApp (Some cfg)
    (fun id => if String.eqb id "42" then Some linkedTask else None)
    (fun _ _ => 19800000).

End Sample.

(** ** The vocabulary of the properties *)

Definition is_Some_b {V} (o : option V) : bool :=
  match o with Some _ => true | None => false end.

(** The ways a configuration is invalid, in the words of the data model:
    disabled, or a string field that is absent or empty. *)
Definition absentOrEmpty (o : option string) : Prop :=
  o = None \/ o = Some EmptyString.

Definition invalidCfg (cfg : CaldavCalendarCfg) : Prop :=
  isEnabled cfg = false
  \/ absentOrEmpty (caldavUrl cfg) \/ absentOrEmpty (calendarName cfg)
  \/ absentOrEmpty (username cfg) \/ absentOrEmpty (password cfg).

(** The errors of the taxonomy, as the service throws them. *)
Definition notConfigured : js_error :=
  HandledError "CalDAV Calendar: Not enough settings".

Definition notConfiguredSnack : Effect :=
  Snack ERR_NOT_CONFIGURED ("issueProviderName", "CalDAV Calendar").

Definition calendarReadOnly (cfg : CaldavCalendarCfg) : js_error :=
  Error ("CALENDAR READ ONLY: " +:+ js_string_of (calendarName cfg)).

Definition readOnlySnack (cfg : CaldavCalendarCfg) : Effect :=
  Snack CALENDAR_READ_ONLY ("calendarName", js_string_of (calendarName cfg)).

Definition networkError (err : Thrown) : js_error :=
  Error ("CALDAV CALENDAR NETWORK ERROR: " +:+ asString err).

Definition networkSnack : Effect :=
  Snack ERR_NETWORK ("issueProviderName", "CalDAV Calendar").

(** A run that sent nothing to the server, and one that changed nothing
    on it. *)
Definition noRequest {A} (r : Run A) : Prop :=
  existsb isNet (effects r) = false.

Definition noWrite {A} (r : Run A) : Prop :=
  existsb isWrite (effects r) = false.

(** [_getCalendar] resolves the configured calendar to [calendar],
    leaving world [w1] after the effects [t1]. *)
Definition resolves (cfg : CaldavCalendarCfg) (w : World)
  (calendar : Calendar.t) (w1 : World) (t1 : list Effect) : Prop :=
  _getCalendar cfg w = mkRun (Ok calendar) w1 t1.

(** An operation that stops at the configuration check: the caller gets
    the NotConfigured error under the observable's prefix, the user is
    notified, and no request has gone to the server. *)
Definition failsNotConfigured {A} (prefix : string) (r : Run A) : Prop :=
  result r = Throw (HandledErrorObject prefix notConfigured)
  /\ noRequest r
  /\ In notConfiguredSnack (effects r).

(** An operation that stops at the read-only guard: the caller gets the
    CalendarReadOnly error, the user is notified, and no write has gone
    to the server. *)
Definition failsReadOnly {A} (cfg : CaldavCalendarCfg) (r : Run A) : Prop :=
  result r = Throw (calendarReadOnly cfg)
  /\ noWrite r
  /\ In (readOnlySnack cfg) (effects r).

(** The world once [_clientCache.clear()] has run. *)
Definition cleared (w : World) : World :=
  mkWorld (dav_connect w) (clock w) (randomUUID w) ∅.

(** What a delete does once the object is located and has the delete
    capability: the request goes out, and its answer decides between the
    log line and the network error. *)
Definition deleted (url : string) (answer : Thrown + unit) (logText uid : string)
  : Result unit * list Effect :=
  match answer with
  | inr _ => (Ok tt, [Net (DeleteVObject url); Log_log logText uid])
  | inl err => (Throw (networkError err), [Net (DeleteVObject url); networkSnack])
  end.

(** The integers that a Number counts exactly: those below 2^53 in
    absolute value. *)
Definition safeInteger (n : Z) : Prop := - 2 ^ 53 < n < 2 ^ 53.

Definition sequenceSafe (v : Props) : Prop :=
  match SEQUENCE v with
  | Some n => safeInteger n
  | None => True
  end.

(** The revision fields of [after] against those of [before]: SEQUENCE
    one higher when the value read is a safe integer, 1 when there was
    none, and both timestamps at [now]. *)
Definition bumped (now : ICAL_Time) (before after : Props) : Prop :=
  match SEQUENCE before with
  | Some n => safeInteger n -> SEQUENCE after = Some (n + 1)
  | None => SEQUENCE after = Some 1
  end
  /\ LAST_MODIFIED after = Some now
  /\ DTSTAMP after = Some now.

(** [data] is the serialisation of a tree whose first [name] component
    is a bumped revision of the first [name] component of the tree that
    [text] parses to. *)
Definition revisionOf `{ICAL} (name : string) (now : ICAL_Time)
  (text data : string) : Prop :=
  exists jCal before jCal' after,
    ICAL_parse text = inr jCal
    /\ getFirstSubcomponent name jCal = Some before
    /\ data = ICAL_stringify jCal'
    /\ getFirstSubcomponent name jCal' = Some after
    /\ bumped now (compProps before) (compProps after).

(** The query for [uid] under the component type [query] answers with
    [obj] first, whose text parses to [jCal], whose first component
    named [name] is [v]. *)
Definition located `{ICAL} (calendar : Calendar.t) (query name uid : string)
  (obj : VObject.t) (jCal v : Component) : Prop :=
  (exists rest, Calendar.calendarQuery calendar query uid = inr (obj :: rest))
  /\ ICAL_parse (VObject.data obj) = inr jCal
  /\ getFirstSubcomponent name jCal = Some v.

(** A provided field of a payload against the object's current value. *)
Definition agrees {V} (provided current : option V) : Prop :=
  provided = None \/ provided = current.

(** Every field the payload provides equals the current value. *)
Definition eventPayloadIsCurrent (p : EventPatch.data) (v : Props) : Prop :=
  agrees (EventPatch.summary p) (SUMMARY v)
  /\ agrees (option_map fromJSDate (EventPatch.start p)) (DTSTART v)
  /\ agrees (option_map fromJSDate (EventPatch.end_ p)) (DTEND v)
  /\ agrees (EventPatch.description p) (DESCRIPTION v).

(** The fields that are written whenever they are provided. *)
Definition eventStructural (p : EventPatch.data) : bool :=
  is_Some_b (EventPatch.start p) || is_Some_b (EventPatch.end_ p)
  || is_Some_b (EventPatch.description p).

Definition todoStructural (p : TodoPatch.data) : bool :=
  is_Some_b (TodoPatch.description p) || is_Some_b (TodoPatch.status p)
  || is_Some_b (TodoPatch.percentComplete p)
  || is_Some_b (TodoPatch.priority p) || is_Some_b (TodoPatch.dueDate p).

(** A payload that changes the object: it provides a summary other than
    the current one, or one of the fields that are written whenever
    they are provided. *)
Definition renames (summary : option string) (v : Props) : Prop :=
  exists s, summary = Some s /\ SUMMARY v <> Some s.

Definition eventPayloadChanges (p : EventPatch.data) (v : Props) : Prop :=
  renames (EventPatch.summary p) v \/ eventStructural p = true.

Definition todoPayloadChanges (p : TodoPatch.data) (v : Props) : Prop :=
  renames (TodoPatch.summary p) v \/ todoStructural p = true.

(** The component has the value the payload provides. *)
Definition provided {V} (field current : option V) : Prop :=
  forall x, field = Some x -> current = Some x.

Definition eventPayloadWritten (p : EventPatch.data) (after : Props) : Prop :=
  provided (EventPatch.summary p) (SUMMARY after)
  /\ provided (option_map fromJSDate (EventPatch.start p)) (DTSTART after)
  /\ provided (option_map fromJSDate (EventPatch.end_ p)) (DTEND after)
  /\ provided (EventPatch.description p) (DESCRIPTION after).

Definition todoPayloadWritten (now : ICAL_Time) (p : TodoPatch.data)
  (after : Props) : Prop :=
  provided (TodoPatch.summary p) (SUMMARY after)
  /\ provided (TodoPatch.description p) (DESCRIPTION after)
  /\ provided (option_map statusText (TodoPatch.status p)) (STATUS after)
  /\ (TodoPatch.status p = Some COMPLETED_ -> COMPLETED after = Some now)
  /\ provided (TodoPatch.percentComplete p) (PERCENT_COMPLETE after)
  /\ provided (TodoPatch.priority p) (PRIORITY after)
  /\ provided (option_map fromJSDate (TodoPatch.dueDate p)) (DUE after).

(** [eventData.uid || _generateUid()] as a value: the uid of the record,
    or the generated one when the record's uid is empty. *)
Definition uidOf (eventData : Event.data) (w : World) : string :=
  if truthy (Some (Event.uid eventData)) then Event.uid eventData
  else "sp-" +:+ randomUUID w.

(** The three lines around the place of the DESCRIPTION line when there
    is no description: SUMMARY, an empty line, SEQUENCE. *)
Definition emptyLineAfterSummary (summary data : string) : Prop :=
  exists before behind,
    lines data
    = (before
       ++ ["SUMMARY:" +:+ _escapeIcalText summary; EmptyString; "SEQUENCE:0"]
       ++ behind)%list.

(** *** Further vocabulary: texts and dates *)

(** Whether the character occurs in the text. *)
Definition occurs (c : ascii) (s : string) : bool :=
  existsb (Ascii.eqb c) (list_ascii_of_string s).

Fixpoint allDigits (s : string) : bool :=
  match s with
  | EmptyString => true
  | String c rest => is_digit c && allDigits rest
  end.

(** The reading of an escaped text: a backslash stands with the
    character after it for one character of the original. *)
Fixpoint unescapeIcalText (s : string) : string :=
  match s with
  | EmptyString => EmptyString
  | String c rest =>
      if Ascii.eqb c backslash then
        match rest with
        | String d rest' =>
            String (if Ascii.eqb d "n" then newline else d)
              (unescapeIcalText rest')
        | EmptyString => String c EmptyString
        end
      else String c (unescapeIcalText rest)
  end.

(** The year as it is left in the formatted text: four digits from year
    0 to 9999, six digits with a plus sign after that, and six digits
    without sign before year 0 (the sign is a dash, which the formatting
    removes). *)
Definition yearText (y : Z) : string :=
  if (0 <=? y) && (y <=? 9999) then padDigits 4 y
  else if y <? 0 then padDigits 6 (Z.abs y)
  else "+" +:+ padDigits 6 (Z.abs y).

(** The basic date-time text of a timestamp: date, [T], time of day to
    the second, [Z]. *)
Definition basicDateTime (t : Z) : string :=
  let ms := t mod 86400000 in
  let '(y, m, d) := civilFromDays (t / 86400000) in
  yearText y +:+ padDigits 2 m +:+ padDigits 2 d +:+ "T"
  +:+ padDigits 2 (ms / 3600000) +:+ padDigits 2 (ms / 60000 mod 60)
  +:+ padDigits 2 (ms / 1000 mod 60) +:+ "Z".

(** *** Further vocabulary: the client cache *)

(** The key [_getClient] stores a session under. *)
Definition clientKey (cfg : CaldavCalendarCfg) : string :=
  js_string_of (caldavUrl cfg) +:+ "|" +:+ js_string_of (username cfg)
  +:+ "|" +:+ js_string_of (password cfg).

(** Every calendar in the cache is stored under its own name. *)
Definition cacheNamed (w : World) : Prop :=
  forall key cc name calendar,
    _clientCache w !! key = Some cc ->
    calendars cc !! name = Some calendar ->
    displayNameOf calendar = name.

(** The session of [cfg] is in the cache, with [calendar] resolved in
    it under the configured name. *)
Definition cached (cfg : CaldavCalendarCfg) (calendar : Calendar.t)
  (w : World) : Prop :=
  exists cc,
    _clientCache w !! clientKey cfg = Some cc
    /\ calendars cc !! js_string_of (calendarName cfg) = Some calendar.

(** The session a successful connection puts into the cache. *)
Definition freshSession (cfg : CaldavCalendarCfg)
  (homes : list CalendarHome) : ClientCache :=
  {| client := {| rootUrl := caldavUrl cfg;
                  xhrProvider := _getXhrProvider cfg;
                  calendarHomes := homes |};
     calendars := ∅ |}.

Definition withCache (c : gmap string ClientCache) (w : World) : World :=
  mkWorld (dav_connect w) (clock w) (randomUUID w) c.

Definition connectRequest (cfg : CaldavCalendarCfg) : Effect :=
  Net (Connect (caldavUrl cfg) (_getXhrProvider cfg)).

Definition calendarNotFound (cfg : CaldavCalendarCfg) : js_error :=
  Error ("CALENDAR NOT FOUND: " +:+ js_string_of (calendarName cfg)).

Definition notFoundSnack (cfg : CaldavCalendarCfg) : Effect :=
  Snack CALENDAR_NOT_FOUND ("calendarName", js_string_of (calendarName cfg)).

(** No calendar of the list has the configured name. *)
Definition unlisted (cfg : CaldavCalendarCfg) (cals : list Calendar.t) : Prop :=
  find (fun item =>
          String.eqb (displayNameOf item) (js_string_of (calendarName cfg)))
    cals = None.

(** *** Further vocabulary: updates *)

(** The properties of a todo after [completeTodo] at time [now]. *)
Definition completedProps (now : ICAL_Time) (v : Props) : Props :=
  mkProps (SUMMARY v) (DESCRIPTION v) (Some "COMPLETED") (DTSTART v) (DTEND v)
    (DUE v) (Some now) (Some now) (Some now)
    (Some (match SEQUENCE v with Some n => n + 1 | None => 1 end))
    (Some 100) (PRIORITY v) (other v).

(** No property of [before] is missing in [after], and the content lines
    the service does not know are the same. *)
Definition keepsProperties (before after : Props) : Prop :=
  (is_Some_b (SUMMARY before) = true -> is_Some_b (SUMMARY after) = true)
  /\ (is_Some_b (DESCRIPTION before) = true ->
      is_Some_b (DESCRIPTION after) = true)
  /\ (is_Some_b (STATUS before) = true -> is_Some_b (STATUS after) = true)
  /\ (is_Some_b (DTSTART before) = true -> is_Some_b (DTSTART after) = true)
  /\ (is_Some_b (DTEND before) = true -> is_Some_b (DTEND after) = true)
  /\ (is_Some_b (DUE before) = true -> is_Some_b (DUE after) = true)
  /\ (is_Some_b (COMPLETED before) = true ->
      is_Some_b (COMPLETED after) = true)
  /\ (is_Some_b (PERCENT_COMPLETE before) = true ->
      is_Some_b (PERCENT_COMPLETE after) = true)
  /\ (is_Some_b (PRIORITY before) = true -> is_Some_b (PRIORITY after) = true)
  /\ other after = other before.

(** The whole edit of one update of an event and of a todo. *)
Definition editEvent (now : ICAL_Time) (eventData : EventPatch.data)
  (v : Props) : Props :=
  bumpRevision now (fst (patchEvent eventData v)).

Definition editTodo (now : ICAL_Time) (todoData : TodoPatch.data)
  (v : Props) : Props :=
  bumpRevision now (fst (patchTodo now todoData v)).

(** No component of the list has the name. *)
Definition noneNamed (name : string) (l : list Component) : bool :=
  forallb (fun s => negb (String.eqb (compName s) name)) l.

(** *** Further vocabulary: the text of a new todo *)

Definition todoStatusText (todoData : Todo.data) : string :=
  match Todo.status todoData with
  | Some s => statusText s
  | None => "NEEDS-ACTION"
  end.

(** The lines of the text of a new todo: nine fixed lines, one line for
    each optional field that is present, three closing lines. *)
Definition todoLines (uid now : string) (due : option string)
  (todoData : Todo.data) : list string :=
  ["BEGIN:VCALENDAR"; "VERSION:2.0"; PRODID; "BEGIN:VTODO";
   "UID:" +:+ uid; "DTSTAMP:" +:+ now; "CREATED:" +:+ now;
   "SUMMARY:" +:+ _escapeIcalText (Todo.summary todoData);
   "STATUS:" +:+ todoStatusText todoData]
  ++ (if truthy (Todo.description todoData)
      then ["DESCRIPTION:"
            +:+ _escapeIcalText (js_string_of (Todo.description todoData))]
      else [])
  ++ match Todo.priority todoData with
     | Some p => ["PRIORITY:" +:+ numberToString p]
     | None => []
     end
  ++ match due with
     | Some dueStr => ["DUE:" +:+ dueStr]
     | None => []
     end
  ++ match Todo.percentComplete todoData with
     | Some p => ["PERCENT-COMPLETE:" +:+ numberToString p]
     | None => []
     end
  ++ ["SEQUENCE:0"; "END:VTODO"; "END:VCALENDAR"].

Definition oneLine (o : option string) : Prop :=
  match o with Some s => hasNewline s = false | None => True end.

(** [todoData.uid || _generateUid()] as a value. *)
Definition todoUidOf (todoData : Todo.data) (w : World) : string :=
  if truthy (Some (Todo.uid todoData)) then Todo.uid todoData
  else "sp-" +:+ randomUUID w.

(** The formatted due date of a record, when it has one. *)
Definition dueText (todoData : Todo.data) (due : option string) : Prop :=
  match Todo.dueDate todoData, due with
  | Some d, Some s => _formatIcalDateTime d = Some s
  | None, None => True
  | _, _ => False
  end.

(** The thirteen lines of the text of a new event; the tenth is the
    DESCRIPTION line, or empty when the record has no description. *)
Definition eventLines (uid now dtstart dtend : string)
  (eventData : Event.data) : list string :=
  ["BEGIN:VCALENDAR"; "VERSION:2.0"; PRODID; "BEGIN:VEVENT";
   "UID:" +:+ uid; "DTSTAMP:" +:+ now; "DTSTART:" +:+ dtstart;
   "DTEND:" +:+ dtend;
   "SUMMARY:" +:+ _escapeIcalText (Event.summary eventData);
   (if truthy (Event.description eventData)
    then "DESCRIPTION:"
         +:+ _escapeIcalText (js_string_of (Event.description eventData))
    else EmptyString);
   "SEQUENCE:0"; "END:VEVENT"; "END:VCALENDAR"].

(** *** Further vocabulary: the effects and the settings form *)

Definition isNotConfigured (e : Effect) : bool :=
  match e with
  | Snack ERR_NOT_CONFIGURED _ => true
  | _ => false
  end.

Definition showsNotConfigured (o : Outcome) : bool :=
  existsb (fun s => match s with Did e => isNotConfigured e | _ => false end)
    (seen o).

(** The latest configuration is there and passes the check of the
    service. *)
Definition validCfg (app : App) : bool :=
  match caldavCalendar app with
  | Some cfg => _isValidSettings cfg
  | None => false
  end.

(** The actions an effect hands to the store: those it emits and those
    it dispatches itself. *)
Definition given (o : Outcome) : list Action :=
  (emitted o
   ++ flat_map (fun s => match s with store_dispatch a => [a] | _ => [] end)
        (seen o))%list.

(** The uid the effects give to the event of a task. *)
Definition taskUid (task : Task.t) : string := "sp-task-" +:+ Task.id task.

Definition isCreatedLog (e : Effect) : bool :=
  match e with
  | Log_log text _ => String.eqb text "CalDAV Calendar: Created event"
  | _ => false
  end.

Definition loggedCreated (o : Outcome) : bool :=
  existsb (fun s => match s with Did e => isCreatedLog e | _ => false end)
    (seen o).

(** The event of the task was created: the request carries the text of
    the task's event from [start] for the task's duration, and the
    service logged the creation under the task's uid. *)
Definition createdFor (task : Task.t) (start : Z) (o : Outcome) : Prop :=
  exists url now dtstart dtend,
    _formatIcalDateTime start = Some dtstart
    /\ _formatIcalDateTime (start + durationOf task) = Some dtend
    /\ In (Did (Net (CreateVObject url
                       (eventIcalData (taskUid task) now dtstart dtend
                          (taskEventData task start)))))
         (seen o)
    /\ In (Did (Log_log "CalDAV Calendar: Created event" (taskUid task)))
         (seen o).

(** The task is handed its link exactly when its event was created. *)
Definition linkedIffCreated (task : Task.t) (start : Z) (link : Action)
  (o : Outcome) : Prop :=
  (given o = [] /\ loggedCreated o = false)
  \/ (given o = [link] /\ createdFor task start o).

(** The effects of a create that the server accepts, after those of the
    resolution. *)
Definition creation (calendar : Calendar.t) (t1 : list Effect)
  (uid data : string) : list Effect :=
  console_log "CalDAV: Creating event"
  :: t1 ++ [console_log "CalDAV: Got calendar";
            Net (CreateVObject (Calendar.url calendar) data);
            Log_log "CalDAV Calendar: Created event" uid].

(** The start of the next full hour of a local time that is [tz]
    milliseconds ahead of UTC. *)
Definition nextLocalHour (tz now : Z) : Z :=
  now - (now + tz) mod 3600000 + 3600000.

(** The text of the event of a task. *)
Definition taskEventText (task : Task.t) (start : Z)
  (now dtstart dtend : string) : string :=
  eventIcalData (taskUid task) now dtstart dtend (taskEventData task start).

Definition wrote (o : Outcome) : bool :=
  existsb (fun s => match s with Did e => isWrite e | _ => false end) (seen o).

(** Whether the task is unlinked after a delete, by the answers of the
    server: the query for the event, then the delete request. *)
Definition unlinkFollowsDelete (calendar : Calendar.t) (id uid failure : string)
  (o : Outcome) : Prop :=
  match Calendar.calendarQuery calendar "VEVENT" uid with
  | inl _ => given o = [] /\ wrote o = false /\ In (Did (Log_err failure)) (seen o)
  | inr [] => given o = [setEventUid id None] /\ wrote o = false
  | inr (event :: _) =>
      match VObject.delete event with
      | None => given o = [setEventUid id None] /\ wrote o = false
      | Some (inr _) =>
          given o = [setEventUid id None]
          /\ In (Did (Net (DeleteVObject (VObject.url event)))) (seen o)
      | Some (inl _) =>
          given o = []
          /\ In (Did (Net (DeleteVObject (VObject.url event)))) (seen o)
          /\ In (Did (Log_err failure)) (seen o)
      end
  end.

(** The payload of a reschedule, and the properties of an event after
    it at time [now]. *)
Definition reschedulePatch (task : Task.t) (dueWithTime : Z)
  : EventPatch.data :=
  EventPatch.mk None None (Some dueWithTime)
    (Some (dueWithTime + durationOf task)) None.

Definition rescheduledProps (now : ICAL_Time) (task : Task.t)
  (dueWithTime : Z) (v : Props) : Props :=
  mkProps (SUMMARY v) (DESCRIPTION v) (STATUS v)
    (Some (fromJSDate dueWithTime))
    (Some (fromJSDate (dueWithTime + durationOf task)))
    (DUE v) (COMPLETED v) (Some now) (Some now)
    (Some (match SEQUENCE v with Some n => n + 1 | None => 1 end))
    (PERCENT_COMPLETE v) (PRIORITY v) (other v).

(** Whether the uid is one the effects give to the events of tasks. *)
Definition prefixed (uid : option string) : bool :=
  startsWith "sp-task-" (js_string_of uid).

(** Whether the effects for synced tasks act on the action. *)
Definition repeats (app : App) (action : Action) : bool :=
  _isTodoSyncEnabled (caldavCalendar app)
  && match action with
     | deleteTask task => prefixed (Task.calendarEventUid task)
     | updateTask id _ _ =>
         match getByIdOnce app id with
         | Some task => prefixed (Task.calendarEventUid task)
         | None => false
         end
     | _ => false
     end.

(** The notification of the settings form, by the answers of the
    server. *)
Definition expectedSnack (cfg : CaldavCalendarCfg) (w : World) : list Seen :=
  match dav_connect w (caldavUrl cfg) (_getXhrProvider cfg) with
  | inr (home :: _) =>
      match findAllCalendars home with
      | inr cals =>
          if truthy (calendarName cfg)
             && negb (existsb (String.eqb (js_string_of (calendarName cfg)))
                        (map displayNameOf cals))
          then [snack_open "CUSTOM"
                  (notFoundMessage (calendarName cfg) (map displayNameOf cals))
                  (Some "warning")]
          else [snack_open "SUCCESS" "Connection successful!" None]
      | inl _ => []
      end
  | _ => []
  end.

(** * Properties *)

(** ** Strings *)

Lemma append_nil_r (s : string) : s +:+ EmptyString = s.
Proof. induction s as [|c s IH]; simpl; congruence. Qed.

Lemma append_assoc (a b c : string) : (a +:+ b) +:+ c = a +:+ (b +:+ c).
Proof. induction a as [|x a IH]; simpl; congruence. Qed.

Lemma replaceAll_app (c : ascii) (r a b : string) :
  replaceAll c r (a +:+ b) = replaceAll c r a +:+ replaceAll c r b.
Proof.
  induction a as [|x a IH]; simpl; [reflexivity |].
  destruct (Ascii.eqb x c); simpl; rewrite IH;
    [now rewrite append_assoc | reflexivity].
Qed.

(** The escaping of a text is the escaping of its first character
    followed by the escaping of the rest: nothing a later replacement
    inserts is seen by an earlier one. *)
Lemma escape_cons (c : ascii) (s : string) :
  _escapeIcalText (String c s) = escapeChar c +:+ _escapeIcalText s.
Proof.
  unfold _escapeIcalText, escapeChar.
  change (String c s) with (char c +:+ s).
  rewrite !replaceAll_app. f_equal.
  destruct (Ascii.eqb_spec c backslash) as [->|Hb]; [reflexivity |].
  destruct (Ascii.eqb_spec c ";") as [->|Hs]; [reflexivity |].
  destruct (Ascii.eqb_spec c ",") as [->|Hc]; [reflexivity |].
  destruct (Ascii.eqb_spec c newline) as [->|Hn]; [reflexivity |].
  unfold char; simpl.
  apply Ascii.eqb_neq in Hb, Hs, Hc, Hn.
  rewrite Hb; simpl. rewrite Hs; simpl. rewrite Hc; simpl. now rewrite Hn.
Qed.

Lemma escape_each (s : string) : _escapeIcalText s = escapeEach s.
Proof.
  induction s as [|c s IH]; [reflexivity |].
  rewrite escape_cons, IH. reflexivity.
Qed.

Lemma hasNewline_app (a b : string) :
  hasNewline (a +:+ b) = hasNewline a || hasNewline b.
Proof.
  induction a as [|c a IH]; simpl; [reflexivity |].
  rewrite IH. now rewrite orb_assoc.
Qed.

Lemma escapeChar_one_line (c : ascii) : hasNewline (escapeChar c) = false.
Proof.
  unfold escapeChar.
  destruct (Ascii.eqb_spec c backslash); [reflexivity |].
  destruct (Ascii.eqb_spec c ";"); [reflexivity |].
  destruct (Ascii.eqb_spec c ","); [reflexivity |].
  destruct (Ascii.eqb_spec c newline) as [|Hn]; [reflexivity |].
  simpl. apply Ascii.eqb_neq in Hn. now rewrite Hn.
Qed.

Lemma escape_one_line (s : string) : hasNewline (_escapeIcalText s) = false.
Proof.
  rewrite escape_each.
  induction s as [|c s IH]; [reflexivity |].
  simpl. now rewrite hasNewline_app, escapeChar_one_line, IH.
Qed.

Lemma lines_aux_app_nl (a b cur : string) :
  lines_aux cur (a +:+ nl +:+ b) = (lines_aux cur a ++ lines b)%list.
Proof.
  revert cur. induction a as [|x a IH]; intros cur; simpl.
  - reflexivity.
  - destruct (Ascii.eqb x newline); simpl; now rewrite IH.
Qed.

Lemma lines_app_nl (a b : string) :
  lines (a +:+ nl +:+ b) = (lines a ++ lines b)%list.
Proof. apply lines_aux_app_nl. Qed.

Lemma lines_aux_one_line (s cur : string) :
  hasNewline s = false -> lines_aux cur s = [cur +:+ s].
Proof.
  revert cur. induction s as [|x s IH]; intros cur Hs; simpl in *.
  - now rewrite append_nil_r.
  - apply orb_false_iff in Hs as [Hx Hs]. rewrite Hx, IH by exact Hs.
    now rewrite append_assoc.
Qed.

Lemma lines_one_line (s : string) : hasNewline s = false -> lines s = [s].
Proof. intros Hs. unfold lines. now rewrite lines_aux_one_line. Qed.

Lemma includes_here (s b : string) : includes (s +:+ b) s.
Proof. exists EmptyString, b. reflexivity. Qed.

Lemma includes_later (x t s : string) : includes t s -> includes (x +:+ t) s.
Proof.
  intros (a & b & ->). exists (x +:+ a), b. now rewrite append_assoc.
Qed.

(** C8. [_escapeIcalText] is the chain of four global replacements in the
    order backslash, semicolon, comma, line feed, and its outcome is the
    input with each character escaped once on its own: backslash becomes
    two backslashes, semicolon and comma get one backslash in front, a
    line feed becomes backslash followed by n, and no backslash that a
    replacement inserted is escaped again. *)
Theorem escape_order_no_double_escaping (text : string) :
  _escapeIcalText text
  = replaceAll newline (String backslash "n")
      (replaceAll "," (String backslash ",")
         (replaceAll ";" (String backslash ";")
            (replaceAll backslash (String backslash (char backslash)) text)))
  /\ _escapeIcalText text = escapeEach text
  /\ escapeChar backslash = String backslash (char backslash)
  /\ escapeChar ";" = String backslash ";"
  /\ escapeChar "," = String backslash ","
  /\ escapeChar newline = String backslash "n"
  /\ (forall c, c = backslash \/ c = ";"%char \/ c = ","%char
                \/ c = newline \/ escapeChar c = char c).
Proof.
  split; [reflexivity |]. split; [apply escape_each |].
  repeat (split; [reflexivity |]).
  intros c. unfold escapeChar.
  destruct (Ascii.eqb_spec c backslash); [now left |].
  destruct (Ascii.eqb_spec c ";"); [now right; left |].
  destruct (Ascii.eqb_spec c ","); [now right; right; left |].
  destruct (Ascii.eqb_spec c newline); [now right; right; right; left |].
  now right; right; right; right.
Qed.

(** ** Numbers *)

#[local] Arguments sequenceInt : simpl never.
#[local] Arguments numberToString : simpl never.
#[local] Arguments JsNumber.toString : simpl never.

Lemma round_safe (z : Z) : Z.abs z < 2 ^ 53 -> JsNumber.round z = z.
Proof.
  intros Hz. unfold JsNumber.round.
  destruct (Z.leb_spec (Z.log2 (Z.abs z) - 52) 0) as [_|Hlt]; [reflexivity |].
  exfalso. destruct (Z.eq_dec (Z.abs z) 0) as [E|E].
  - rewrite E in Hlt. change (Z.log2 0) with 0 in Hlt. lia.
  - assert (Z.log2 (Z.abs z) < 53) by (apply Z.log2_lt_pow2; lia). lia.
Qed.

Lemma parseDigits_acc (d : Decimal.uint) (acc : positive) :
  JsNumber.parseDigits (Some (Z.pos acc)) (NilEmpty.string_of_uint d)
  = Some (Z.pos (Pos.of_uint_acc d acc)).
Proof.
  revert acc.
  induction d as [|d IH|d IH|d IH|d IH|d IH|d IH|d IH|d IH|d IH|d IH];
    intros acc; [reflexivity |..];
    cbn [NilEmpty.string_of_uint JsNumber.parseDigits Pos.of_uint_acc];
    change (is_digit _) with true; cbn iota; rewrite <- IH; do 2 f_equal;
    match goal with
    | |- context [JsNumber.digitValue ?c] =>
        let v := eval vm_compute in (JsNumber.digitValue c) in
        change (JsNumber.digitValue c) with v
    end; lia.
Qed.

Lemma parseDigits_zero (d : Decimal.uint) :
  JsNumber.parseDigits (Some 0) (NilEmpty.string_of_uint d)
  = Some (Z.of_N (Pos.of_uint d)).
Proof.
  induction d as [|d IH|d IH|d IH|d IH|d IH|d IH|d IH|d IH|d IH|d IH];
    [reflexivity | exact IH |..];
    cbn [NilEmpty.string_of_uint JsNumber.parseDigits Pos.of_uint];
    change (is_digit _) with true; cbn iota; apply parseDigits_acc.
Qed.

Lemma parseDigits_uint (d : Decimal.uint) :
  d <> Decimal.Nil ->
  JsNumber.parseDigits None (NilEmpty.string_of_uint d)
  = Some (Z.of_N (Pos.of_uint d)).
Proof.
  intros Hd. destruct d; [contradiction | apply (parseDigits_zero (Decimal.D0 d)) |..];
    cbn [NilEmpty.string_of_uint JsNumber.parseDigits Pos.of_uint];
    change (is_digit _) with true; cbn iota; apply parseDigits_acc.
Qed.

Lemma nilZero_uint (d : Decimal.uint) :
  d <> Decimal.Nil -> NilZero.string_of_uint d = NilEmpty.string_of_uint d.
Proof. destruct d; [contradiction |..]; reflexivity. Qed.

(** Reading the digits of an integer gives the integer, as a Number. *)
Lemma parseInt_decimal (z : Z) :
  JsNumber.parseInt (JsNumber.decimal z) = Some (JsNumber.round z).
Proof.
  unfold JsNumber.decimal. destruct z as [|p|p]; [reflexivity |..];
    cbn [Z.to_int NilZero.string_of_int];
    pose proof (DecimalPos.Unsigned.to_uint_nonnil p) as Hnil;
    pose proof (DecimalPos.Unsigned.of_to p) as Hp;
    rewrite (nilZero_uint _ Hnil).
  - pose proof (parseDigits_uint _ Hnil) as Hd. rewrite Hp in Hd.
    destruct (Pos.to_uint p); [contradiction |..];
      cbn [NilEmpty.string_of_uint JsNumber.parseInt] in *; now rewrite Hd.
  - cbn [JsNumber.parseInt]. rewrite (parseDigits_uint _ Hnil), Hp.
    reflexivity.
Qed.

Lemma sequenceInt_succ (n : Z) :
  safeInteger n -> sequenceInt (Some n) = n + 1.
Proof.
  unfold safeInteger. intros Hn. unfold sequenceInt.
  destruct (Z.eqb_spec n 0) as [->|Hne]; [reflexivity |].
  unfold JsNumber.toString. rewrite round_safe by lia.
  destruct (Z.ltb_spec (Z.abs n) (2 ^ 53)) as [_|Hge]; [| lia].
  rewrite parseInt_decimal, round_safe by lia. unfold JsNumber.add.
  destruct (Z.eq_dec (n + 1) (2 ^ 53)) as [E|E].
  - rewrite E. reflexivity.
  - apply round_safe. lia.
Qed.

Lemma uint_one_line (u : Decimal.uint) :
  hasNewline (NilEmpty.string_of_uint u) = false.
Proof. induction u; simpl; auto. Qed.

Lemma decimal_one_line (z : Z) : hasNewline (JsNumber.decimal z) = false.
Proof.
  unfold JsNumber.decimal, NilZero.string_of_int.
  destruct (Z.to_int z) as [u|u]; unfold NilZero.string_of_uint;
    destruct u; simpl; auto using uint_one_line.
Qed.

Lemma exponentForm_one_line (x : Z) :
  hasNewline (JsNumber.exponentForm x) = false.
Proof.
  unfold JsNumber.exponentForm.
  pose proof (decimal_one_line
                (JsNumber.stripZeros (Z.to_nat (JsNumber.digits x)) x)) as Hs.
  pose proof (decimal_one_line (JsNumber.digits x - 1)) as He.
  destruct (JsNumber.decimal (JsNumber.stripZeros _ x)) as [|d [|e rest]];
    cbn [hasNewline] in Hs |- *; rewrite ?hasNewline_app; cbn [hasNewline];
    rewrite ?hasNewline_app, He.
  - reflexivity.
  - apply orb_false_iff in Hs as [-> _]. reflexivity.
  - apply orb_false_iff in Hs as [-> Hs]. apply orb_false_iff in Hs as [-> ->].
    reflexivity.
Qed.

Lemma numberToString_one_line (n : Z) : hasNewline (numberToString n) = false.
Proof.
  unfold numberToString, JsNumber.toString.
  destruct (_ <? _); [apply decimal_one_line |].
  rewrite hasNewline_app.
  replace (hasNewline (if JsNumber.round n <? 0 then "-" else EmptyString))
    with false by (now destruct (_ <? _)).
  destruct (_ <=? _); [apply decimal_one_line | apply exponentForm_one_line].
Qed.

(** The text of an integer starts with a digit, after the sign of a
    negative one, so [parseInt] reads a number from it. *)
Lemma parseDigits_some (m : Z) (s : string) :
  exists r, JsNumber.parseDigits (Some m) s = Some r.
Proof.
  revert m. induction s as [|c s IH]; intros m; simpl; [eauto |].
  destruct (is_digit c); [apply IH | eauto].
Qed.

Lemma parseInt_digit (c : ascii) (rest : string) :
  is_digit c = true ->
  exists r, JsNumber.parseInt (String c rest) = Some r.
Proof.
  intros Hc.
  assert (exists r, JsNumber.parseDigits None (String c rest) = Some r)
    as [r Hr] by (simpl; rewrite Hc; apply parseDigits_some).
  destruct c as [[] [] [] [] [] [] [] []]; try discriminate Hc;
    cbn [JsNumber.parseInt]; rewrite Hr; simpl; eauto.
Qed.

Lemma decimal_head (z : Z) :
  0 <= z ->
  exists c rest, JsNumber.decimal z = String c rest /\ is_digit c = true.
Proof.
  intros Hz. unfold JsNumber.decimal.
  destruct z as [|p|p]; [exists "0"%char, EmptyString; split; reflexivity | | lia].
  cbn [Z.to_int NilZero.string_of_int].
  pose proof (DecimalPos.Unsigned.to_uint_nonnil p) as Hnil.
  rewrite (nilZero_uint _ Hnil).
  destruct (Pos.to_uint p); [contradiction |..];
    cbn [NilEmpty.string_of_uint]; eexists _, _; split; reflexivity.
Qed.

Lemma shortestFrom_nonneg (fuel : nat) (k n a : Z) :
  0 <= a -> 0 <= JsNumber.shortestFrom fuel k n a.
Proof.
  intros Ha. revert k. induction fuel as [|fuel IH]; intros k; simpl; [lia |].
  assert (0 <= 10 ^ (n - k)) as Hp by (apply Z.pow_nonneg; lia).
  assert (0 <= a / 10 ^ (n - k) * 10 ^ (n - k)) as Hlo.
  { destruct (Z.eq_dec (10 ^ (n - k)) 0) as [->|Hne]; [lia |].
    apply Z.mul_nonneg_nonneg; [apply Z.div_pos; lia | lia]. }
  repeat match goal with
         | |- context [if ?b then _ else _] => destruct b
         end; try lia; apply IH.
Qed.

Lemma stripZeros_nonneg (fuel : nat) (x : Z) :
  0 <= x -> 0 <= JsNumber.stripZeros fuel x.
Proof.
  revert x. induction fuel as [|fuel IH]; intros x Hx; simpl; [lia |].
  destruct (_ =? _); [| lia]. apply IH. apply Z.div_pos; lia.
Qed.

Lemma parseInt_toString (z : Z) :
  exists m, JsNumber.parseInt (JsNumber.toString z) = Some m.
Proof.
  unfold JsNumber.toString.
  destruct (_ <? 2 ^ 53); [rewrite parseInt_decimal; eauto |].
  set (x := JsNumber.shortest (Z.abs (JsNumber.round z))).
  assert (0 <= x) as Hx
    by (apply shortestFrom_nonneg; apply Z.abs_nonneg).
  assert (exists c rest,
             (if JsNumber.digits x <=? 21 then JsNumber.decimal x
              else JsNumber.exponentForm x) = String c rest
             /\ is_digit c = true) as (c & rest & -> & Hc).
  { destruct (_ <=? 21); [now apply decimal_head |].
    unfold JsNumber.exponentForm.
    destruct (decimal_head
                (JsNumber.stripZeros (Z.to_nat (JsNumber.digits x)) x)
                (stripZeros_nonneg _ _ Hx)) as (c & rest & -> & Hc).
    destruct rest; eauto. }
  destruct (_ <? 0); cbn [String.append].
  - cbn [JsNumber.parseInt].
    destruct (parseDigits_some (10 * 0 + JsNumber.digitValue c) rest)
      as [r Hr].
    cbn [JsNumber.parseDigits]. rewrite Hc, Hr. simpl. eauto.
  - now apply parseInt_digit.
Qed.

(** ** Running the operations *)

Lemma bind_throw {A B} (c : M A) (k : A -> M B) w e w' t :
  c w = mkRun (Throw e) w' t -> bind c k w = mkRun (Throw e) w' t.
Proof. intros E. unfold bind. now rewrite E. Qed.

Lemma run_eta {A} (r : Run A) : mkRun (result r) (after r) (effects r) = r.
Proof. now destruct r. Qed.

Lemma truthy_false (o : option string) : truthy o = false <-> absentOrEmpty o.
Proof.
  unfold absentOrEmpty. destruct o as [s|]; simpl.
  - destruct (String.eqb_spec s EmptyString) as [->|Hne]; simpl.
    + split; auto.
    + split; [discriminate |]. intros [Hn|Hs]; congruence.
  - split; auto.
Qed.

Lemma truthy_lengthPositive (o : option string) :
  truthy o = true -> lengthPositive o = true.
Proof. destruct o as [[|c s]|]; simpl; auto. Qed.

Lemma isValidSettings_false (cfg : CaldavCalendarCfg) :
  _isValidSettings cfg = false <-> invalidCfg cfg.
Proof.
  unfold _isValidSettings, invalidCfg. rewrite <- !truthy_false.
  destruct (isEnabled cfg); simpl; [| tauto].
  destruct (truthy (caldavUrl cfg)) eqn:E1; simpl; [| tauto].
  rewrite (truthy_lengthPositive _ E1); simpl.
  destruct (truthy (calendarName cfg)) eqn:E2; simpl; [| tauto].
  rewrite (truthy_lengthPositive _ E2); simpl.
  destruct (truthy (username cfg)) eqn:E3; simpl; [| tauto].
  rewrite (truthy_lengthPositive _ E3); simpl.
  destruct (truthy (password cfg)) eqn:E4; simpl; [| tauto].
  rewrite (truthy_lengthPositive _ E4); simpl.
  split; [discriminate |]. intros [?|[?|[?|[?|?]]]]; discriminate.
Qed.

Lemma checkSettings_invalid cfg w :
  _isValidSettings cfg = false ->
  _checkSettings cfg w = mkRun (Throw notConfigured) w [notConfiguredSnack].
Proof. intros E. unfold _checkSettings. now rewrite E. Qed.

Lemma getCalendar_invalid cfg w :
  _isValidSettings cfg = false ->
  _getCalendar cfg w = mkRun (Throw notConfigured) w [notConfiguredSnack].
Proof.
  intros E. unfold _getCalendar, _getClient.
  apply bind_throw. apply bind_throw. now apply checkSettings_invalid.
Qed.

Lemma getCalendar_no_write cfg w :
  existsb isWrite (effects (_getCalendar cfg w)) = false.
Proof.
  unfold _getCalendar, _getClient, _checkSettings, await_catch, _handleNetErr,
    throwHandledError, bind, perform, ret, throw, getWorld, setCache.
  destruct (_isValidSettings cfg); simpl; [| reflexivity].
  destruct (_clientCache w !! _) as [cc|]; simpl.
  - destruct (calendars cc !! _); simpl; [reflexivity |].
    destruct (calendarHomes (client cc)) as [|home homes]; simpl;
      [reflexivity |].
    destruct (findAllCalendars home) as [err|cals]; simpl; [reflexivity |].
    destruct (find _ cals); reflexivity.
  - destruct (dav_connect w _ _) as [err|[|home homes]]; simpl;
      try reflexivity.
    rewrite lookup_empty; simpl.
    destruct (findAllCalendars home) as [err|cals]; simpl; [reflexivity |].
    destruct (find _ cals); reflexivity.
Qed.

Lemma in_app_r {A} (x : A) (l l' : list A) : In x l' -> In x (l ++ l').
Proof. intros Hx. apply in_or_app. now right. Qed.

Lemma resolves_no_write cfg w calendar w1 t1 :
  resolves cfg w calendar w1 t1 -> existsb isWrite t1 = false.
Proof.
  intros Hres. pose proof (getCalendar_no_write cfg w) as Hno.
  unfold resolves in Hres. now rewrite Hres in Hno.
Qed.

Lemma getCalendar_clock cfg w : clock (after (_getCalendar cfg w)) = clock w.
Proof.
  unfold _getCalendar, _getClient, _checkSettings, await_catch, _handleNetErr,
    throwHandledError, bind, perform, ret, throw, getWorld, setCache.
  destruct (_isValidSettings cfg); simpl; [| reflexivity].
  destruct (_clientCache w !! _) as [cc|]; simpl.
  - destruct (calendars cc !! _); simpl; [reflexivity |].
    destruct (calendarHomes (client cc)) as [|home homes]; simpl;
      [reflexivity |].
    destruct (findAllCalendars home) as [err|cals]; simpl; [reflexivity |].
    destruct (find _ cals); reflexivity.
  - destruct (dav_connect w _ _) as [err|[|home homes]]; simpl;
      try reflexivity.
    rewrite lookup_empty; simpl.
    destruct (findAllCalendars home) as [err|cals]; simpl; [reflexivity |].
    destruct (find _ cals); reflexivity.
Qed.

Lemma not_in_no_write (e : Effect) (t : list Effect) :
  existsb isWrite t = false -> isWrite e = true -> ~ In e t.
Proof.
  intros Hno He Hin.
  assert (existsb isWrite t = true) as Hyes
    by (apply existsb_exists; exists e; split; [rewrite <- list_elem_of_In | ];
        [now apply list_elem_of_In | exact He]).
  congruence.
Qed.

Lemma find_updateFirst (name : string) (f : Props -> Props)
  (l : list Component) (v : Component) :
  find (fun s => String.eqb (compName s) name) l = Some v ->
  find (fun s => String.eqb (compName s) name) (updateFirst name f l)
  = Some (Comp (compName v) (f (compProps v)) (compSubs v)).
Proof.
  induction l as [|s l IH]; simpl; [discriminate |].
  destruct (String.eqb (compName s) name) eqn:E; simpl.
  - intros [= <-]. now rewrite E.
  - rewrite E. exact IH.
Qed.

Lemma getFirst_withFirst (name : string) (f : Props -> Props)
  (c v : Component) :
  getFirstSubcomponent name c = Some v ->
  getFirstSubcomponent name (withFirstSubcomponent name f c)
  = Some (Comp (compName v) (f (compProps v)) (compSubs v)).
Proof. unfold getFirstSubcomponent. simpl. apply find_updateFirst. Qed.

Lemma bumpRevision_bumped (now : ICAL_Time) (v : Props) :
  bumped now v (bumpRevision now v).
Proof.
  unfold bumped, bumpRevision; simpl. destruct (SEQUENCE v) as [n|];
    repeat split. intros Hn. now rewrite sequenceInt_succ.
Qed.

(** Editing keeps the SEQUENCE that was read: no block of the two
    updates touches it before the bump. *)
Lemma patchEvent_sequence eventData v :
  SEQUENCE (fst (patchEvent eventData v)) = SEQUENCE v.
Proof.
  unfold patchEvent, ifChanged, whenProvided.
  destruct eventData as [u [s|] [a|] [b|] [d|]]; simpl;
    try destruct (differs s (SUMMARY v)); reflexivity.
Qed.

Lemma patchTodo_sequence now todoData v :
  SEQUENCE (fst (patchTodo now todoData v)) = SEQUENCE v.
Proof.
  unfold patchTodo, ifChanged, whenProvided, patchStatus.
  destruct todoData as [u [s|] [d|] [p|] [a|] [c|] [st|]]; simpl;
    try destruct (differs s (SUMMARY v)); try destruct (isCompleted st);
    reflexivity.
Qed.

Lemma patchEvent_summary_only (p : EventPatch.data) (v : Props) :
  eventStructural p = false ->
  agrees (EventPatch.summary p) (SUMMARY v) ->
  snd (patchEvent p v) = false.
Proof.
  destruct p as [u s a b d].
  unfold eventStructural, patchEvent, ifChanged, whenProvided, differs; simpl.
  destruct a, b, d; try discriminate. intros _ [->| ->]; simpl;
    [reflexivity |].
  destruct (SUMMARY v) as [old|]; simpl; [| reflexivity].
  now rewrite String.eqb_refl.
Qed.

Lemma patchTodo_summary_only now (p : TodoPatch.data) (v : Props) :
  todoStructural p = false ->
  agrees (TodoPatch.summary p) (SUMMARY v) ->
  snd (patchTodo now p v) = false.
Proof.
  destruct p as [u s d pr du pc st].
  unfold todoStructural, patchTodo, ifChanged, whenProvided, patchStatus,
    differs; simpl.
  destruct d, st, pc, pr, du; try discriminate. intros _ [->| ->]; simpl;
    [reflexivity |].
  destruct (SUMMARY v) as [old|]; simpl; [| reflexivity].
  now rewrite String.eqb_refl.
Qed.

Lemma patchEvent_structural (p : EventPatch.data) (v : Props) :
  eventStructural p = true -> snd (patchEvent p v) = true.
Proof.
  destruct p as [u s a b d]. unfold eventStructural, patchEvent, ifChanged.
  simpl. destruct s as [s|]; [destruct (differs s (SUMMARY v)) |];
    destruct a, b, d; simpl; auto.
Qed.

Lemma patchTodo_structural now (p : TodoPatch.data) (v : Props) :
  todoStructural p = true -> snd (patchTodo now p v) = true.
Proof.
  destruct p as [u s d pr du pc st]. unfold todoStructural, patchTodo, ifChanged.
  simpl. destruct s as [s|]; [destruct (differs s (SUMMARY v)) |];
    destruct d, st, pc, pr, du; simpl; auto.
Qed.

Lemma patchEvent_changes (p : EventPatch.data) (v : Props) :
  eventPayloadChanges p v -> snd (patchEvent p v) = true.
Proof.
  intros [(x & Hs & Hne)|Hs]; [| now apply patchEvent_structural].
  destruct p as [u s a b d]. simpl in Hs. subst s.
  unfold patchEvent, ifChanged, whenProvided, differs. simpl.
  destruct (SUMMARY v) as [old|]; simpl.
  - destruct (String.eqb_spec x old) as [->|_]; [now contradiction Hne |].
    simpl. destruct a, b, d; reflexivity.
  - destruct a, b, d; reflexivity.
Qed.

Lemma patchTodo_changes now (p : TodoPatch.data) (v : Props) :
  todoPayloadChanges p v -> snd (patchTodo now p v) = true.
Proof.
  intros [(x & Hs & Hne)|Hs]; [| now apply patchTodo_structural].
  destruct p as [u s d pr du pc st]. simpl in Hs. subst s.
  unfold patchTodo, ifChanged, whenProvided, patchStatus, differs. simpl.
  destruct (SUMMARY v) as [old|]; simpl.
  - destruct (String.eqb_spec x old) as [->|_]; [now contradiction Hne |].
    simpl. destruct d, st, pc, pr, du; reflexivity.
  - destruct d, st, pc, pr, du; reflexivity.
Qed.

Lemma differs_false (s : string) (old : option string) :
  differs s old = false -> old = Some s.
Proof.
  unfold differs. destruct old as [o|]; [| discriminate].
  destruct (String.eqb_spec s o) as [->|]; [reflexivity | discriminate].
Qed.

(** The edit leaves the component with every value the payload
    provides. *)
Lemma editEvent_written now (p : EventPatch.data) (v : Props) :
  eventPayloadWritten p (editEvent now p v).
Proof.
  destruct p as [u s a b d].
  unfold eventPayloadWritten, provided, editEvent, bumpRevision, patchEvent,
    ifChanged, whenProvided. simpl.
  destruct s as [s|]; [destruct (differs s (SUMMARY v)) eqn:Hd |];
    destruct a, b, d; simpl; repeat split; intros x [= <-]; try reflexivity;
    now apply differs_false.
Qed.

Lemma editTodo_written now (p : TodoPatch.data) (v : Props) :
  todoPayloadWritten now p (editTodo now p v).
Proof.
  destruct p as [u s d pr du pc st].
  unfold todoPayloadWritten, provided, editTodo, bumpRevision, patchTodo,
    ifChanged, whenProvided, patchStatus. simpl.
  destruct s as [s|]; [destruct (differs s (SUMMARY v)) eqn:Hd |];
    destruct d, st as [[]|], pc, pr, du; simpl; repeat split;
    try discriminate; intros x [= <-]; try reflexivity;
    now apply differs_false.
Qed.

Lemma editEvent_bumped now (p : EventPatch.data) (v : Props) :
  bumped now v (editEvent now p v).
Proof.
  pose proof (bumpRevision_bumped now (fst (patchEvent p v))) as Hb.
  unfold bumped in *. now rewrite patchEvent_sequence in Hb.
Qed.

Lemma editTodo_bumped now (p : TodoPatch.data) (v : Props) :
  bumped now v (editTodo now p v).
Proof.
  pose proof (bumpRevision_bumped now (fst (patchTodo now p v))) as Hb.
  unfold bumped in *. now rewrite patchTodo_sequence in Hb.
Qed.

Section Operations.

Context `{ICAL}.

Ltac no_such_write Hno :=
  let Hin := fresh "Hin" in
  intros Hin; exfalso; revert Hin; apply not_in_no_write;
  [ rewrite ?existsb_app, ?Hno; reflexivity | reflexivity ].

Ltac unfold_service :=
  unfold createEvent', updateEvent', deleteEvent', createTodo', updateTodo',
    completeTodo', deleteTodo', _createEvent, _updateEvent, _deleteEvent,
    _createTodo, _updateTodo, _deleteTodo, _findEventByUid, _findTodoByUid,
    rejectReadOnly, updateIfCapable, deleteIfCapable, uidOrGenerated,
    _generateUid, formatIcalDateTime, await, await_catch, _handleNetErr,
    observe, bind, perform, ret, throw, getWorld, setCache.

(** C7. A configuration that is disabled, or has an absent or empty
    server URL, calendar name, user name or password, makes each of the
    seven synchronisation operations fail with the NotConfigured error
    before any request to the server; [testConnection] makes no such
    check: whatever the configuration, it never throws and its first
    effect is the connection attempt with the data it was given. *)
Theorem invalid_configuration_is_rejected (cfg : CaldavCalendarCfg)
  (w : World) :
  invalidCfg cfg ->
  (forall eventData,
      failsNotConfigured "CalDAV Calendar: " (createEvent' cfg eventData w))
  /\ (forall uid eventData,
      failsNotConfigured "CalDAV Calendar: "
        (updateEvent' cfg uid eventData w))
  /\ (forall uid,
      failsNotConfigured "CalDAV Calendar: " (deleteEvent' cfg uid w))
  /\ (forall todoData,
      failsNotConfigured "CalDAV Calendar (VTODO): "
        (createTodo' cfg todoData w))
  /\ (forall uid todoData,
      failsNotConfigured "CalDAV Calendar (VTODO): "
        (updateTodo' cfg uid todoData w))
  /\ (forall uid,
      failsNotConfigured "CalDAV Calendar (VTODO): " (completeTodo' cfg uid w))
  /\ (forall uid,
      failsNotConfigured "CalDAV Calendar (VTODO): " (deleteTodo' cfg uid w))
  /\ (exists outcome t,
      testConnection cfg w
      = mkRun (Ok outcome) (cleared w)
          (Net (Connect (caldavUrl cfg) (_getXhrProvider cfg)) :: t)).
Proof.
  intros Hinv. apply isValidSettings_false in Hinv.
  pose proof (getCalendar_invalid cfg w Hinv) as Hcal.
  repeat split; intros;
    try (unfold noRequest; unfold_service; simpl; rewrite Hcal; simpl; auto;
         fail).
  unfold testConnection, await_or_fail, bind, perform, ret, getWorld,
    setCache, cleared; simpl.
  destruct (dav_connect w _ _) as [err|[|home homes]]; simpl; eauto.
  destruct (findAllCalendars home) as [err|cals]; simpl; eauto.
Qed.

(** C3. On a calendar whose [readOnly] flag is set, [createEvent],
    [updateEvent], [createTodo] and [updateTodo] fail with the
    CalendarReadOnly error and no write request has gone out;
    [deleteEvent] and [deleteTodo] do not look at the flag: on the same
    calendar they query for the uid and send the delete request of the
    object they find. *)
Theorem read_only_rejects_create_and_update (cfg : CaldavCalendarCfg)
  (w w1 : World) (calendar : Calendar.t) (t1 : list Effect) :
  resolves cfg w calendar w1 t1 ->
  Calendar.readOnly calendar = true ->
  (forall eventData, failsReadOnly cfg (_createEvent cfg eventData w))
  /\ (forall uid eventData, failsReadOnly cfg (_updateEvent cfg uid eventData w))
  /\ (forall todoData, failsReadOnly cfg (_createTodo cfg todoData w))
  /\ (forall uid todoData, failsReadOnly cfg (_updateTodo cfg uid todoData w))
  /\ (forall uid obj rest answer,
        Calendar.calendarQuery calendar "VEVENT" uid = inr (obj :: rest) ->
        VObject.delete obj = Some answer ->
        _deleteEvent cfg uid w
        = mkRun
            (fst (deleted (VObject.url obj) answer
                    "CalDAV Calendar: Deleted event" uid))
            w1
            (t1 ++ Net (CalendarQuery (Calendar.url calendar) "VEVENT" uid)
                :: snd (deleted (VObject.url obj) answer
                          "CalDAV Calendar: Deleted event" uid)))
  /\ (forall uid obj rest answer,
        Calendar.calendarQuery calendar "VTODO" uid = inr (obj :: rest) ->
        VObject.delete obj = Some answer ->
        _deleteTodo cfg uid w
        = mkRun
            (fst (deleted (VObject.url obj) answer
                    "CalDAV Calendar: Deleted VTODO" uid))
            w1
            (t1 ++ Net (CalendarQuery (Calendar.url calendar) "VTODO" uid)
                :: snd (deleted (VObject.url obj) answer
                          "CalDAV Calendar: Deleted VTODO" uid))).
Proof.
  intros Hres Hro. pose proof (resolves_no_write _ _ _ _ _ Hres) as Hno.
  unfold resolves in Hres. unfold failsReadOnly, noWrite.
  repeat split; intros;
    try (unfold_service; simpl; rewrite Hres; simpl; rewrite Hro; simpl;
         first [ reflexivity
               | now rewrite existsb_app, Hno
               | apply in_app_r; simpl; auto
               | right; apply in_app_r; simpl; auto ]; fail).
  - unfold_service; simpl. rewrite Hres; simpl.
    match goal with Hq : Calendar.calendarQuery _ _ _ = _ |- _ => rewrite Hq end.
    simpl.
    match goal with Hd : VObject.delete _ = _ |- _ => rewrite Hd end.
    destruct answer as [err|[]]; reflexivity.
  - unfold_service; simpl. rewrite Hres; simpl.
    match goal with Hq : Calendar.calendarQuery _ _ _ = _ |- _ => rewrite Hq end.
    simpl.
    match goal with Hd : VObject.delete _ = _ |- _ => rewrite Hd end.
    destruct answer as [err|[]]; reflexivity.
Qed.

(** C4. When the query for the uid finds nothing, [updateEvent],
    [deleteEvent], [updateTodo] and [deleteTodo] return normally: after
    resolving the calendar the only effects are the query and one
    warning, so no write or delete request is sent. *)
Theorem missing_uid_is_a_logged_no_op (cfg : CaldavCalendarCfg)
  (w w1 : World) (calendar : Calendar.t) (t1 : list Effect) (uid : string) :
  resolves cfg w calendar w1 t1 ->
  (Calendar.readOnly calendar = false ->
   Calendar.calendarQuery calendar "VEVENT" uid = inr [] ->
   forall eventData,
     _updateEvent cfg uid eventData w
     = mkRun (Ok tt) w1
         (t1 ++ [Net (CalendarQuery (Calendar.url calendar) "VEVENT" uid);
                 Log_warn "CalDAV Calendar: Event not found for update" uid])
     /\ noWrite (_updateEvent cfg uid eventData w))
  /\ (Calendar.calendarQuery calendar "VEVENT" uid = inr [] ->
      _deleteEvent cfg uid w
      = mkRun (Ok tt) w1
          (t1 ++ [Net (CalendarQuery (Calendar.url calendar) "VEVENT" uid);
                  Log_warn "CalDAV Calendar: Event not found for deletion"
                    uid])
      /\ noWrite (_deleteEvent cfg uid w))
  /\ (Calendar.readOnly calendar = false ->
      Calendar.calendarQuery calendar "VTODO" uid = inr [] ->
      forall todoData,
        _updateTodo cfg uid todoData w
        = mkRun (Ok tt) w1
            (t1 ++ [Net (CalendarQuery (Calendar.url calendar) "VTODO" uid);
                    Log_warn "CalDAV Calendar: VTODO not found for update"
                      uid])
        /\ noWrite (_updateTodo cfg uid todoData w))
  /\ (Calendar.calendarQuery calendar "VTODO" uid = inr [] ->
      _deleteTodo cfg uid w
      = mkRun (Ok tt) w1
          (t1 ++ [Net (CalendarQuery (Calendar.url calendar) "VTODO" uid);
                  Log_warn "CalDAV Calendar: VTODO not found for deletion"
                    uid])
      /\ noWrite (_deleteTodo cfg uid w)).
Proof.
  intros Hres. pose proof (resolves_no_write _ _ _ _ _ Hres) as Hno.
  unfold resolves in Hres. unfold noWrite.
  repeat split; intros;
    unfold_service; simpl; rewrite Hres; simpl;
    repeat match goal with
      | Hw : Calendar.readOnly _ = _ |- _ => rewrite Hw; clear Hw
      | Hq : Calendar.calendarQuery _ _ _ = _ |- _ => rewrite Hq; clear Hq
      end; simpl;
    first [ reflexivity | now rewrite existsb_app, Hno ].
Qed.

Ltac run_located Hres Hro Hloc :=
  let rest := fresh "rest" in
  let Hq := fresh "Hq" in
  let Hp := fresh "Hp" in
  let Hv := fresh "Hv" in
  destruct Hloc as ((rest & Hq) & Hp & Hv);
  unfold noWrite; unfold_service; simpl; rewrite Hres; simpl;
  rewrite Hro; simpl; rewrite Hq; simpl; rewrite Hp, Hv; simpl.

(** Every update request among the effects of an update is the
    serialisation of the edited tree of the located object. *)
Lemma every_write_is_a_revision (cfg : CaldavCalendarCfg) (uid : string)
  (w : World) (url data : string) :
  (forall eventData,
      In (Net (UpdateVObject url data))
        (effects (_updateEvent cfg uid eventData w)) ->
      exists calendar event rest,
        result (_getCalendar cfg w) = Ok calendar
        /\ Calendar.calendarQuery calendar "VEVENT" uid = inr (event :: rest)
        /\ url = VObject.url event
        /\ revisionOf "vevent" (fromJSDate (clock w)) (VObject.data event)
             data)
  /\ (forall todoData,
      In (Net (UpdateVObject url data))
        (effects (_updateTodo cfg uid todoData w)) ->
      exists calendar todo rest,
        result (_getCalendar cfg w) = Ok calendar
        /\ Calendar.calendarQuery calendar "VTODO" uid = inr (todo :: rest)
        /\ url = VObject.url todo
        /\ revisionOf "vtodo" (fromJSDate (clock w)) (VObject.data todo) data).
Proof.
  pose proof (getCalendar_no_write cfg w) as Hno.
  pose proof (getCalendar_clock cfg w) as Hclock.
  split; intros payload; unfold_service; simpl;
    destruct (_getCalendar cfg w) as [[calendar|e] w1 t1];
    simpl in Hno, Hclock; simpl;
    try (no_such_write Hno);
    (destruct (Calendar.readOnly calendar); simpl; [no_such_write Hno |]);
    [ destruct (Calendar.calendarQuery calendar "VEVENT" uid)
        as [err|[|obj rest]] eqn:Hq
    | destruct (Calendar.calendarQuery calendar "VTODO" uid)
        as [err|[|obj rest]] eqn:Hq ];
    simpl; try (no_such_write Hno);
    (destruct (ICAL_parse (VObject.data obj)) as [err|jCal] eqn:Hp; simpl;
     [no_such_write Hno |]);
    [ destruct (getFirstSubcomponent "vevent" jCal) as [v|] eqn:Hv
    | destruct (getFirstSubcomponent "vtodo" jCal) as [v|] eqn:Hv ];
    simpl; try (no_such_write Hno);
    match goal with
    | |- context [negb ?b] => destruct b; simpl
    end;
    try (no_such_write Hno);
    (destruct (VObject.update obj) as [update|]; simpl;
     [| no_such_write Hno ]);
    match goal with
    | |- context [update ?d] => destruct (update d) as [err|[]]; simpl
    end;
    (intros Hin; apply in_app_or in Hin as [Hin|Hin];
     [ exfalso; revert Hin; now apply not_in_no_write |]);
    simpl in Hin;
    repeat (destruct Hin as [Hin|Hin]; try discriminate);
    try contradiction;
    injection Hin as <- <-;
    exists calendar, obj, rest;
    (split; [reflexivity |]); (split; [exact Hq |]); (split; [reflexivity |]);
    eexists jCal, v, _, _;
    (split; [exact Hp |]); (split; [exact Hv |]); (split; [reflexivity |]);
    (split; [apply (getFirst_withFirst _ _ _ _ Hv) |]); simpl;
    rewrite <- Hclock;
    first [ apply editEvent_bumped | apply editTodo_bumped ].
Qed.

(** C1, as the code has it. Every update request that [updateEvent] or
    [updateTodo] sends carries the serialisation of the located object's
    tree in which the VEVENT (VTODO) has LAST-MODIFIED and DTSTAMP both
    set to the time of the call and SEQUENCE equal to 1 when the
    component had none, and to the value read plus 1 when that value is
    a safe integer (below 2^53 in absolute value).  Such a request is
    sent: for a located object with the update capability on a writable
    calendar, a payload that provides a summary other than the current
    one, or any of the other fields, leads to the write. *)
Theorem update_write_bumps_sequence (cfg : CaldavCalendarCfg) (uid : string)
  (w : World) (url data : string) :
  (forall eventData,
      In (Net (UpdateVObject url data))
        (effects (_updateEvent cfg uid eventData w)) ->
      exists calendar event rest,
        result (_getCalendar cfg w) = Ok calendar
        /\ Calendar.calendarQuery calendar "VEVENT" uid = inr (event :: rest)
        /\ url = VObject.url event
        /\ revisionOf "vevent" (fromJSDate (clock w)) (VObject.data event)
             data)
  /\ (forall todoData,
      In (Net (UpdateVObject url data))
        (effects (_updateTodo cfg uid todoData w)) ->
      exists calendar todo rest,
        result (_getCalendar cfg w) = Ok calendar
        /\ Calendar.calendarQuery calendar "VTODO" uid = inr (todo :: rest)
        /\ url = VObject.url todo
        /\ revisionOf "vtodo" (fromJSDate (clock w)) (VObject.data todo) data)
  /\ (forall calendar w1 t1 obj jCal v eventData,
        resolves cfg w calendar w1 t1 ->
        Calendar.readOnly calendar = false ->
        located calendar "VEVENT" "vevent" uid obj jCal v ->
        is_Some_b (VObject.update obj) = true ->
        eventPayloadChanges eventData (compProps v) ->
        exists written,
          In (Net (UpdateVObject (VObject.url obj) written))
            (effects (_updateEvent cfg uid eventData w))
          /\ revisionOf "vevent" (fromJSDate (clock w)) (VObject.data obj)
               written)
  /\ (forall calendar w1 t1 obj jCal v todoData,
        resolves cfg w calendar w1 t1 ->
        Calendar.readOnly calendar = false ->
        located calendar "VTODO" "vtodo" uid obj jCal v ->
        is_Some_b (VObject.update obj) = true ->
        todoPayloadChanges todoData (compProps v) ->
        exists written,
          In (Net (UpdateVObject (VObject.url obj) written))
            (effects (_updateTodo cfg uid todoData w))
          /\ revisionOf "vtodo" (fromJSDate (clock w)) (VObject.data obj)
               written).
Proof.
  pose proof (getCalendar_clock cfg w) as Hclock.
  split; [apply every_write_is_a_revision |].
  split; [apply every_write_is_a_revision |].
  split; intros calendar w1 t1 obj jCal v payload Hres Hro Hloc Hup Hch.
  - unfold resolves in Hres. rewrite Hres in Hclock. simpl in Hclock.
    exists (ICAL_stringify
              (withFirstSubcomponent "vevent"
                 (editEvent (fromJSDate (clock w)) payload) jCal)).
    split.
    + run_located Hres Hro Hloc.
      rewrite (patchEvent_changes _ _ Hch); simpl.
      destruct (VObject.update obj) as [update|]; [| discriminate]. simpl.
      rewrite Hclock. unfold editEvent.
      match goal with
      | |- context [update ?d] => destruct (update d) as [err|[]]
      end; simpl; apply in_app_r; simpl; auto.
    + destruct Hloc as (_ & Hp & Hv). eexists jCal, v, _, _.
      split; [exact Hp |]. split; [exact Hv |]. split; [reflexivity |].
      split; [apply (getFirst_withFirst _ _ _ _ Hv) |]. simpl.
      apply editEvent_bumped.
  - unfold resolves in Hres. rewrite Hres in Hclock. simpl in Hclock.
    exists (ICAL_stringify
              (withFirstSubcomponent "vtodo"
                 (editTodo (fromJSDate (clock w)) payload) jCal)).
    split.
    + run_located Hres Hro Hloc.
      rewrite (patchTodo_changes _ _ _ Hch); simpl.
      destruct (VObject.update obj) as [update|]; [| discriminate]. simpl.
      rewrite Hclock. unfold editTodo.
      match goal with
      | |- context [update ?d] => destruct (update d) as [err|[]]
      end; simpl; apply in_app_r; simpl; auto.
    + destruct Hloc as (_ & Hp & Hv). eexists jCal, v, _, _.
      split; [exact Hp |]. split; [exact Hv |]. split; [reflexivity |].
      split; [apply (getFirst_withFirst _ _ _ _ Hv) |]. simpl.
      apply editTodo_bumped.
Qed.

(** C2, as the code has it. On a writable calendar, for a located event
    or todo whose tree has the component: a payload that provides no
    field but, at most, a summary equal to the current SUMMARY ends
    after the query, with no write; a payload that provides start, end
    or description (for a todo: description, status, percentComplete,
    priority or dueDate) is written back through the update capability
    whatever the values are: the request carries the tree in which the
    component has the provided values and the bumped revision. *)
Theorem unchanged_summary_is_not_written (cfg : CaldavCalendarCfg)
  (w w1 : World) (calendar : Calendar.t) (t1 : list Effect) (uid : string)
  (obj : VObject.t) (jCal v : Component) :
  resolves cfg w calendar w1 t1 ->
  Calendar.readOnly calendar = false ->
  (forall eventData,
      located calendar "VEVENT" "vevent" uid obj jCal v ->
      (eventStructural eventData = false ->
       agrees (EventPatch.summary eventData) (SUMMARY (compProps v)) ->
       _updateEvent cfg uid eventData w
       = mkRun (Ok tt) w1
           (t1 ++ [Net (CalendarQuery (Calendar.url calendar) "VEVENT" uid)])
       /\ noWrite (_updateEvent cfg uid eventData w))
      /\ (eventStructural eventData = true ->
          is_Some_b (VObject.update obj) = true ->
          exists after,
            In (Net (UpdateVObject (VObject.url obj)
                       (ICAL_stringify
                          (withFirstSubcomponent "vevent"
                             (editEvent (fromJSDate (clock w)) eventData)
                             jCal))))
              (effects (_updateEvent cfg uid eventData w))
            /\ getFirstSubcomponent "vevent"
                 (withFirstSubcomponent "vevent"
                    (editEvent (fromJSDate (clock w)) eventData) jCal)
               = Some (Comp (compName v) after (compSubs v))
            /\ bumped (fromJSDate (clock w)) (compProps v) after
            /\ eventPayloadWritten eventData after))
  /\ (forall todoData,
      located calendar "VTODO" "vtodo" uid obj jCal v ->
      (todoStructural todoData = false ->
       agrees (TodoPatch.summary todoData) (SUMMARY (compProps v)) ->
       _updateTodo cfg uid todoData w
       = mkRun (Ok tt) w1
           (t1 ++ [Net (CalendarQuery (Calendar.url calendar) "VTODO" uid)])
       /\ noWrite (_updateTodo cfg uid todoData w))
      /\ (todoStructural todoData = true ->
          is_Some_b (VObject.update obj) = true ->
          exists after,
            In (Net (UpdateVObject (VObject.url obj)
                       (ICAL_stringify
                          (withFirstSubcomponent "vtodo"
                             (editTodo (fromJSDate (clock w)) todoData)
                             jCal))))
              (effects (_updateTodo cfg uid todoData w))
            /\ getFirstSubcomponent "vtodo"
                 (withFirstSubcomponent "vtodo"
                    (editTodo (fromJSDate (clock w)) todoData) jCal)
               = Some (Comp (compName v) after (compSubs v))
            /\ bumped (fromJSDate (clock w)) (compProps v) after
            /\ todoPayloadWritten (fromJSDate (clock w)) todoData after)).
Proof.
  intros Hres Hro. pose proof (resolves_no_write _ _ _ _ _ Hres) as Hno.
  pose proof (getCalendar_clock cfg w) as Hclock.
  unfold resolves in Hres. rewrite Hres in Hclock. simpl in Hclock.
  split; intros payload Hloc; split.
  - intros Hs Ha. run_located Hres Hro Hloc.
    rewrite (patchEvent_summary_only _ _ Hs Ha); simpl.
    split; [reflexivity | now rewrite existsb_app, Hno].
  - intros Hs Hu.
    exists (editEvent (fromJSDate (clock w)) payload (compProps v)).
    split; [| split; [| split]].
    + run_located Hres Hro Hloc.
      rewrite (patchEvent_structural _ _ Hs); simpl.
      destruct (VObject.update obj) as [update|]; [| discriminate]. simpl.
      rewrite Hclock. unfold editEvent.
      match goal with
      | |- context [update ?d] => destruct (update d) as [err|[]]
      end; simpl; apply in_app_r; simpl; auto.
    + destruct Hloc as (_ & _ & Hv). apply (getFirst_withFirst _ _ _ _ Hv).
    + apply editEvent_bumped.
    + apply editEvent_written.
  - intros Hs Ha. run_located Hres Hro Hloc.
    rewrite (patchTodo_summary_only _ _ _ Hs Ha); simpl.
    split; [reflexivity | now rewrite existsb_app, Hno].
  - intros Hs Hu.
    exists (editTodo (fromJSDate (clock w)) payload (compProps v)).
    split; [| split; [| split]].
    + run_located Hres Hro Hloc.
      rewrite (patchTodo_structural _ _ _ Hs); simpl.
      destruct (VObject.update obj) as [update|]; [| discriminate]. simpl.
      rewrite Hclock. unfold editTodo.
      match goal with
      | |- context [update ?d] => destruct (update d) as [err|[]]
      end; simpl; apply in_app_r; simpl; auto.
    + destruct Hloc as (_ & _ & Hv). apply (getFirst_withFirst _ _ _ _ Hv).
    + apply editTodo_bumped.
    + apply editTodo_written.
Qed.

(** C9, as the code has it. When the located object has no update
    capability and the update observes a change in the component it
    found, [updateEvent] and [updateTodo] return normally and log the
    Updated line though no request but the query was sent; when the
    located object has no delete capability, [deleteEvent] and
    [deleteTodo] return normally and log the Deleted line in the same
    way. *)
Theorem missing_capability_still_logs_success (cfg : CaldavCalendarCfg)
  (w w1 : World) (calendar : Calendar.t) (t1 : list Effect) (uid : string)
  (obj : VObject.t) :
  resolves cfg w calendar w1 t1 ->
  (forall jCal v eventData,
      Calendar.readOnly calendar = false ->
      located calendar "VEVENT" "vevent" uid obj jCal v ->
      VObject.update obj = None ->
      snd (patchEvent eventData (compProps v)) = true ->
      _updateEvent cfg uid eventData w
      = mkRun (Ok tt) w1
          (t1 ++ [Net (CalendarQuery (Calendar.url calendar) "VEVENT" uid);
                  Log_log "CalDAV Calendar: Updated event" uid])
      /\ noWrite (_updateEvent cfg uid eventData w))
  /\ (forall jCal v todoData,
      Calendar.readOnly calendar = false ->
      located calendar "VTODO" "vtodo" uid obj jCal v ->
      VObject.update obj = None ->
      snd (patchTodo (fromJSDate (clock w)) todoData (compProps v)) = true ->
      _updateTodo cfg uid todoData w
      = mkRun (Ok tt) w1
          (t1 ++ [Net (CalendarQuery (Calendar.url calendar) "VTODO" uid);
                  Log_log "CalDAV Calendar: Updated VTODO" uid])
      /\ noWrite (_updateTodo cfg uid todoData w))
  /\ (forall rest,
      Calendar.calendarQuery calendar "VEVENT" uid = inr (obj :: rest) ->
      VObject.delete obj = None ->
      _deleteEvent cfg uid w
      = mkRun (Ok tt) w1
          (t1 ++ [Net (CalendarQuery (Calendar.url calendar) "VEVENT" uid);
                  Log_log "CalDAV Calendar: Deleted event" uid])
      /\ noWrite (_deleteEvent cfg uid w))
  /\ (forall rest,
      Calendar.calendarQuery calendar "VTODO" uid = inr (obj :: rest) ->
      VObject.delete obj = None ->
      _deleteTodo cfg uid w
      = mkRun (Ok tt) w1
          (t1 ++ [Net (CalendarQuery (Calendar.url calendar) "VTODO" uid);
                  Log_log "CalDAV Calendar: Deleted VTODO" uid])
      /\ noWrite (_deleteTodo cfg uid w)).
Proof.
  intros Hres. pose proof (resolves_no_write _ _ _ _ _ Hres) as Hno.
  pose proof (getCalendar_clock cfg w) as Hclock.
  unfold resolves in Hres. rewrite Hres in Hclock; simpl in Hclock.
  repeat apply conj.
  - intros jCal v payload Hro Hloc Hu Hch. run_located Hres Hro Hloc.
    rewrite Hch, Hu; simpl.
    split; [reflexivity | now rewrite existsb_app, Hno].
  - intros jCal v payload Hro Hloc Hu Hch. run_located Hres Hro Hloc.
    rewrite Hclock, Hch, Hu; simpl.
    split; [reflexivity | now rewrite existsb_app, Hno].
  - intros rest Hq Hd. unfold noWrite; unfold_service; simpl.
    rewrite Hres; simpl. rewrite Hq; simpl. rewrite Hd; simpl.
    split; [reflexivity | now rewrite existsb_app, Hno].
  - intros rest Hq Hd. unfold noWrite; unfold_service; simpl.
    rewrite Hres; simpl. rewrite Hq; simpl. rewrite Hd; simpl.
    split; [reflexivity | now rewrite existsb_app, Hno].
Qed.

End Operations.

(** ** The connection test and the creation of events *)

Lemma getCalendar_randomUUID cfg w :
  randomUUID (after (_getCalendar cfg w)) = randomUUID w.
Proof.
  unfold _getCalendar, _getClient, _checkSettings, await_catch, _handleNetErr,
    throwHandledError, bind, perform, ret, throw, getWorld, setCache.
  destruct (_isValidSettings cfg); simpl; [| reflexivity].
  destruct (_clientCache w !! _) as [cc|]; simpl.
  - destruct (calendars cc !! _); simpl; [reflexivity |].
    destruct (calendarHomes (client cc)) as [|home homes]; simpl;
      [reflexivity |].
    destruct (findAllCalendars home) as [err|cals]; simpl; [reflexivity |].
    destruct (find _ cals); reflexivity.
  - destruct (dav_connect w _ _) as [err|[|home homes]]; simpl;
      try reflexivity.
    rewrite lookup_empty; simpl.
    destruct (findAllCalendars home) as [err|cals]; simpl; [reflexivity |].
    destruct (find _ cals); reflexivity.
Qed.

Lemma existsb_eqb_false (name : string) (l : list string) :
  ~ In name l -> existsb (String.eqb name) l = false.
Proof.
  induction l as [|x l IH]; simpl; [reflexivity |].
  intros Hn. destruct (String.eqb_spec name x) as [->|Hne]; simpl.
  - exfalso. apply Hn. now left.
  - apply IH. intros Hin. apply Hn. now right.
Qed.

(** C5. With a non-empty calendar name that is not among the names the
    server lists, [testConnection] empties the client cache and answers
    [success: true] with all listed names and the error text that names
    the missing calendar and the available ones, joined by comma and
    space; when the connection attempt is rejected it empties the cache
    and answers [success: false] with the message of the rejection. *)
Theorem missing_calendar_is_reported_with_success (cfg : CaldavCalendarCfg)
  (w : World) :
  (forall name home homes cals,
      calendarName cfg = Some name ->
      name <> EmptyString ->
      dav_connect w (caldavUrl cfg) (_getXhrProvider cfg)
      = inr (home :: homes) ->
      findAllCalendars home = inr cals ->
      ~ In name (map displayNameOf cals) ->
      testConnection cfg w
      = mkRun
          (Ok (ConnectionTest.mk true (Some (map displayNameOf cals))
                 (Some ("Calendar " +:+ char dquote +:+ name +:+ char dquote
                        +:+ " not found. Available: "
                        +:+ join ", " (map displayNameOf cals)))))
          (cleared w)
          [Net (Connect (caldavUrl cfg) (_getXhrProvider cfg));
           Net FindAllCalendars]
      /\ _clientCache (after (testConnection cfg w)) = ∅)
  /\ (forall err,
      dav_connect w (caldavUrl cfg) (_getXhrProvider cfg) = inl err ->
      testConnection cfg w
      = mkRun (Ok (ConnectionTest.mk false None (Some (errorMsg err))))
          (cleared w)
          [Net (Connect (caldavUrl cfg) (_getXhrProvider cfg))]
      /\ _clientCache (after (testConnection cfg w)) = ∅).
Proof.
  split.
  - intros name home homes cals Hname Hne Hconn Hlist Hmiss.
    unfold testConnection, await_or_fail, bind, perform, ret, getWorld,
      setCache; simpl.
    rewrite Hconn; simpl. rewrite Hlist; simpl. rewrite Hname; simpl.
    apply String.eqb_neq in Hne. rewrite Hne; simpl.
    rewrite (existsb_eqb_false _ _ Hmiss). split; reflexivity.
  - intros err Hconn.
    unfold testConnection, await_or_fail, bind, perform, ret, getWorld,
      setCache; simpl.
    rewrite Hconn; simpl. split; reflexivity.
Qed.

Lemma eventIcalData_shape (uid now dtstart dtend : string)
  (eventData : Event.data) :
  truthy (Event.description eventData) = false ->
  eventIcalData uid now dtstart dtend eventData
  = ("BEGIN:VCALENDAR" +:+ nl +:+ "VERSION:2.0" +:+ nl +:+ PRODID +:+ nl +:+
     "BEGIN:VEVENT" +:+ nl +:+ "UID:" +:+ uid +:+ nl +:+
     "DTSTAMP:" +:+ now +:+ nl +:+ "DTSTART:" +:+ dtstart +:+ nl +:+
     "DTEND:" +:+ dtend)
    +:+ nl +:+ ("SUMMARY:" +:+ _escapeIcalText (Event.summary eventData))
    +:+ nl +:+ EmptyString
    +:+ nl +:+ "SEQUENCE:0"
    +:+ nl +:+ ("END:VEVENT" +:+ nl +:+ "END:VCALENDAR").
Proof.
  intros Hd. unfold eventIcalData. rewrite Hd.
  repeat rewrite append_assoc. reflexivity.
Qed.

Lemma eventIcalData_empty_line (uid now dtstart dtend : string)
  (eventData : Event.data) :
  truthy (Event.description eventData) = false ->
  emptyLineAfterSummary (Event.summary eventData)
    (eventIcalData uid now dtstart dtend eventData).
Proof.
  intros Hd. rewrite (eventIcalData_shape _ _ _ _ _ Hd).
  unfold emptyLineAfterSummary. eexists _, _.
  rewrite !lines_app_nl.
  rewrite (lines_one_line ("SUMMARY:" +:+ _)).
  - reflexivity.
  - rewrite hasNewline_app. now rewrite escape_one_line.
Qed.

(** The date formatting succeeds exactly on valid dates. *)
Lemma formatIcalDateTime_valid (t : Z) :
  validTime t = true <-> exists s, _formatIcalDateTime t = Some s.
Proof.
  unfold _formatIcalDateTime, toISOString.
  destruct (validTime t).
  - destruct (civilFromDays (t / 86400000)) as [[y m] d]. split; eauto.
  - split; [discriminate | intros [s Hs]; discriminate].
Qed.

Lemma includes_uid (uid now dtstart dtend : string) (eventData : Event.data) :
  includes (eventIcalData uid now dtstart dtend eventData) ("UID:" +:+ uid).
Proof.
  unfold eventIcalData.
  exists ("BEGIN:VCALENDAR" +:+ nl +:+ "VERSION:2.0" +:+ nl +:+ PRODID
          +:+ nl +:+ "BEGIN:VEVENT" +:+ nl).
  eexists. repeat rewrite append_assoc. reflexivity.
Qed.

Lemma includes_header (uid now dtstart dtend : string)
  (eventData : Event.data) :
  includes (eventIcalData uid now dtstart dtend eventData) "VERSION:2.0"
  /\ includes (eventIcalData uid now dtstart dtend eventData) PRODID.
Proof.
  unfold eventIcalData. split.
  - exists ("BEGIN:VCALENDAR" +:+ nl). eexists. reflexivity.
  - exists ("BEGIN:VCALENDAR" +:+ nl +:+ "VERSION:2.0" +:+ nl). eexists.
    reflexivity.
Qed.

Lemma includes_sequence (uid now dtstart dtend : string)
  (eventData : Event.data) :
  includes (eventIcalData uid now dtstart dtend eventData) "SEQUENCE:0".
Proof.
  unfold eventIcalData.
  repeat (first [ apply includes_here | apply includes_later ]).
Qed.


(** C10. Whenever [createEvent] sends a create request for a record
    without description, the ICS text of that request has an empty line
    between its SUMMARY line and its SEQUENCE line. *)
Theorem absent_description_leaves_an_empty_line (cfg : CaldavCalendarCfg)
  (eventData : Event.data) (w : World) (url data : string) :
  Event.description eventData = None ->
  In (Net (CreateVObject url data)) (effects (_createEvent cfg eventData w)) ->
  emptyLineAfterSummary (Event.summary eventData) data.
Proof.
  intros Hd. pose proof (getCalendar_no_write cfg w) as Hno.
  assert (truthy (Event.description eventData) = false) as Ht
    by now rewrite Hd.
  unfold _createEvent, rejectReadOnly, uidOrGenerated, _generateUid,
    formatIcalDateTime, await_catch, _handleNetErr, bind, perform, ret, throw,
    getWorld.
  simpl.
  destruct (_getCalendar cfg w) as [[calendar|e] w1 t1]; simpl in Hno; simpl.
  2: { intros [Hin|Hin]; [discriminate |].
       exfalso; revert Hin; now apply not_in_no_write. }
  destruct (Calendar.readOnly calendar); simpl.
  { intros [Hin|Hin]; [discriminate |].
    exfalso; revert Hin; apply not_in_no_write;
      [now rewrite existsb_app, Hno | reflexivity]. }
  destruct (String.eqb (Event.uid eventData) EmptyString); simpl;
    (destruct (_formatIcalDateTime (clock w1)) as [now|]; simpl;
     [| intros [Hin|Hin]; [discriminate |];
        exfalso; revert Hin; apply not_in_no_write;
        [now rewrite existsb_app, Hno | reflexivity] ]);
    (destruct (_formatIcalDateTime (Event.start eventData)) as [dtstart|];
     simpl;
     [| intros [Hin|Hin]; [discriminate |];
        exfalso; revert Hin; apply not_in_no_write;
        [now rewrite existsb_app, Hno | reflexivity] ]);
    (destruct (_formatIcalDateTime (Event.end_ eventData)) as [dtend|];
     simpl;
     [| intros [Hin|Hin]; [discriminate |];
        exfalso; revert Hin; apply not_in_no_write;
        [now rewrite existsb_app, Hno | reflexivity] ]);
    match goal with
    | |- context [Calendar.createVObject ?c ?d] =>
        destruct (Calendar.createVObject c d) as [err|[]]; simpl
    end;
    (intros [Hin|Hin]; [discriminate |]);
    (apply in_app_or in Hin as [Hin|Hin];
     [exfalso; revert Hin; now apply not_in_no_write |]);
    simpl in Hin;
    repeat (destruct Hin as [Hin|Hin]; try discriminate);
    try contradiction;
    injection Hin as <- <-;
    now apply eventIcalData_empty_line.
Qed.

(** ** The operations on the sample server *)

Lemma resolves_run cfg w calendar :
  result (_getCalendar cfg w) = Ok calendar ->
  resolves cfg w calendar (after (_getCalendar cfg w))
    (effects (_getCalendar cfg w)).
Proof.
  intros E. unfold resolves. rewrite <- E. symmetry. apply run_eta.
Qed.

Lemma sample_resolves_writable :
  resolves Sample.cfg Sample.writable (Sample.work false true true)
    (Sample.resolved Sample.writable) (Sample.resolving Sample.writable).
Proof. apply resolves_run. vm_compute. reflexivity. Qed.

Lemma sample_resolves_incapable :
  resolves Sample.cfg Sample.incapable (Sample.work false false false)
    (Sample.resolved Sample.incapable) (Sample.resolving Sample.incapable).
Proof. apply resolves_run. vm_compute. reflexivity. Qed.

Lemma sample_resolves_readOnly :
  resolves Sample.cfg Sample.readOnlyWorld (Sample.work true true true)
    (Sample.resolved Sample.readOnlyWorld)
    (Sample.resolving Sample.readOnlyWorld).
Proof. apply resolves_run. vm_compute. reflexivity. Qed.

Lemma sample_located_event (canUpdate canDelete : bool) :
  @located Sample.codec (Sample.work false canUpdate canDelete)
    "VEVENT" "vevent" "sp-task-42" (Sample.storedEvent canUpdate canDelete)
    Sample.eventTree Sample.vevent.
Proof. split; [exists []; reflexivity | split; reflexivity]. Qed.

Lemma sample_located_todo (canUpdate canDelete : bool) :
  @located Sample.codec (Sample.work false canUpdate canDelete)
    "VTODO" "vtodo" "sp-task-7" (Sample.storedTodo canUpdate canDelete)
    Sample.todoTree Sample.vtodo.
Proof. split; [exists []; reflexivity | split; reflexivity]. Qed.

Lemma update_write_bumps_sequence_witness :
  (exists calendar event rest,
      result (_getCalendar Sample.cfg Sample.writable) = Ok calendar
      /\ Calendar.calendarQuery calendar "VEVENT" "sp-task-42"
         = inr (event :: rest)
      /\ Sample.eventUrl = VObject.url event
      /\ @revisionOf Sample.codec "vevent"
           (fromJSDate (clock Sample.writable)) (VObject.data event)
           "vevent SEQUENCE:4")
  /\ (exists written,
        In (Net (UpdateVObject (VObject.url (Sample.storedEvent true true))
                   written))
          (effects (@_updateEvent Sample.codec Sample.cfg "sp-task-42"
                      Sample.renamed Sample.writable))
        /\ @revisionOf Sample.codec "vevent"
             (fromJSDate (clock Sample.writable))
             (VObject.data (Sample.storedEvent true true)) written)
  /\ (exists written,
        In (Net (UpdateVObject (VObject.url (Sample.storedTodo true true))
                   written))
          (effects (@_updateTodo Sample.codec Sample.cfg "sp-task-7"
                      Sample.renamedTodo Sample.writable))
        /\ @revisionOf Sample.codec "vtodo"
             (fromJSDate (clock Sample.writable))
             (VObject.data (Sample.storedTodo true true)) written).
Proof.
  assert (In (Net (UpdateVObject Sample.eventUrl "vevent SEQUENCE:4"))
            (effects (@_updateEvent Sample.codec Sample.cfg "sp-task-42"
                        Sample.sameStart Sample.writable))) as Hin
    by (vm_compute; auto 10).
  split; [| split].
  - exact (proj1 (@update_write_bumps_sequence Sample.codec Sample.cfg
                    "sp-task-42" Sample.writable Sample.eventUrl
                    "vevent SEQUENCE:4") Sample.sameStart Hin).
  - refine (proj1 (proj2 (proj2
              (@update_write_bumps_sequence Sample.codec Sample.cfg
                 "sp-task-42" Sample.writable Sample.eventUrl
                 "vevent SEQUENCE:4")))
              (Sample.work false true true) (Sample.resolved Sample.writable)
              (Sample.resolving Sample.writable) (Sample.storedEvent true true)
              Sample.eventTree Sample.vevent Sample.renamed
              sample_resolves_writable eq_refl (sample_located_event true true)
              eq_refl _).
    left. exists "Write the report". split; [reflexivity | discriminate].
  - refine (proj2 (proj2 (proj2
              (@update_write_bumps_sequence Sample.codec Sample.cfg
                 "sp-task-7" Sample.writable Sample.eventUrl
                 "vevent SEQUENCE:4")))
              (Sample.work false true true) (Sample.resolved Sample.writable)
              (Sample.resolving Sample.writable) (Sample.storedTodo true true)
              Sample.todoTree Sample.vtodo Sample.renamedTodo
              sample_resolves_writable eq_refl (sample_located_todo true true)
              eq_refl _).
    left. exists "Buy oat milk". split; [reflexivity | discriminate].
Defined.

(** The claim C1 as it is written fails at the first value that is no
    safe integer: the stored event has SEQUENCE 2^53, the update is
    written, and the SEQUENCE it carries is 2^53 again. *)
Lemma sequence_beyond_safe_integers_is_not_raised :
  result (_getCalendar Sample.cfg (Sample.serving [Sample.workAged]))
  = Ok Sample.workAged
  /\ @located Sample.agedCodec Sample.workAged "VEVENT" "vevent" "sp-task-42"
       Sample.agedEvent Sample.agedTree (Comp "vevent" Sample.agedProps [])
  /\ SEQUENCE Sample.agedProps = Some 9007199254740992
  /\ SEQUENCE
       (editEvent (fromJSDate (clock (Sample.serving [Sample.workAged])))
          Sample.renamed Sample.agedProps)
     = Some 9007199254740992
  /\ SEQUENCE
       (editEvent (fromJSDate (clock (Sample.serving [Sample.workAged])))
          Sample.renamed Sample.agedProps)
     <> Some (9007199254740992 + 1)
  /\ effects (@_updateEvent Sample.agedCodec Sample.cfg "sp-task-42"
                Sample.renamed (Sample.serving [Sample.workAged]))
     = (Sample.resolving (Sample.serving [Sample.workAged])
        ++ [Net (CalendarQuery "https://dav.example.org/cal/work/" "VEVENT"
                   "sp-task-42");
            Net (UpdateVObject Sample.eventUrl
                   (@ICAL_stringify Sample.agedCodec
                      (withFirstSubcomponent "vevent"
                         (editEvent
                            (fromJSDate
                               (clock (Sample.serving [Sample.workAged])))
                            Sample.renamed) Sample.agedTree)));
            Log_log "CalDAV Calendar: Updated event" "sp-task-42"])%list
  /\ @ICAL_stringify Sample.agedCodec
       (withFirstSubcomponent "vevent"
          (editEvent (fromJSDate (clock (Sample.serving [Sample.workAged])))
             Sample.renamed) Sample.agedTree)
     = "vevent SEQUENCE:9007199254740992".
Proof.
  split; [vm_compute; reflexivity |].
  split; [split; [exists []; reflexivity | split; reflexivity] |].
  split; [reflexivity |].
  split; [vm_compute; reflexivity |].
  split; [vm_compute; discriminate |].
  split; vm_compute; reflexivity.
Qed.

(** The claim C2 as it is written fails on a payload that repeats the
    current start: every provided field equals the current value, and
    the event is written back at SEQUENCE 4 instead of 3. *)
Lemma unchanged_start_is_written_back :
  result (_getCalendar Sample.cfg Sample.writable)
  = Ok (Sample.work false true true)
  /\ @located Sample.codec (Sample.work false true true) "VEVENT" "vevent"
       "sp-task-42" (Sample.storedEvent true true) Sample.eventTree
       Sample.vevent
  /\ eventPayloadIsCurrent Sample.sameStart (compProps Sample.vevent)
  /\ SEQUENCE (compProps Sample.vevent) = Some 3
  /\ In (Net (UpdateVObject Sample.eventUrl "vevent SEQUENCE:4"))
       (effects (@_updateEvent Sample.codec Sample.cfg "sp-task-42"
                   Sample.sameStart Sample.writable))
  /\ ~ noWrite (@_updateEvent Sample.codec Sample.cfg "sp-task-42"
                  Sample.sameStart Sample.writable).
Proof.
  split; [vm_compute; reflexivity |].
  split; [apply sample_located_event |].
  split; [unfold eventPayloadIsCurrent, agrees; simpl; auto |].
  split; [reflexivity |].
  split; [vm_compute; auto 10 |].
  unfold noWrite. vm_compute. discriminate.
Qed.

Lemma unchanged_summary_is_not_written_witness :
  resolves Sample.cfg Sample.writable (Sample.work false true true)
    (Sample.resolved Sample.writable) (Sample.resolving Sample.writable)
  /\ noWrite (@_updateEvent Sample.codec Sample.cfg "sp-task-42"
                Sample.sameSummary Sample.writable)
  /\ exists after,
      In (Net (UpdateVObject Sample.eventUrl
                 (@ICAL_stringify Sample.codec
                    (withFirstSubcomponent "vevent"
                       (editEvent (fromJSDate (clock Sample.writable))
                          Sample.sameStart) Sample.eventTree))))
        (effects (@_updateEvent Sample.codec Sample.cfg "sp-task-42"
                    Sample.sameStart Sample.writable))
      /\ getFirstSubcomponent "vevent"
           (withFirstSubcomponent "vevent"
              (editEvent (fromJSDate (clock Sample.writable))
                 Sample.sameStart) Sample.eventTree)
         = Some (Comp "vevent" after [])
      /\ bumped (fromJSDate (clock Sample.writable)) Sample.veventProps after
      /\ eventPayloadWritten Sample.sameStart after.
Proof.
  split; [exact sample_resolves_writable |].
  pose proof (@unchanged_summary_is_not_written Sample.codec Sample.cfg
                Sample.writable (Sample.resolved Sample.writable)
                (Sample.work false true true)
                (Sample.resolving Sample.writable) "sp-task-42"
                (Sample.storedEvent true true) Sample.eventTree Sample.vevent
                sample_resolves_writable eq_refl) as [Hevent _].
  split.
  - exact (proj2 (proj1 (Hevent Sample.sameSummary
                           (sample_located_event true true))
                    eq_refl (or_intror eq_refl))).
  - exact (proj2 (Hevent Sample.sameStart (sample_located_event true true))
             eq_refl eq_refl).
Defined.

Lemma read_only_rejects_create_and_update_witness :
  resolves Sample.cfg Sample.readOnlyWorld (Sample.work true true true)
    (Sample.resolved Sample.readOnlyWorld)
    (Sample.resolving Sample.readOnlyWorld)
  /\ Calendar.readOnly (Sample.work true true true) = true
  /\ failsReadOnly Sample.cfg
       (_createEvent Sample.cfg Sample.report Sample.readOnlyWorld)
  /\ In (Net (DeleteVObject Sample.eventUrl))
       (effects (_deleteEvent Sample.cfg "sp-task-42" Sample.readOnlyWorld)).
Proof.
  split; [exact sample_resolves_readOnly |]. split; [reflexivity |].
  pose proof (@read_only_rejects_create_and_update Sample.codec Sample.cfg
                Sample.readOnlyWorld (Sample.resolved Sample.readOnlyWorld)
                (Sample.work true true true)
                (Sample.resolving Sample.readOnlyWorld)
                sample_resolves_readOnly eq_refl)
    as (Hcreate & _ & _ & _ & Hdelete & _).
  split; [exact (Hcreate Sample.report) |].
  rewrite (Hdelete "sp-task-42" (Sample.storedEvent true true) [] (inr tt)
             eq_refl eq_refl).
  apply in_app_r. simpl. auto.
Defined.

Lemma missing_uid_is_a_logged_no_op_witness :
  resolves Sample.cfg Sample.writable (Sample.work false true true)
    (Sample.resolved Sample.writable) (Sample.resolving Sample.writable)
  /\ Calendar.calendarQuery (Sample.work false true true) "VEVENT" "sp-task-9"
     = inr []
  /\ result (@_updateEvent Sample.codec Sample.cfg "sp-task-9"
               Sample.sameSummary Sample.writable) = Ok tt
  /\ noWrite (_deleteEvent Sample.cfg "sp-task-9" Sample.writable).
Proof.
  split; [exact sample_resolves_writable |]. split; [reflexivity |].
  pose proof (@missing_uid_is_a_logged_no_op Sample.codec Sample.cfg
                Sample.writable (Sample.resolved Sample.writable)
                (Sample.work false true true)
                (Sample.resolving Sample.writable) "sp-task-9"
                sample_resolves_writable)
    as (Hupdate & Hdelete & _).
  split.
  - destruct (Hupdate eq_refl eq_refl Sample.sameSummary) as [Hrun _].
    now rewrite Hrun.
  - exact (proj2 (Hdelete eq_refl)).
Defined.

Lemma missing_calendar_is_reported_with_success_witness :
  testConnection Sample.cfg (Sample.serving [Sample.home; Sample.personal])
  = mkRun
      (Ok (ConnectionTest.mk true (Some ["Home"; "Personal"])
             (Some ("Calendar " +:+ char dquote +:+ "Work" +:+ char dquote
                    +:+ " not found. Available: Home, Personal"))))
      (cleared (Sample.serving [Sample.home; Sample.personal]))
      [Net (Connect (caldavUrl Sample.cfg) (_getXhrProvider Sample.cfg));
       Net FindAllCalendars]
  /\ result (testConnection Sample.cfg Sample.unreachable)
     = Ok (ConnectionTest.mk false None (Some "Network request failed")).
Proof.
  pose proof (missing_calendar_is_reported_with_success Sample.cfg
                (Sample.serving [Sample.home; Sample.personal]))
    as [Hmissing _].
  pose proof (missing_calendar_is_reported_with_success Sample.cfg
                Sample.unreachable) as [_ Hfailure].
  split.
  - refine (proj1 (Hmissing "Work"
                     (mkHome (inr [Sample.home; Sample.personal])) []
                     [Sample.home; Sample.personal]
                     eq_refl _ eq_refl eq_refl _)).
    + discriminate.
    + vm_compute. intros [Hh|[Hp|[]]]; discriminate.
  - destruct (Hfailure Sample.refused eq_refl) as [Hrun _]. now rewrite Hrun.
Defined.


Lemma invalid_configuration_is_rejected_witness :
  invalidCfg DEFAULT_CALDAV_CALENDAR_CFG
  /\ failsNotConfigured "CalDAV Calendar: "
       (createEvent' DEFAULT_CALDAV_CALENDAR_CFG Sample.report Sample.writable)
  /\ failsNotConfigured "CalDAV Calendar (VTODO): "
       (@completeTodo' Sample.codec DEFAULT_CALDAV_CALENDAR_CFG "sp-task-7"
          Sample.writable).
Proof.
  assert (invalidCfg DEFAULT_CALDAV_CALENDAR_CFG) as Hinv
    by (left; reflexivity).
  split; [exact Hinv |].
  pose proof (@invalid_configuration_is_rejected Sample.codec
                DEFAULT_CALDAV_CALENDAR_CFG Sample.writable Hinv)
    as (Hcreate & _ & _ & _ & _ & Hcomplete & _).
  split; [exact (Hcreate Sample.report) | exact (Hcomplete "sp-task-7")].
Defined.

(** The claim C9 as it is written fails on an update that observes no
    change: the located event has no update capability, the call returns
    normally, and no Updated line is logged. *)
Lemma unchanged_update_logs_nothing :
  result (_getCalendar Sample.cfg Sample.incapable)
  = Ok (Sample.work false false false)
  /\ @located Sample.codec (Sample.work false false false) "VEVENT" "vevent"
       "sp-task-42" (Sample.storedEvent false false) Sample.eventTree
       Sample.vevent
  /\ VObject.update (Sample.storedEvent false false) = None
  /\ result (@_updateEvent Sample.codec Sample.cfg "sp-task-42"
               Sample.sameSummary Sample.incapable) = Ok tt
  /\ ~ In (Log_log "CalDAV Calendar: Updated event" "sp-task-42")
         (effects (@_updateEvent Sample.codec Sample.cfg "sp-task-42"
                     Sample.sameSummary Sample.incapable)).
Proof.
  split; [vm_compute; reflexivity |].
  split; [apply sample_located_event |].
  split; [reflexivity |].
  split; [vm_compute; reflexivity |].
  vm_compute. intros [Hc|[Hl|[Hq|[]]]]; discriminate.
Qed.

Lemma missing_capability_still_logs_success_witness :
  resolves Sample.cfg Sample.incapable (Sample.work false false false)
    (Sample.resolved Sample.incapable) (Sample.resolving Sample.incapable)
  /\ VObject.update (Sample.storedEvent false false) = None
  /\ In (Log_log "CalDAV Calendar: Updated event" "sp-task-42")
       (effects (@_updateEvent Sample.codec Sample.cfg "sp-task-42"
                   Sample.sameStart Sample.incapable))
  /\ noWrite (_deleteEvent Sample.cfg "sp-task-42" Sample.incapable).
Proof.
  split; [exact sample_resolves_incapable |]. split; [reflexivity |].
  pose proof (@missing_capability_still_logs_success Sample.codec Sample.cfg
                Sample.incapable (Sample.resolved Sample.incapable)
                (Sample.work false false false)
                (Sample.resolving Sample.incapable) "sp-task-42"
                (Sample.storedEvent false false) sample_resolves_incapable)
    as (Hupdate & _ & Hdelete & _).
  split.
  - destruct (Hupdate Sample.eventTree Sample.vevent Sample.sameStart eq_refl
                (sample_located_event false false) eq_refl eq_refl)
      as [Hrun _].
    rewrite Hrun. apply in_app_r. simpl. auto.
  - exact (proj2 (Hdelete [] eq_refl eq_refl)).
Defined.

Lemma absent_description_leaves_an_empty_line_witness :
  Event.description Sample.report = None
  /\ emptyLineAfterSummary "Write report"
       (eventIcalData "sp-task-42" "20231114T221320Z" "20231114T221320Z"
          "20231114T231320Z" Sample.report).
Proof.
  split; [reflexivity |].
  refine (absent_description_leaves_an_empty_line Sample.cfg Sample.report
            Sample.writable (Calendar.url (Sample.work false true true)) _
            eq_refl _).
  vm_compute. auto 10.
Defined.

(** * Further properties of the service *)

(** ** Date formatting *)

Lemma digitChar_is_digit (v : Z) : is_digit (digitChar (v mod 10)) = true.
Proof.
  pose proof (Z.mod_pos_bound v 10 ltac:(lia)) as Hb.
  assert (v mod 10 = 0 \/ v mod 10 = 1 \/ v mod 10 = 2 \/ v mod 10 = 3
          \/ v mod 10 = 4 \/ v mod 10 = 5 \/ v mod 10 = 6 \/ v mod 10 = 7
          \/ v mod 10 = 8 \/ v mod 10 = 9) as Hc by lia.
  destruct Hc as [E|[E|[E|[E|[E|[E|[E|[E|[E|E]]]]]]]]]; rewrite E;
    reflexivity.
Qed.

Lemma allDigits_app (a b : string) :
  allDigits (a +:+ b) = allDigits a && allDigits b.
Proof.
  induction a as [|c a IH]; simpl; [reflexivity |].
  now rewrite IH, andb_assoc.
Qed.

Lemma padDigits_allDigits (n : nat) (v : Z) : allDigits (padDigits n v) = true.
Proof.
  revert v. induction n as [|n IH]; intros v; [reflexivity |].
  change (padDigits (S n) v)
    with (padDigits n (v / 10) +:+ char (digitChar (v mod 10))).
  rewrite allDigits_app, IH. unfold char. cbn [allDigits andb].
  now rewrite digitChar_is_digit.
Qed.

Lemma string_length_app (a b : string) :
  String.length (a +:+ b) = (String.length a + String.length b)%nat.
Proof. induction a as [|c a IH]; simpl; [reflexivity | now rewrite IH]. Qed.

Lemma padDigits_length (n : nat) (v : Z) : String.length (padDigits n v) = n.
Proof.
  revert v. induction n as [|n IH]; intros v; [reflexivity |].
  change (padDigits (S n) v)
    with (padDigits n (v / 10) +:+ char (digitChar (v mod 10))).
  rewrite string_length_app, IH. unfold char. cbn [String.length]. lia.
Qed.

Lemma is_digit_plain (c : ascii) :
  is_digit c = true ->
  Ascii.eqb c "-" = false /\ Ascii.eqb c ":" = false /\ Ascii.eqb c "." = false.
Proof.
  intros Hd. repeat split;
    match goal with
    | |- Ascii.eqb c ?x = false =>
        destruct (Ascii.eqb_spec c x) as [->|]; [discriminate Hd | reflexivity]
    end.
Qed.

Lemma removeDashColon_digits (s rest : string) :
  allDigits s = true ->
  removeDashColon (s +:+ rest) = s +:+ removeDashColon rest.
Proof.
  induction s as [|c s IH]; [reflexivity |].
  cbn [allDigits]. intros Hs. apply andb_true_iff in Hs as [Hc Hs].
  destruct (is_digit_plain c Hc) as (Hd & Hcol & _).
  change (String c s +:+ rest) with (String c (s +:+ rest)).
  cbn [removeDashColon]. now rewrite Hd, Hcol, IH.
Qed.

Lemma removeMillis_other (c : ascii) (rest : string) :
  Ascii.eqb c "." = false ->
  removeMillis (String c rest) = String c (removeMillis rest).
Proof.
  intros Hc. destruct rest as [|a [|b [|d tail]]]; cbn [removeMillis];
    try reflexivity.
  rewrite Hc. reflexivity.
Qed.

Lemma removeMillis_digits (s rest : string) :
  allDigits s = true ->
  removeMillis (s +:+ rest) = s +:+ removeMillis rest.
Proof.
  induction s as [|c s IH]; intros Hs; [reflexivity |].
  cbn [allDigits] in Hs. apply andb_true_iff in Hs as [Hc Hs].
  destruct (is_digit_plain c Hc) as (_ & _ & Hdot).
  change (String c s +:+ rest) with (String c (s +:+ rest)).
  rewrite (removeMillis_other _ _ Hdot), IH by exact Hs. reflexivity.
Qed.

Lemma padDigits_3 (v : Z) :
  exists a b c,
    padDigits 3 v = String a (String b (String c EmptyString))
    /\ is_digit a = true /\ is_digit b = true /\ is_digit c = true.
Proof.
  exists (digitChar (v / 10 / 10 mod 10)), (digitChar (v / 10 mod 10)),
    (digitChar (v mod 10)).
  split; [reflexivity |]. repeat split; apply digitChar_is_digit.
Qed.

Lemma removeDashColon_app (a b : string) :
  removeDashColon (a +:+ b) = removeDashColon a +:+ removeDashColon b.
Proof.
  induction a as [|c a IH]; [reflexivity |].
  change (String c a +:+ b) with (String c (a +:+ b)).
  cbn [removeDashColon]. rewrite IH.
  now destruct (Ascii.eqb c "-" || Ascii.eqb c ":").
Qed.

Lemma removeDashColon_allDigits (s : string) :
  allDigits s = true -> removeDashColon s = s.
Proof.
  intros Hs. rewrite <- (append_nil_r s) at 1.
  rewrite removeDashColon_digits by exact Hs. apply append_nil_r.
Qed.

Lemma removeDashColon_isoYear (y : Z) : removeDashColon (isoYear y) = yearText y.
Proof.
  unfold isoYear, yearText.
  destruct ((0 <=? y) && (y <=? 9999)).
  - apply removeDashColon_allDigits, padDigits_allDigits.
  - destruct (y <? 0); rewrite removeDashColon_app,
      (removeDashColon_allDigits (padDigits 6 _)) by apply padDigits_allDigits;
      reflexivity.
Qed.

Lemma removeMillis_yearText (y : Z) (rest : string) :
  removeMillis (yearText y +:+ rest) = yearText y +:+ removeMillis rest.
Proof.
  unfold yearText.
  destruct ((0 <=? y) && (y <=? 9999)).
  - apply removeMillis_digits, padDigits_allDigits.
  - destruct (y <? 0).
    + apply removeMillis_digits, padDigits_allDigits.
    + change (("+" +:+ padDigits 6 (Z.abs y)) +:+ rest)
        with (String "+" (padDigits 6 (Z.abs y) +:+ rest)).
      rewrite removeMillis_other by reflexivity.
      rewrite removeMillis_digits by apply padDigits_allDigits. reflexivity.
Qed.

Lemma removeMillis_fraction (v : Z) (rest : string) :
  removeMillis ("." +:+ padDigits 3 v +:+ rest) = rest.
Proof.
  destruct (padDigits_3 v) as (a & b & c & -> & Ha & Hb & Hc).
  change ("." +:+ String a (String b (String c EmptyString)) +:+ rest)
    with (String "." (String a (String b (String c rest)))).
  cbn [removeMillis]. rewrite Ha, Hb, Hc. reflexivity.
Qed.

(** The two replacements of [_formatIcalDateTime] leave, of the ISO
    text of a valid date, the digits of the date, [T], the digits of the
    time of day to the second, and [Z]. *)
Lemma formatIcalDateTime_basic (t : Z) :
  validTime t = true -> _formatIcalDateTime t = Some (basicDateTime t).
Proof.
  intros Hv. unfold _formatIcalDateTime, toISOString, basicDateTime.
  rewrite Hv. destruct (civilFromDays (t / 86400000)) as [[y m] d].
  f_equal.
  rewrite !removeDashColon_app, removeDashColon_isoYear.
  rewrite !(removeDashColon_allDigits (padDigits _ _))
    by apply padDigits_allDigits.
  change (removeDashColon "-") with EmptyString.
  change (removeDashColon ":") with EmptyString.
  change (removeDashColon "T") with "T".
  change (removeDashColon ".") with ".".
  change (removeDashColon "Z") with "Z".
  cbn [String.append].
  rewrite removeMillis_yearText.
  rewrite !(removeMillis_digits (padDigits 2 _)) by apply padDigits_allDigits.
  rewrite removeMillis_other by reflexivity.
  rewrite !(removeMillis_digits (padDigits 2 _)) by apply padDigits_allDigits.
  change (String "." (padDigits 3 ?v +:+ "Z"))
    with ("." +:+ padDigits 3 v +:+ "Z").
  rewrite removeMillis_fraction. reflexivity.
Qed.

Lemma civil_year_range (days : Z) :
  -719528 <= days <= 2932896 ->
  0 <= fst (fst (civilFromDays days)) <= 9999.
Proof.
  intros Hd. unfold civilFromDays. cbv zeta.
  set (z := days + 719468).
  set (era := z / 146097).
  set (doe := z - era * 146097).
  set (yoe := (doe - doe / 1460 + doe / 36524 - doe / 146096) / 365).
  set (doy := doe - (365 * yoe + yoe / 4 - yoe / 100)).
  set (mp := (5 * doy + 2) / 153).
  destruct (Z.ltb_spec mp 10) as [Hmp|Hmp];
    match goal with
    | |- context [?m <=? 2] => destruct (Z.leb_spec m 2) as [Hm|Hm]
    end;
    cbn [fst]; subst mp doy yoe doe era z;
    Z.to_euclidean_division_equations; lia.
Qed.

Lemma basicDateTime_length (t : Z) :
  -62167219200000 <= t <= 253402300799999 ->
  String.length (basicDateTime t) = 16%nat.
Proof.
  intros Ht. unfold basicDateTime.
  assert (-719528 <= t / 86400000 <= 2932896) as Hd
    by (Z.to_euclidean_division_equations; lia).
  pose proof (civil_year_range _ Hd) as Hy.
  destruct (civilFromDays (t / 86400000)) as [[y m] d]. cbn [fst] in Hy.
  unfold yearText.
  assert ((0 <=? y) && (y <=? 9999) = true) as ->
    by (apply andb_true_iff; split; apply Z.leb_le; lia).
  rewrite !string_length_app, !padDigits_length. reflexivity.
Qed.

Lemma basicDateTime_whole_second (t : Z) :
  basicDateTime (t - t mod 1000) = basicDateTime t.
Proof.
  unfold basicDateTime.
  assert ((t - t mod 1000) / 86400000 = t / 86400000) as ->
    by (Z.to_euclidean_division_equations; lia).
  assert ((t - t mod 1000) mod 86400000 / 3600000
          = t mod 86400000 / 3600000) as ->
    by (Z.to_euclidean_division_equations; lia).
  assert ((t - t mod 1000) mod 86400000 / 60000 mod 60
          = t mod 86400000 / 60000 mod 60) as ->
    by (Z.to_euclidean_division_equations; lia).
  assert ((t - t mod 1000) mod 86400000 / 1000 mod 60
          = t mod 86400000 / 1000 mod 60) as ->
    by (Z.to_euclidean_division_equations; lia).
  reflexivity.
Qed.

(** X1. For a valid date [_formatIcalDateTime] gives the basic UTC
    date-time text: digits of the date, [T], digits of the time of day,
    [Z], with the milliseconds dropped, so that all timestamps of one
    second give one text; from year 0 through year 9999 that text has
    exactly 16 characters. *)
Theorem formatIcalDateTime_basic_utc (t : Z) :
  validTime t = true ->
  _formatIcalDateTime t = Some (basicDateTime t)
  /\ _formatIcalDateTime (t - t mod 1000) = _formatIcalDateTime t
  /\ (-62167219200000 <= t <= 253402300799999 ->
      String.length (basicDateTime t) = 16%nat).
Proof.
  intros Hv. split; [now apply formatIcalDateTime_basic |].
  split; [| apply basicDateTime_length].
  rewrite (formatIcalDateTime_basic t Hv).
  rewrite formatIcalDateTime_basic, basicDateTime_whole_second; [reflexivity |].
  unfold validTime in *. apply andb_true_iff in Hv as [Hlo Hhi].
  apply Z.leb_le in Hlo, Hhi. apply andb_true_iff.
  split; apply Z.leb_le; Z.to_euclidean_division_equations; lia.
Qed.

Lemma formatIcalDateTime_basic_utc_witness :
  _formatIcalDateTime 1700000000123 = Some "20231114T221320Z"
  /\ _formatIcalDateTime 1700000000000 = _formatIcalDateTime 1700000000123.
Proof.
  destruct (formatIcalDateTime_basic_utc 1700000000123 eq_refl)
    as (Hbasic & Hsecond & _).
  split; [exact Hbasic | exact Hsecond].
Defined.

(** ** Escaping loses nothing *)

Lemma unescape_escapeChar (c : ascii) (rest : string) :
  unescapeIcalText (escapeChar c +:+ rest) = String c (unescapeIcalText rest).
Proof.
  unfold escapeChar.
  destruct (Ascii.eqb_spec c backslash) as [->|Hb]; [reflexivity |].
  destruct (Ascii.eqb_spec c ";") as [->|Hs]; [reflexivity |].
  destruct (Ascii.eqb_spec c ",") as [->|Hc]; [reflexivity |].
  destruct (Ascii.eqb_spec c newline) as [->|Hn]; [reflexivity |].
  unfold char. cbn [String.append unescapeIcalText].
  apply Ascii.eqb_neq in Hb. now rewrite Hb.
Qed.

Lemma unescape_escape (s : string) :
  unescapeIcalText (_escapeIcalText s) = s.
Proof.
  rewrite escape_each. induction s as [|c s IH]; [reflexivity |].
  cbn [escapeEach]. now rewrite unescape_escapeChar, IH.
Qed.

(** X2. [_escapeIcalText] is injective: two texts with the same escaped
    form are the same text, and the escaped form never contains a line
    feed, so an escaped value cannot break out of its content line. *)
Theorem escape_is_injective_and_one_line (a b : string) :
  (_escapeIcalText a = _escapeIcalText b -> a = b)
  /\ hasNewline (_escapeIcalText a) = false.
Proof.
  split; [| apply escape_one_line].
  intros E. rewrite <- (unescape_escape a), <- (unescape_escape b).
  now rewrite E.
Qed.

Lemma escape_is_injective_and_one_line_witness :
  (_escapeIcalText "a;b" = _escapeIcalText "a;b" -> "a;b" = "a;b")
  /\ hasNewline (_escapeIcalText "a;b") = false.
Proof. exact (escape_is_injective_and_one_line "a;b" "a;b"). Defined.

(** ** The name derived from a calendar URL *)

Lemma occurs_app (c : ascii) (a b : string) :
  occurs c (a +:+ b) = occurs c a || occurs c b.
Proof.
  unfold occurs. induction a as [|x a IH]; [reflexivity |].
  change (String x a +:+ b) with (String x (a +:+ b)).
  cbn [list_ascii_of_string existsb]. now rewrite IH, orb_assoc.
Qed.

Lemma afterLast_absent (c : ascii) (s : string) :
  occurs c s = false -> afterLast c s = s.
Proof.
  destruct s as [|x s]; [reflexivity |].
  unfold occurs. cbn [list_ascii_of_string existsb afterLast].
  intros Hs. apply orb_false_iff in Hs as [Hx Hs].
  rewrite Hs. rewrite Ascii.eqb_sym in Hx. now rewrite Hx.
Qed.

Lemma afterLast_free (c : ascii) (s : string) : occurs c (afterLast c s) = false.
Proof.
  induction s as [|x s IH]; [reflexivity |].
  cbn [afterLast]. fold (occurs c s).
  destruct (occurs c s) eqn:Hs; [exact IH |].
  destruct (Ascii.eqb_spec x c) as [->|Hx]; [exact Hs |].
  unfold occurs in *. cbn [list_ascii_of_string existsb]. rewrite Hs.
  apply Ascii.eqb_neq in Hx. rewrite Ascii.eqb_sym in Hx. now rewrite Hx.
Qed.

Lemma afterLast_segment (c : ascii) (a name : string) :
  occurs c name = false -> afterLast c (a +:+ char c +:+ name) = name.
Proof.
  intros Hn. induction a as [|x a IH].
  - cbn [String.append char afterLast]. fold (occurs c name).
    now rewrite Hn, Ascii.eqb_refl.
  - change (String x a +:+ char c +:+ name)
      with (String x (a +:+ char c +:+ name)).
    cbn [afterLast]. fold (occurs c (a +:+ char c +:+ name)).
    rewrite occurs_app. unfold char at 1.
    assert (occurs c (String c EmptyString +:+ name) = true) as ->.
    { unfold occurs. cbn [String.append list_ascii_of_string existsb].
      now rewrite Ascii.eqb_refl. }
    rewrite orb_true_r. exact IH.
Qed.

Lemma dropTrailing_slash (c : ascii) (s : string) :
  dropTrailing c (s +:+ char c) = s.
Proof.
  induction s as [|x s IH].
  - cbn [String.append char dropTrailing]. now rewrite Ascii.eqb_refl.
  - change (String x s +:+ char c) with (String x (s +:+ char c)).
    destruct s as [|y s]; cbn [String.append char dropTrailing] in *;
      now rewrite IH.
Qed.

Lemma dropTrailing_keeps (c : ascii) (a name : string) :
  name <> EmptyString -> occurs c name = false ->
  dropTrailing c (a +:+ name) = a +:+ name.
Proof.
  intros Hne Hn. induction a as [|x a IH].
  - cbn [String.append]. clear Hne.
    induction name as [|y name IHn]; [reflexivity |].
    unfold occurs in Hn. cbn [list_ascii_of_string existsb] in Hn.
    apply orb_false_iff in Hn as [Hy Hn].
    destruct name as [|z name].
    + cbn [dropTrailing]. rewrite Ascii.eqb_sym in Hy. now rewrite Hy.
    + cbn [dropTrailing] in *. now rewrite (IHn Hn).
  - change (String x a +:+ name) with (String x (a +:+ name)).
    destruct (a +:+ name) as [|y rest] eqn:E.
    + destruct a; [| discriminate]. now destruct name.
    + cbn [dropTrailing] in *. now rewrite IH.
Qed.

(** X3. [_getCalendarUriFromUrl] gives the last path segment: for a
    non-empty name without slash, the URL that ends in a slash and that
    name gives the name, with or without one more slash at the end; and
    whatever the URL, the result contains no slash. *)
Theorem calendar_uri_is_last_segment (base name url : string) :
  (name <> EmptyString -> occurs "/" name = false ->
   _getCalendarUriFromUrl (base +:+ "/" +:+ name) = name
   /\ _getCalendarUriFromUrl (base +:+ "/" +:+ name +:+ "/") = name)
  /\ occurs "/" (_getCalendarUriFromUrl url) = false.
Proof.
  split; [| apply afterLast_free].
  intros Hne Hn. unfold _getCalendarUriFromUrl. split.
  - rewrite <- append_assoc, dropTrailing_keeps by assumption.
    rewrite append_assoc. now apply (afterLast_segment "/").
  - replace (base +:+ "/" +:+ name +:+ "/")
      with ((base +:+ "/" +:+ name) +:+ char "/")
      by (now rewrite !append_assoc).
    rewrite dropTrailing_slash. now apply (afterLast_segment "/").
Qed.

Lemma calendar_uri_is_last_segment_witness :
  _getCalendarUriFromUrl ("https://dav.example.org/cal" +:+ "/" +:+ "Home")
  = "Home"
  /\ _getCalendarUriFromUrl
       ("https://dav.example.org/cal" +:+ "/" +:+ "Home" +:+ "/") = "Home".
Proof.
  refine (proj1 (calendar_uri_is_last_segment "https://dav.example.org/cal"
                   "Home" EmptyString) _ eq_refl).
  discriminate.
Defined.

(** ** The client cache *)

Ltac unfold_resolution :=
  unfold _getCalendar, _getClient, _checkSettings, await_catch, _handleNetErr,
    throwHandledError, bind, perform, ret, throw, getWorld, setCache.

Lemma resolves_cached cfg w calendar w1 t1 :
  resolves cfg w calendar w1 t1 ->
  _isValidSettings cfg = true /\ cached cfg calendar w1.
Proof.
  unfold resolves, cached. fold (clientKey cfg). unfold_resolution.
  fold (clientKey cfg).
  destruct (_isValidSettings cfg); simpl; [| discriminate].
  destruct (_clientCache w !! clientKey cfg) as [cc|] eqn:Hc; simpl.
  - destruct (calendars cc !! _) as [c|] eqn:Hcal; simpl.
    + intros [= <- <- <-]. eauto.
    + destruct (calendarHomes (client cc)) as [|home homes]; simpl;
        [discriminate |].
      destruct (findAllCalendars home) as [err|cals]; simpl; [discriminate |].
      destruct (find _ cals) as [c|]; simpl; [| discriminate].
      intros [= <- <- <-]. split; [reflexivity |]. simpl.
      eexists. rewrite lookup_insert_eq. split; [reflexivity |]. simpl.
      apply lookup_insert_eq.
  - destruct (dav_connect w _ _) as [err|[|home homes]]; simpl;
      try discriminate.
    rewrite lookup_empty; simpl.
    destruct (findAllCalendars home) as [err|cals]; simpl; [discriminate |].
    destruct (find _ cals) as [c|]; simpl; [| discriminate].
    intros [= <- <- <-]. split; [reflexivity |]. simpl.
    eexists. rewrite lookup_insert_eq. split; [reflexivity |]. simpl.
    apply lookup_insert_eq.
Qed.

Lemma cached_hit cfg calendar w :
  _isValidSettings cfg = true -> cached cfg calendar w ->
  _getCalendar cfg w = mkRun (Ok calendar) w [].
Proof.
  intros Hv (cc & Hc & Hcal). unfold_resolution. fold (clientKey cfg).
  rewrite Hv; simpl. rewrite Hc; simpl. now rewrite Hcal.
Qed.

(** X4. Once [_getCalendar] has resolved the calendar, resolving it again
    from the world it left gives the same calendar handle with no
    request to the server and leaves the cache as it is. *)
Theorem resolved_calendar_is_served_from_cache (cfg : CaldavCalendarCfg)
  (w w1 : World) (calendar : Calendar.t) (t1 : list Effect) :
  resolves cfg w calendar w1 t1 ->
  _getCalendar cfg w1 = mkRun (Ok calendar) w1 [].
Proof.
  intros Hres. destruct (resolves_cached _ _ _ _ _ Hres) as [Hv Hc].
  now apply cached_hit.
Qed.

Lemma resolved_calendar_is_served_from_cache_witness :
  resolves Sample.cfg Sample.writable (Sample.work false true true)
    (Sample.resolved Sample.writable) (Sample.resolving Sample.writable)
  /\ existsb isNet (Sample.resolving Sample.writable) = true
  /\ _getCalendar Sample.cfg (Sample.resolved Sample.writable)
     = mkRun (Ok (Sample.work false true true))
         (Sample.resolved Sample.writable) [].
Proof.
  split; [exact sample_resolves_writable |]. split; [reflexivity |].
  exact (resolved_calendar_is_served_from_cache _ _ _ _ _
           sample_resolves_writable).
Defined.

Lemma find_holds {A} (f : A -> bool) (l : list A) (x : A) :
  find f l = Some x -> f x = true.
Proof.
  induction l as [|y l IH]; simpl; [discriminate |].
  destruct (f y) eqn:E; [now intros [= <-] | exact IH].
Qed.

Lemma cacheNamed_insert (w : World) (key : string) (cc : ClientCache) c :
  cacheNamed (withCache c w) ->
  (forall name calendar,
      calendars cc !! name = Some calendar -> displayNameOf calendar = name) ->
  cacheNamed (withCache (<[key := cc]> c) w).
Proof.
  intros Hw Hcc key' cc' name calendar. simpl.
  destruct (decide (key = key')) as [<-|Hne].
  - rewrite lookup_insert_eq. intros [= <-]. apply Hcc.
  - rewrite lookup_insert_ne by exact Hne. intros Hk. now apply (Hw key' cc').
Qed.

Lemma withCache_same (w : World) : withCache (_clientCache w) w = w.
Proof. now destruct w. Qed.

(** X5. The cache keeps every calendar under its own name: if that holds
    before [_getCalendar] it holds after, and then the calendar that
    [_getCalendar] returns, whether it comes from the cache or from the
    server's list, has the configured name as its display name (or, when
    it has no display name, as the last segment of its URL). *)
Theorem resolved_calendar_has_configured_name (cfg : CaldavCalendarCfg)
  (w : World) :
  cacheNamed w ->
  cacheNamed (after (_getCalendar cfg w))
  /\ (forall calendar,
        result (_getCalendar cfg w) = Ok calendar ->
        displayNameOf calendar = js_string_of (calendarName cfg)).
Proof.
  intros Hw. unfold_resolution. fold (clientKey cfg).
  destruct (_isValidSettings cfg); simpl; [| split; [exact Hw | discriminate]].
  destruct (_clientCache w !! clientKey cfg) as [cc|] eqn:Hc; simpl.
  - destruct (calendars cc !! _) as [c|] eqn:Hcal; simpl.
    + split; [exact Hw |]. intros calendar [= <-]. now apply (Hw _ _ _ _ Hc).
    + destruct (calendarHomes (client cc)) as [|home homes]; simpl;
        [split; [exact Hw | discriminate] |].
      destruct (findAllCalendars home) as [err|cals]; simpl;
        [split; [exact Hw | discriminate] |].
      destruct (find _ cals) as [c|] eqn:Hf; simpl;
        [| split; [exact Hw | discriminate]].
      apply find_holds in Hf. apply String.eqb_eq in Hf.
      split; [| now intros calendar [= <-]].
      apply (cacheNamed_insert w).
      * now rewrite withCache_same.
      * intros name calendar. simpl.
        destruct (decide (js_string_of (calendarName cfg) = name)) as [<-|Hne].
        -- rewrite lookup_insert_eq. now intros [= <-].
        -- rewrite lookup_insert_ne by exact Hne. apply (Hw _ _ _ _ Hc).
  - destruct (dav_connect w _ _) as [err|[|home homes]]; simpl.
    + split; [exact Hw | discriminate].
    + split; [| discriminate].
      apply (cacheNamed_insert w); [now rewrite withCache_same |].
      intros name calendar. simpl. now rewrite lookup_empty.
    + rewrite lookup_empty; simpl.
      assert (cacheNamed
                (withCache
                   (<[clientKey cfg := freshSession cfg (home :: homes)]>
                      (_clientCache w)) w)) as Hs.
      { apply (cacheNamed_insert w); [now rewrite withCache_same |].
        intros name calendar. simpl. now rewrite lookup_empty. }
      destruct (findAllCalendars home) as [err|cals]; simpl;
        [split; [exact Hs | discriminate] |].
      destruct (find _ cals) as [c|] eqn:Hf; simpl;
        [| split; [exact Hs | discriminate]].
      apply find_holds in Hf. apply String.eqb_eq in Hf.
      split; [| now intros calendar [= <-]].
      apply (cacheNamed_insert w).
      * apply (cacheNamed_insert w); [now rewrite withCache_same |].
        intros name calendar. simpl. now rewrite lookup_empty.
      * intros name calendar. simpl.
        destruct (decide (js_string_of (calendarName cfg) = name)) as [<-|Hne].
        -- rewrite lookup_insert_eq. now intros [= <-].
        -- rewrite lookup_insert_ne by exact Hne. now rewrite lookup_empty.
Qed.

Lemma resolved_calendar_has_configured_name_witness :
  cacheNamed Sample.writable
  /\ displayNameOf (Sample.work false true true) = "Work".
Proof.
  assert (cacheNamed Sample.writable) as Hw.
  { intros key cc name calendar Hk. simpl in Hk.
    rewrite lookup_empty in Hk. discriminate. }
  split; [exact Hw |].
  apply (proj2 (resolved_calendar_has_configured_name Sample.cfg
                  Sample.writable Hw)).
  vm_compute. reflexivity.
Defined.

(** X6. Resolution failures on the network: a rejected connection makes
    [_getCalendar] fail with the network error after one notification
    and leaves the cache as it was, so nothing of the failed attempt is
    remembered; a rejected calendar listing fails in the same way, with
    the session already stored. *)
Theorem resolution_network_failures (cfg : CaldavCalendarCfg) (w : World) :
  _isValidSettings cfg = true ->
  _clientCache w !! clientKey cfg = None ->
  (forall err,
      dav_connect w (caldavUrl cfg) (_getXhrProvider cfg) = inl err ->
      _getCalendar cfg w
      = mkRun (Throw (networkError err)) w [connectRequest cfg; networkSnack])
  /\ (forall home homes err,
        dav_connect w (caldavUrl cfg) (_getXhrProvider cfg)
        = inr (home :: homes) ->
        findAllCalendars home = inl err ->
        _getCalendar cfg w
        = mkRun (Throw (networkError err))
            (withCache (<[clientKey cfg := freshSession cfg (home :: homes)]>
                          (_clientCache w)) w)
            [connectRequest cfg; Net FindAllCalendars; networkSnack]).
Proof.
  intros Hv Hmiss. split.
  - intros err Hc. unfold_resolution. fold (clientKey cfg).
    rewrite Hv; simpl. rewrite Hmiss; simpl. rewrite Hc; simpl.
    reflexivity.
  - intros home homes err Hc Hl. unfold_resolution. fold (clientKey cfg).
    rewrite Hv; simpl. rewrite Hmiss; simpl. rewrite Hc; simpl.
    rewrite lookup_empty; simpl. rewrite Hl; simpl. reflexivity.
Qed.

Lemma resolution_network_failures_witness :
  _getCalendar Sample.cfg Sample.unreachable
  = mkRun (Throw (networkError Sample.refused)) Sample.unreachable
      [connectRequest Sample.cfg; networkSnack]
  /\ result (_getCalendar Sample.cfg Sample.listless)
     = Throw (networkError Sample.refused).
Proof.
  split.
  - exact (proj1 (resolution_network_failures Sample.cfg Sample.unreachable
                    eq_refl eq_refl) Sample.refused eq_refl).
  - rewrite (proj2 (resolution_network_failures Sample.cfg Sample.listless
                      eq_refl eq_refl)
               (mkHome (inl Sample.refused)) [] Sample.refused eq_refl eq_refl).
    reflexivity.
Defined.

(** X7. When no listed calendar has the configured name, [_getCalendar]
    notifies the user and fails with CALENDAR NOT FOUND; the session
    stays in the cache without any calendar, so the next attempt does
    not connect again but lists the calendars again. *)
Theorem missing_calendar_fails_and_is_not_cached (cfg : CaldavCalendarCfg)
  (w : World) (home : CalendarHome) (homes : list CalendarHome)
  (cals : list Calendar.t) :
  _isValidSettings cfg = true ->
  _clientCache w !! clientKey cfg = None ->
  dav_connect w (caldavUrl cfg) (_getXhrProvider cfg) = inr (home :: homes) ->
  findAllCalendars home = inr cals ->
  unlisted cfg cals ->
  _getCalendar cfg w
  = mkRun (Throw (calendarNotFound cfg))
      (withCache (<[clientKey cfg := freshSession cfg (home :: homes)]>
                    (_clientCache w)) w)
      [connectRequest cfg; Net FindAllCalendars; notFoundSnack cfg]
  /\ _getCalendar cfg (after (_getCalendar cfg w))
     = mkRun (Throw (calendarNotFound cfg)) (after (_getCalendar cfg w))
         [Net FindAllCalendars; notFoundSnack cfg].
Proof.
  intros Hv Hmiss Hc Hl Hu.
  assert (_getCalendar cfg w
          = mkRun (Throw (calendarNotFound cfg))
              (withCache (<[clientKey cfg := freshSession cfg (home :: homes)]>
                            (_clientCache w)) w)
              [connectRequest cfg; Net FindAllCalendars; notFoundSnack cfg])
    as Hrun.
  { unfold_resolution. fold (clientKey cfg).
    rewrite Hv; simpl. rewrite Hmiss; simpl. rewrite Hc; simpl.
    rewrite lookup_empty; simpl. rewrite Hl; simpl.
    unfold unlisted in Hu. rewrite Hu. reflexivity. }
  split; [exact Hrun |]. rewrite Hrun. simpl.
  unfold_resolution. fold (clientKey cfg).
  rewrite Hv; simpl. rewrite lookup_insert_eq; simpl.
  rewrite lookup_empty; simpl. rewrite Hl; simpl.
  unfold unlisted in Hu. rewrite Hu. reflexivity.
Qed.

Lemma missing_calendar_fails_and_is_not_cached_witness :
  result (_getCalendar Sample.cfg
            (Sample.serving [Sample.home; Sample.personal]))
  = Throw (Error "CALENDAR NOT FOUND: Work")
  /\ effects (_getCalendar Sample.cfg
                (after (_getCalendar Sample.cfg
                          (Sample.serving [Sample.home; Sample.personal]))))
     = [Net FindAllCalendars; notFoundSnack Sample.cfg].
Proof.
  destruct (missing_calendar_fails_and_is_not_cached Sample.cfg
              (Sample.serving [Sample.home; Sample.personal])
              (mkHome (inr [Sample.home; Sample.personal])) []
              [Sample.home; Sample.personal]
              eq_refl eq_refl eq_refl eq_refl eq_refl) as [Hfirst Hsecond].
  rewrite Hsecond, Hfirst. split; reflexivity.
Defined.

(** X8. When the connection succeeds but the server offers no calendar
    home, [_getCalendar] fails with a TypeError and no notification, and
    the session without homes is stored: every later attempt fails with
    the same TypeError without any request to the server. *)
Theorem session_without_home_is_cached (cfg : CaldavCalendarCfg) (w : World) :
  _isValidSettings cfg = true ->
  _clientCache w !! clientKey cfg = None ->
  dav_connect w (caldavUrl cfg) (_getXhrProvider cfg) = inr [] ->
  _getCalendar cfg w
  = mkRun (Throw TypeError)
      (withCache (<[clientKey cfg := freshSession cfg []]> (_clientCache w)) w)
      [connectRequest cfg]
  /\ _getCalendar cfg (after (_getCalendar cfg w))
     = mkRun (Throw TypeError) (after (_getCalendar cfg w)) [].
Proof.
  intros Hv Hmiss Hc.
  assert (_getCalendar cfg w
          = mkRun (Throw TypeError)
              (withCache (<[clientKey cfg := freshSession cfg []]>
                            (_clientCache w)) w)
              [connectRequest cfg]) as Hrun.
  { unfold_resolution. fold (clientKey cfg).
    rewrite Hv; simpl. rewrite Hmiss; simpl. rewrite Hc; simpl.
    rewrite lookup_empty; simpl. reflexivity. }
  split; [exact Hrun |]. rewrite Hrun. simpl.
  unfold_resolution. fold (clientKey cfg).
  rewrite Hv; simpl. rewrite lookup_insert_eq; simpl.
  rewrite lookup_empty; simpl. reflexivity.
Qed.

Lemma session_without_home_is_cached_witness :
  result (_getCalendar Sample.cfg Sample.homeless) = Throw TypeError
  /\ effects (_getCalendar Sample.cfg
                (after (_getCalendar Sample.cfg Sample.homeless))) = [].
Proof.
  destruct (session_without_home_is_cached Sample.cfg Sample.homeless
              eq_refl eq_refl eq_refl) as [Hfirst Hsecond].
  rewrite Hsecond, Hfirst. split; reflexivity.
Defined.

(** ** The connection test, continued *)

Lemma existsb_eqb_true (name : string) (l : list string) :
  In name l -> existsb (String.eqb name) l = true.
Proof.
  intros Hin. apply existsb_exists. exists name.
  split; [exact Hin | apply String.eqb_refl].
Qed.

(** X9. The outcomes of [testConnection] beside the missing calendar:
    without calendar home it answers [success: false] with "No calendar
    home found" after the connection alone; a rejected listing gives
    [success: false] with the message of the rejection; and when the
    configured name is absent, empty, or among the listed names it
    answers [success: true] with the names and no error.  In each case
    the cache is empty afterwards and nothing is shown to the user. *)
Theorem testConnection_outcomes (cfg : CaldavCalendarCfg) (w : World) :
  (dav_connect w (caldavUrl cfg) (_getXhrProvider cfg) = inr [] ->
   testConnection cfg w
   = mkRun (Ok (ConnectionTest.mk false None (Some "No calendar home found")))
       (cleared w) [connectRequest cfg])
  /\ (forall home homes err,
        dav_connect w (caldavUrl cfg) (_getXhrProvider cfg)
        = inr (home :: homes) ->
        findAllCalendars home = inl err ->
        testConnection cfg w
        = mkRun (Ok (ConnectionTest.mk false None (Some (errorMsg err))))
            (cleared w) [connectRequest cfg; Net FindAllCalendars])
  /\ (forall home homes cals,
        dav_connect w (caldavUrl cfg) (_getXhrProvider cfg)
        = inr (home :: homes) ->
        findAllCalendars home = inr cals ->
        absentOrEmpty (calendarName cfg)
        \/ In (js_string_of (calendarName cfg)) (map displayNameOf cals) ->
        testConnection cfg w
        = mkRun (Ok (ConnectionTest.mk true (Some (map displayNameOf cals))
                       None))
            (cleared w) [connectRequest cfg; Net FindAllCalendars]).
Proof.
  unfold testConnection, await_or_fail, bind, perform, ret, getWorld,
    setCache, connectRequest, cleared; simpl.
  split; [| split].
  - intros Hc. rewrite Hc. reflexivity.
  - intros home homes err Hc Hl. rewrite Hc; simpl. rewrite Hl. reflexivity.
  - intros home homes cals Hc Hl Hname. rewrite Hc; simpl. rewrite Hl; simpl.
    destruct (truthy (calendarName cfg)) eqn:Ht; [| reflexivity].
    destruct Hname as [Ha|Hin].
    + apply truthy_false in Ha. congruence.
    + now rewrite (existsb_eqb_true _ _ Hin).
Qed.

Lemma testConnection_outcomes_witness :
  result (testConnection Sample.cfg Sample.homeless)
  = Ok (ConnectionTest.mk false None (Some "No calendar home found"))
  /\ result (testConnection Sample.cfg Sample.listless)
     = Ok (ConnectionTest.mk false None (Some "Network request failed"))
  /\ result (testConnection Sample.cfg Sample.writable)
     = Ok (ConnectionTest.mk true (Some ["Home"; "Work"]) None).
Proof.
  split; [| split].
  - rewrite (proj1 (testConnection_outcomes Sample.cfg Sample.homeless)
               eq_refl). reflexivity.
  - rewrite (proj1 (proj2 (testConnection_outcomes Sample.cfg Sample.listless))
               (mkHome (inl Sample.refused)) [] Sample.refused
               eq_refl eq_refl). reflexivity.
  - rewrite (proj2 (proj2 (testConnection_outcomes Sample.cfg Sample.writable))
               (mkHome (inr [Sample.home; Sample.work false true true])) []
               [Sample.home; Sample.work false true true] eq_refl eq_refl
               (or_intror (or_intror (or_introl eq_refl)))).
    reflexivity.
Defined.

Lemma testConnection_clears cfg w :
  _clientCache (after (testConnection cfg w)) = ∅
  /\ dav_connect (after (testConnection cfg w)) = dav_connect w.
Proof.
  unfold testConnection, await_or_fail, bind, perform, ret, getWorld,
    setCache; simpl.
  destruct (dav_connect w _ _) as [err|[|home homes]]; simpl; auto.
  destruct (findAllCalendars home) as [err|cals]; simpl; auto.
Qed.

(** X10. Whatever [testConnection] finds, it never throws and it leaves
    the cache empty, so the next resolution with a valid configuration
    starts with a new connection, also when the session was cached
    before the test. *)
Theorem testConnection_forces_reconnect (tested cfg : CaldavCalendarCfg)
  (w : World) :
  _isValidSettings cfg = true ->
  (exists outcome, result (testConnection tested w) = Ok outcome)
  /\ _clientCache (after (testConnection tested w)) = ∅
  /\ exists t,
      effects (_getCalendar cfg (after (testConnection tested w)))
      = connectRequest cfg :: t.
Proof.
  intros Hv. destruct (testConnection_clears tested w) as [Hempty Hconn].
  split; [| split; [exact Hempty |]].
  - unfold testConnection, await_or_fail, bind, perform, ret, getWorld,
      setCache; simpl.
    destruct (dav_connect w _ _) as [err|[|home homes]]; simpl; eauto.
    destruct (findAllCalendars home) as [err|cals]; simpl; eauto.
  - unfold_resolution. rewrite Hv; simpl. rewrite Hempty, lookup_empty; simpl.
    destruct (dav_connect _ _ _) as [err|[|home homes]]; simpl; eauto.
    rewrite lookup_empty; simpl.
    destruct (findAllCalendars home) as [err|cals]; simpl; eauto.
    destruct (find _ cals); simpl; eauto.
Qed.

Lemma testConnection_forces_reconnect_witness :
  effects (_getCalendar Sample.cfg (Sample.resolved Sample.writable)) = []
  /\ exists t,
      effects (_getCalendar Sample.cfg
                 (after (testConnection Sample.cfg
                           (Sample.resolved Sample.writable))))
      = connectRequest Sample.cfg :: t.
Proof.
  split; [vm_compute; reflexivity |].
  exact (proj2 (proj2 (testConnection_forces_reconnect Sample.cfg Sample.cfg
                         (Sample.resolved Sample.writable) eq_refl))).
Defined.

(** ** Sessions are shared by cache key *)

Lemma getClient_connects cfg w homes :
  _isValidSettings cfg = true ->
  _clientCache w !! clientKey cfg = None ->
  dav_connect w (caldavUrl cfg) (_getXhrProvider cfg) = inr homes ->
  _getClient cfg w
  = mkRun (Ok (clientKey cfg, freshSession cfg homes))
      (withCache (<[clientKey cfg := freshSession cfg homes]> (_clientCache w))
         w)
      [connectRequest cfg].
Proof.
  intros Hv Hmiss Hc. unfold_resolution. fold (clientKey cfg).
  rewrite Hv; simpl. rewrite Hmiss; simpl. rewrite Hc; simpl. reflexivity.
Qed.

(** X11. The session cache is keyed by the text
    [url|username|password]: after a configuration has connected, any
    valid configuration with the same key text gets that very session,
    with the request headers of the first configuration, and no
    connection of its own.  This holds for the same credentials with
    another calendar name, and also for different credentials whose key
    texts coincide. *)
Theorem session_is_shared_by_key_text (cfg1 cfg2 : CaldavCalendarCfg)
  (w : World) (homes : list CalendarHome) :
  _isValidSettings cfg1 = true ->
  _isValidSettings cfg2 = true ->
  clientKey cfg1 = clientKey cfg2 ->
  _clientCache w !! clientKey cfg1 = None ->
  dav_connect w (caldavUrl cfg1) (_getXhrProvider cfg1) = inr homes ->
  _getClient cfg2 (after (_getClient cfg1 w))
  = mkRun (Ok (clientKey cfg1, freshSession cfg1 homes))
      (after (_getClient cfg1 w)) [].
Proof.
  intros Hv1 Hv2 Hkey Hmiss Hc.
  rewrite (getClient_connects cfg1 w homes Hv1 Hmiss Hc). simpl.
  unfold_resolution. fold (clientKey cfg2). rewrite Hv2; simpl.
  rewrite <- Hkey, lookup_insert_eq. reflexivity.
Qed.

Lemma session_is_shared_by_key_text_witness :
  basicCredentials (_getXhrProvider Sample.cfgA)
  <> basicCredentials (_getXhrProvider Sample.cfgB)
  /\ clientKey Sample.cfgA = clientKey Sample.cfgB
  /\ result (_getClient Sample.cfgB
               (after (_getClient Sample.cfgA Sample.writable)))
     = Ok (clientKey Sample.cfgA,
           freshSession Sample.cfgA
             [mkHome (inr [Sample.home; Sample.work false true true])]).
Proof.
  split; [discriminate |]. split; [reflexivity |].
  rewrite (session_is_shared_by_key_text Sample.cfgA Sample.cfgB
             Sample.writable
             [mkHome (inr [Sample.home; Sample.work false true true])]
             eq_refl eq_refl eq_refl eq_refl eq_refl).
  reflexivity.
Defined.

(** ** Rejections inside the operations *)

Section Rejections.

Context `{ICAL}.

Ltac unfold_ops :=
  unfold _createEvent, _updateEvent, _deleteEvent, _createTodo, _updateTodo,
    _deleteTodo, _findEventByUid, _findTodoByUid, rejectReadOnly,
    updateIfCapable, deleteIfCapable, uidOrGenerated, _generateUid,
    formatIcalDateTime, await, await_catch, _handleNetErr, bind, perform, ret,
    throw, getWorld, setCache.

(** X12. A rejected [calendar-query] is not handled as a network error:
    [updateEvent], [deleteEvent], [updateTodo] and [deleteTodo] reject
    with the library's own error, and after the query no notification
    is shown and nothing is logged. *)
Theorem rejected_query_is_passed_on (cfg : CaldavCalendarCfg) (w w1 : World)
  (calendar : Calendar.t) (t1 : list Effect) (uid : string) (err : Thrown) :
  resolves cfg w calendar w1 t1 ->
  (Calendar.readOnly calendar = false ->
   Calendar.calendarQuery calendar "VEVENT" uid = inl err ->
   forall eventData,
     _updateEvent cfg uid eventData w
     = mkRun (Throw (Rejected err)) w1
         (t1 ++ [Net (CalendarQuery (Calendar.url calendar) "VEVENT" uid)]))
  /\ (Calendar.calendarQuery calendar "VEVENT" uid = inl err ->
      _deleteEvent cfg uid w
      = mkRun (Throw (Rejected err)) w1
          (t1 ++ [Net (CalendarQuery (Calendar.url calendar) "VEVENT" uid)]))
  /\ (Calendar.readOnly calendar = false ->
      Calendar.calendarQuery calendar "VTODO" uid = inl err ->
      forall todoData,
        _updateTodo cfg uid todoData w
        = mkRun (Throw (Rejected err)) w1
            (t1 ++ [Net (CalendarQuery (Calendar.url calendar) "VTODO" uid)]))
  /\ (Calendar.calendarQuery calendar "VTODO" uid = inl err ->
      _deleteTodo cfg uid w
      = mkRun (Throw (Rejected err)) w1
          (t1 ++ [Net (CalendarQuery (Calendar.url calendar) "VTODO" uid)])).
Proof.
  intros Hres. unfold resolves in Hres.
  repeat split; intros;
    unfold_ops; simpl; rewrite Hres; simpl;
    repeat match goal with
      | Hw : Calendar.readOnly _ = _ |- _ => rewrite Hw; clear Hw
      | Hq : Calendar.calendarQuery _ _ _ = _ |- _ => rewrite Hq; clear Hq
      end; reflexivity.
Qed.

(** X13. When the server rejects the write of an update, [updateEvent]
    and [updateTodo] notify the user and fail with the network error;
    the Updated line is not logged. *)
Theorem rejected_update_is_a_network_error (cfg : CaldavCalendarCfg)
  (w w1 : World) (calendar : Calendar.t) (t1 : list Effect) (uid : string)
  (obj : VObject.t) (jCal v : Component) (update : string -> Thrown + unit)
  (err : Thrown) :
  resolves cfg w calendar w1 t1 ->
  Calendar.readOnly calendar = false ->
  VObject.update obj = Some update ->
  (forall eventData,
      located calendar "VEVENT" "vevent" uid obj jCal v ->
      snd (patchEvent eventData (compProps v)) = true ->
      update (ICAL_stringify
                (withFirstSubcomponent "vevent"
                   (editEvent (fromJSDate (clock w)) eventData) jCal))
      = inl err ->
      _updateEvent cfg uid eventData w
      = mkRun (Throw (networkError err)) w1
          (t1 ++ [Net (CalendarQuery (Calendar.url calendar) "VEVENT" uid);
                  Net (UpdateVObject (VObject.url obj)
                         (ICAL_stringify
                            (withFirstSubcomponent "vevent"
                               (editEvent (fromJSDate (clock w)) eventData)
                               jCal)));
                  networkSnack]))
  /\ (forall todoData,
      located calendar "VTODO" "vtodo" uid obj jCal v ->
      snd (patchTodo (fromJSDate (clock w)) todoData (compProps v)) = true ->
      update (ICAL_stringify
                (withFirstSubcomponent "vtodo"
                   (editTodo (fromJSDate (clock w)) todoData) jCal))
      = inl err ->
      _updateTodo cfg uid todoData w
      = mkRun (Throw (networkError err)) w1
          (t1 ++ [Net (CalendarQuery (Calendar.url calendar) "VTODO" uid);
                  Net (UpdateVObject (VObject.url obj)
                         (ICAL_stringify
                            (withFirstSubcomponent "vtodo"
                               (editTodo (fromJSDate (clock w)) todoData)
                               jCal)));
                  networkSnack])).
Proof.
  intros Hres Hro Hup. pose proof (getCalendar_clock cfg w) as Hclock.
  unfold resolves in Hres. rewrite Hres in Hclock. simpl in Hclock.
  split; intros payload ((rest & Hq) & Hp & Hv) Hch Hrej;
    unfold_ops; simpl; rewrite Hres; simpl; rewrite Hro; simpl;
    rewrite Hq; simpl; rewrite Hp, Hv; simpl; rewrite Hclock, Hch; simpl;
    rewrite Hup; simpl.
  - unfold editEvent in Hrej. rewrite Hrej. reflexivity.
  - unfold editTodo in Hrej. rewrite Hrej. reflexivity.
Qed.


End Rejections.

Lemma sample_resolves (cals : list Calendar.t) (calendar : Calendar.t) :
  result (_getCalendar Sample.cfg (Sample.serving cals)) = Ok calendar ->
  resolves Sample.cfg (Sample.serving cals) calendar
    (Sample.resolved (Sample.serving cals))
    (Sample.resolving (Sample.serving cals)).
Proof. apply resolves_run. Qed.

Lemma rejected_query_is_passed_on_witness :
  result (@_updateEvent Sample.codec Sample.cfg "sp-task-42"
            Sample.sameStart (Sample.serving [Sample.unsearchable]))
  = Throw (Rejected Sample.refused)
  /\ result (_deleteTodo Sample.cfg "sp-task-7"
               (Sample.serving [Sample.unsearchable]))
     = Throw (Rejected Sample.refused).
Proof.
  pose proof (@rejected_query_is_passed_on Sample.codec Sample.cfg
                (Sample.serving [Sample.unsearchable]) _ Sample.unsearchable _
                "sp-task-42" Sample.refused
                (sample_resolves [Sample.unsearchable] Sample.unsearchable
                   eq_refl)) as (Hupdate & _).
  pose proof (@rejected_query_is_passed_on Sample.codec Sample.cfg
                (Sample.serving [Sample.unsearchable]) _ Sample.unsearchable _
                "sp-task-7" Sample.refused
                (sample_resolves [Sample.unsearchable] Sample.unsearchable
                   eq_refl)) as (_ & _ & _ & Hdelete).
  split.
  - rewrite (Hupdate eq_refl eq_refl Sample.sameStart). reflexivity.
  - rewrite (Hdelete eq_refl). reflexivity.
Defined.

Lemma rejected_update_is_a_network_error_witness :
  result (@_updateEvent Sample.codec Sample.cfg "sp-task-42"
            Sample.sameStart (Sample.serving [Sample.unwritable]))
  = Throw (networkError Sample.refused).
Proof.
  pose proof (@rejected_update_is_a_network_error Sample.codec Sample.cfg
                (Sample.serving [Sample.unwritable]) _ Sample.unwritable _
                "sp-task-42" Sample.rejectedEvent Sample.eventTree
                Sample.vevent (fun _ => inl Sample.refused) Sample.refused
                (sample_resolves [Sample.unwritable] Sample.unwritable eq_refl)
                eq_refl eq_refl) as (Hevent & _).
  rewrite (Hevent Sample.sameStart); [reflexivity | | reflexivity | reflexivity].
  split; [exists []; reflexivity | split; reflexivity].
Defined.


(** ** What an update writes *)

Lemma updateFirst_ext (name : string) (f g : Props -> Props)
  (l : list Component) :
  (forall v, f v = g v) -> updateFirst name f l = updateFirst name g l.
Proof.
  intros Hfg. induction l as [|s l IH]; simpl; [reflexivity |].
  destruct (String.eqb (compName s) name); [now rewrite Hfg | now rewrite IH].
Qed.

Lemma withFirst_ext (name : string) (f g : Props -> Props) (c : Component) :
  (forall v, f v = g v) ->
  withFirstSubcomponent name f c = withFirstSubcomponent name g c.
Proof.
  intros Hfg. unfold withFirstSubcomponent. now rewrite (updateFirst_ext _ f g).
Qed.

Lemma updateFirst_at (name : string) (f g : Props -> Props)
  (l : list Component) (v : Component) :
  find (fun s => String.eqb (compName s) name) l = Some v ->
  f (compProps v) = g (compProps v) ->
  updateFirst name f l = updateFirst name g l.
Proof.
  intros Hv Hfg. induction l as [|s l IH]; simpl in *; [reflexivity |].
  destruct (String.eqb (compName s) name).
  - injection Hv as ->. now rewrite Hfg.
  - now rewrite IH.
Qed.

(** Two edits that agree on the first component of the name write the
    same tree. *)
Lemma withFirst_at (name : string) (f g : Props -> Props) (c v : Component) :
  getFirstSubcomponent name c = Some v ->
  f (compProps v) = g (compProps v) ->
  withFirstSubcomponent name f c = withFirstSubcomponent name g c.
Proof.
  intros Hv Hfg. unfold withFirstSubcomponent.
  now rewrite (updateFirst_at name f g _ v Hv Hfg).
Qed.

Lemma sequenceInt_raised (v : Props) :
  sequenceSafe v ->
  sequenceInt (SEQUENCE v)
  = match SEQUENCE v with Some n => n + 1 | None => 1 end.
Proof.
  unfold sequenceSafe. destruct (SEQUENCE v) as [n|]; [| reflexivity].
  apply sequenceInt_succ.
Qed.

Lemma editTodo_completed (now : ICAL_Time) (v : Props) :
  sequenceSafe v -> editTodo now completedPatch v = completedProps now v.
Proof.
  intros Hv. unfold editTodo, completedProps, bumpRevision. simpl.
  now rewrite (sequenceInt_raised v Hv).
Qed.

Lemma updateFirst_first (name : string) (f : Props -> Props)
  (pre post : list Component) (v : Component) :
  noneNamed name pre = true -> compName v = name ->
  updateFirst name f (pre ++ v :: post)%list
  = (pre ++ Comp (compName v) (f (compProps v)) (compSubs v) :: post)%list.
Proof.
  intros Hpre Hv. induction pre as [|s pre IH]; simpl in *.
  - rewrite Hv, String.eqb_refl. reflexivity.
  - apply andb_true_iff in Hpre as [Hs Hpre].
    apply negb_true_iff in Hs. rewrite Hs, IH by exact Hpre. reflexivity.
Qed.

Section Writes.

Context `{ICAL}.

Ltac unfold_ops :=
  unfold _createEvent, _updateEvent, _deleteEvent, _createTodo, _updateTodo,
    _deleteTodo, _findEventByUid, _findTodoByUid, rejectReadOnly,
    updateIfCapable, deleteIfCapable, uidOrGenerated, _generateUid,
    formatIcalDateTime, await, await_catch, _handleNetErr, bind, perform, ret,
    throw, getWorld, setCache.

(** X15. [completeTodo] on a located todo that can be updated always
    writes, whatever the todo's state: the VTODO it sends has STATUS
    COMPLETED, PERCENT-COMPLETE 100, the COMPLETED, LAST-MODIFIED and
    DTSTAMP times at now and, for a SEQUENCE that is a safe integer,
    SEQUENCE raised by one, and keeps summary, description, due date,
    priority and all other content lines. *)
Theorem completeTodo_writes_completion (cfg : CaldavCalendarCfg)
  (w w1 : World) (calendar : Calendar.t) (t1 : list Effect) (uid : string)
  (obj : VObject.t) (jCal v : Component) (update : string -> Thrown + unit) :
  resolves cfg w calendar w1 t1 ->
  Calendar.readOnly calendar = false ->
  located calendar "VTODO" "vtodo" uid obj jCal v ->
  sequenceSafe (compProps v) ->
  VObject.update obj = Some update ->
  update (ICAL_stringify
            (withFirstSubcomponent "vtodo"
               (completedProps (fromJSDate (clock w))) jCal)) = inr tt ->
  _updateTodo cfg uid completedPatch w
  = mkRun (Ok tt) w1
      (t1 ++ [Net (CalendarQuery (Calendar.url calendar) "VTODO" uid);
              Net (UpdateVObject (VObject.url obj)
                     (ICAL_stringify
                        (withFirstSubcomponent "vtodo"
                           (completedProps (fromJSDate (clock w))) jCal)));
              Log_log "CalDAV Calendar: Updated VTODO" uid]).
Proof.
  intros Hres Hro ((rest & Hq) & Hp & Hv) Hsafe Hup Hok.
  pose proof (getCalendar_clock cfg w) as Hclock.
  unfold resolves in Hres. rewrite Hres in Hclock. simpl in Hclock.
  unfold_ops; simpl. rewrite Hres; simpl. rewrite Hro; simpl.
  rewrite Hq; simpl. rewrite Hp, Hv; simpl. rewrite Hup; simpl.
  rewrite Hclock.
  rewrite (withFirst_at "vtodo" _ (completedProps (fromJSDate (clock w)))
             jCal v Hv)
    by (apply (editTodo_completed _ _ Hsafe)).
  rewrite Hok. reflexivity.
Qed.

(** X16. An update edits the first VEVENT of the object and nothing
    else: the properties of the calendar component, the components
    before the first VEVENT and every component after it, a second
    VEVENT included, are written back as they were read. *)
Theorem update_edits_only_the_first_component (cfg : CaldavCalendarCfg)
  (w w1 : World) (calendar : Calendar.t) (t1 : list Effect) (uid : string)
  (obj : VObject.t) (jCal v : Component) (pre post : list Component)
  (update : string -> Thrown + unit) (eventData : EventPatch.data) :
  resolves cfg w calendar w1 t1 ->
  Calendar.readOnly calendar = false ->
  (exists rest,
      Calendar.calendarQuery calendar "VEVENT" uid = inr (obj :: rest)) ->
  ICAL_parse (VObject.data obj) = inr jCal ->
  compSubs jCal = (pre ++ v :: post)%list ->
  noneNamed "vevent" pre = true ->
  compName v = "vevent" ->
  snd (patchEvent eventData (compProps v)) = true ->
  VObject.update obj = Some update ->
  exists answer,
    effects (_updateEvent cfg uid eventData w)
    = (t1 ++ Net (CalendarQuery (Calendar.url calendar) "VEVENT" uid)
          :: Net (UpdateVObject (VObject.url obj)
                    (ICAL_stringify
                       (Comp (compName jCal) (compProps jCal)
                          (pre
                           ++ Comp "vevent"
                                (editEvent (fromJSDate (clock w)) eventData
                                   (compProps v))
                                (compSubs v)
                           :: post))))
          :: answer)%list.
Proof.
  intros Hres Hro (rest & Hq) Hp Hsubs Hpre Hname Hch Hup.
  pose proof (getCalendar_clock cfg w) as Hclock.
  unfold resolves in Hres. rewrite Hres in Hclock. simpl in Hclock.
  assert (getFirstSubcomponent "vevent" jCal = Some v) as Hv.
  { unfold getFirstSubcomponent. rewrite Hsubs. clear Hsubs.
    induction pre as [|s pre IH]; simpl in *.
    - now rewrite Hname.
    - apply andb_true_iff in Hpre as [Hs Hpre].
      apply negb_true_iff in Hs. rewrite Hs. now apply IH. }
  unfold_ops; simpl. rewrite Hres; simpl. rewrite Hro; simpl.
  rewrite Hq; simpl. rewrite Hp, Hv; simpl. rewrite Hch; simpl.
  rewrite Hup; simpl. rewrite Hclock.
  unfold withFirstSubcomponent. rewrite Hsubs.
  rewrite (updateFirst_first "vevent" _ pre post v Hpre Hname), Hname.
  fold (editEvent (fromJSDate (clock w)) eventData (compProps v)).
  match goal with
  | |- context [update ?d] => destruct (update d) as [err|[]]
  end; simpl; eexists; reflexivity.
Qed.

End Writes.

Lemma keeps_event (now : ICAL_Time) (eventData : EventPatch.data) (v : Props) :
  keepsProperties v (editEvent now eventData v).
Proof.
  unfold keepsProperties, editEvent, bumpRevision, patchEvent, ifChanged,
    whenProvided.
  destruct eventData as [u [s|] [a|] [b|] [d|]]; simpl;
    try destruct (differs s (SUMMARY v)); simpl; repeat split; auto.
Qed.

Lemma keeps_todo (now : ICAL_Time) (todoData : TodoPatch.data) (v : Props) :
  keepsProperties v (editTodo now todoData v).
Proof.
  unfold keepsProperties, editTodo, bumpRevision, patchTodo, ifChanged,
    whenProvided, patchStatus.
  destruct todoData as [u [s|] [d|] [p|] [a|] [c|] [st|]]; simpl;
    try destruct (differs s (SUMMARY v)); try destruct st; simpl;
    repeat split; auto.
Qed.

(** X17. The edit of an update sets properties and never removes one:
    every property the component had it still has afterwards, and the
    content lines the service does not know are untouched.  So a todo
    whose status is set to anything but COMPLETED keeps the COMPLETED
    time it had. *)
Theorem update_never_removes_a_property (now : ICAL_Time) (v : Props) :
  (forall eventData, keepsProperties v (editEvent now eventData v))
  /\ (forall todoData, keepsProperties v (editTodo now todoData v))
  /\ (forall todoData,
        TodoPatch.status todoData <> Some COMPLETED_ ->
        COMPLETED (editTodo now todoData v) = COMPLETED v).
Proof.
  split; [intros; apply keeps_event |]. split; [intros; apply keeps_todo |].
  intros todoData Hst.
  unfold editTodo, bumpRevision, patchTodo, ifChanged, whenProvided,
    patchStatus.
  destruct todoData as [u [s|] [d|] [p|] [a|] [c|] [st|]]; simpl in *;
    try destruct (differs s (SUMMARY v)); try destruct st; simpl;
    try reflexivity; congruence.
Qed.

Lemma completeTodo_writes_completion_witness :
  effects (@_updateTodo Sample.codec Sample.cfg "sp-task-7" completedPatch
             Sample.writable)
  = (Sample.resolving Sample.writable
     ++ [Net (CalendarQuery "https://dav.example.org/cal/work/" "VTODO"
                "sp-task-7");
         Net (UpdateVObject "https://dav.example.org/cal/work/7.ics"
                "vtodo SEQUENCE:1");
         Log_log "CalDAV Calendar: Updated VTODO" "sp-task-7"])%list.
Proof.
  rewrite (@completeTodo_writes_completion Sample.codec Sample.cfg
             Sample.writable _ (Sample.work false true true) _ "sp-task-7"
             (Sample.storedTodo true true) Sample.todoTree Sample.vtodo
             (fun _ => inr tt) sample_resolves_writable eq_refl).
  - reflexivity.
  - split; [exists []; reflexivity | split; reflexivity].
  - unfold sequenceSafe, safeInteger. simpl. lia.
  - reflexivity.
  - reflexivity.
Defined.

Lemma update_edits_only_the_first_component_witness :
  exists answer,
    effects (@_updateEvent Sample.seriesCodec Sample.cfg "sp-task-42"
               Sample.sameStart (Sample.serving [Sample.workSeries]))
    = (Sample.resolving (Sample.serving [Sample.workSeries])
       ++ Net (CalendarQuery "https://dav.example.org/cal/work/" "VEVENT"
                 "sp-task-42")
       :: Net (UpdateVObject Sample.eventUrl "vtimezone:-,vevent:4,vevent:1")
       :: answer)%list.
Proof.
  exact (@update_edits_only_the_first_component Sample.seriesCodec Sample.cfg
           (Sample.serving [Sample.workSeries]) _ Sample.workSeries _
           "sp-task-42" Sample.seriesEvent Sample.seriesTree Sample.vevent
           [Sample.timezone] [Sample.override] (fun _ => inr tt)
           Sample.sameStart
           (sample_resolves [Sample.workSeries] Sample.workSeries eq_refl)
           eq_refl (ex_intro _ [] eq_refl) eq_refl eq_refl eq_refl eq_refl
           eq_refl eq_refl).
Defined.

Lemma update_never_removes_a_property_witness :
  TodoPatch.status Sample.reopen <> Some COMPLETED_
  /\ STATUS (editTodo (fromJSDate 1700000000000) Sample.reopen
               Sample.doneProps) = Some "NEEDS-ACTION"
  /\ COMPLETED (editTodo (fromJSDate 1700000000000) Sample.reopen
                  Sample.doneProps) = Some (fromJSDate 1695000000000).
Proof.
  assert (TodoPatch.status Sample.reopen <> Some COMPLETED_) as Hst
    by discriminate.
  split; [exact Hst |]. split; [reflexivity |].
  exact (proj2 (proj2 (update_never_removes_a_property
                         (fromJSDate 1700000000000) Sample.doneProps))
           Sample.reopen Hst).
Defined.

(** ** The text of a new todo *)

Lemma lines_cons (a b : string) :
  hasNewline a = false -> lines (a +:+ nl +:+ b) = a :: lines b.
Proof. intros Ha. now rewrite lines_app_nl, (lines_one_line a Ha). Qed.

Lemma lines_snoc (a b : string) :
  hasNewline b = false -> lines (a +:+ nl +:+ b) = (lines a ++ [b])%list.
Proof. intros Hb. now rewrite lines_app_nl, (lines_one_line b Hb). Qed.

Lemma statusText_one_line (todoData : Todo.data) :
  hasNewline (todoStatusText todoData) = false.
Proof.
  unfold todoStatusText. destruct (Todo.status todoData) as [[]|]; reflexivity.
Qed.

Lemma todoIcalData_lines (uid now : string) (due : option string)
  (todoData : Todo.data) :
  hasNewline uid = false -> hasNewline now = false -> oneLine due ->
  lines (todoIcalData uid now due todoData) = todoLines uid now due todoData.
Proof.
  intros Hu Hn Hd. unfold todoIcalData, todoLines.
  fold (todoStatusText todoData).
  set (base := "BEGIN:VCALENDAR" +:+ nl +:+ "VERSION:2.0" +:+ nl +:+ PRODID
               +:+ nl +:+ "BEGIN:VTODO" +:+ nl +:+ "UID:" +:+ uid +:+ nl
               +:+ "DTSTAMP:" +:+ now +:+ nl +:+ "CREATED:" +:+ now +:+ nl
               +:+ "SUMMARY:" +:+ _escapeIcalText (Todo.summary todoData)
               +:+ nl +:+ "STATUS:" +:+ todoStatusText todoData).
  assert (lines base
          = ["BEGIN:VCALENDAR"; "VERSION:2.0"; PRODID; "BEGIN:VTODO";
             "UID:" +:+ uid; "DTSTAMP:" +:+ now; "CREATED:" +:+ now;
             "SUMMARY:" +:+ _escapeIcalText (Todo.summary todoData);
             "STATUS:" +:+ todoStatusText todoData]) as Hbase.
  { subst base.
    rewrite (lines_cons "BEGIN:VCALENDAR") by reflexivity.
    rewrite (lines_cons "VERSION:2.0") by reflexivity.
    rewrite (lines_cons PRODID) by reflexivity.
    rewrite (lines_cons "BEGIN:VTODO") by reflexivity.
    rewrite <- (append_assoc "UID:" uid), lines_cons
      by (now rewrite hasNewline_app, Hu).
    rewrite <- (append_assoc "DTSTAMP:" now), lines_cons
      by (now rewrite hasNewline_app, Hn).
    rewrite <- (append_assoc "CREATED:" now), lines_cons
      by (now rewrite hasNewline_app, Hn).
    rewrite <- (append_assoc "SUMMARY:" (_escapeIcalText _)), lines_cons
      by (now rewrite hasNewline_app, escape_one_line).
    rewrite lines_one_line
      by (now rewrite hasNewline_app, statusText_one_line).
    reflexivity. }
  rewrite (lines_app_nl _ ("SEQUENCE:0" +:+ nl +:+ "END:VTODO" +:+ nl
                           +:+ "END:VCALENDAR")).
  change (lines ("SEQUENCE:0" +:+ nl +:+ "END:VTODO" +:+ nl +:+ "END:VCALENDAR"))
    with ["SEQUENCE:0"; "END:VTODO"; "END:VCALENDAR"].
  rewrite !app_assoc. f_equal.
  destruct (Todo.percentComplete todoData) as [pc|];
    [rewrite lines_snoc
       by (now rewrite hasNewline_app, numberToString_one_line)
    | rewrite app_nil_r];
    (destruct due as [dueStr|];
     [rewrite lines_snoc by (simpl in Hd; now rewrite hasNewline_app, Hd)
     | rewrite app_nil_r]);
    (destruct (Todo.priority todoData) as [pr|];
     [rewrite lines_snoc
        by (now rewrite hasNewline_app, numberToString_one_line)
     | rewrite app_nil_r]);
    (destruct (truthy (Todo.description todoData));
     [rewrite lines_snoc by (now rewrite hasNewline_app, escape_one_line)
     | rewrite app_nil_r]);
    rewrite Hbase; reflexivity.
Qed.

Lemma allDigits_one_line (s : string) :
  allDigits s = true -> hasNewline s = false.
Proof.
  induction s as [|c s IH]; [reflexivity |].
  cbn [allDigits hasNewline]. intros Hs.
  apply andb_true_iff in Hs as [Hc Hs]. rewrite (IH Hs), orb_false_r.
  destruct (Ascii.eqb_spec c newline) as [->|]; [discriminate Hc | reflexivity].
Qed.

Lemma padDigits_one_line (n : nat) (v : Z) : hasNewline (padDigits n v) = false.
Proof. apply allDigits_one_line, padDigits_allDigits. Qed.

Lemma basicDateTime_one_line (t : Z) : hasNewline (basicDateTime t) = false.
Proof.
  unfold basicDateTime.
  destruct (civilFromDays (t / 86400000)) as [[y m] d].
  rewrite !hasNewline_app, !padDigits_one_line.
  assert (hasNewline (yearText y) = false) as ->; [| reflexivity].
  unfold yearText.
  destruct ((0 <=? y) && (y <=? 9999)); [apply padDigits_one_line |].
  destruct (y <? 0); [apply padDigits_one_line |].
  now rewrite hasNewline_app, padDigits_one_line.
Qed.

Lemma formatted_one_line (t : Z) (s : string) :
  _formatIcalDateTime t = Some s -> hasNewline s = false.
Proof.
  intros Hs.
  assert (validTime t = true) as Hv
    by (apply formatIcalDateTime_valid; eauto).
  rewrite (formatIcalDateTime_basic t Hv) in Hs. injection Hs as <-.
  apply basicDateTime_one_line.
Qed.

(** X18. On a resolved, writable calendar, with valid dates and an
    accepting server, [createTodo] returns the uid of the record (or the
    generated one when it is empty) after one write; for a uid without
    line feed the text it writes consists of the nine header lines, one
    line for each of description, priority, due date and percent
    complete that the record has, and the three closing lines, with
    STATUS defaulting to NEEDS-ACTION: unlike the text of an event it
    has no empty line for a missing description. *)
Theorem createTodo_writes_one_line_per_field (cfg : CaldavCalendarCfg)
  (w w1 : World) (calendar : Calendar.t) (t1 : list Effect)
  (todoData : Todo.data) (now : string) (due : option string) :
  resolves cfg w calendar w1 t1 ->
  Calendar.readOnly calendar = false ->
  _formatIcalDateTime (clock w) = Some now ->
  dueText todoData due ->
  Calendar.createVObject calendar
    (todoIcalData (todoUidOf todoData w) now due todoData) = inr tt ->
  hasNewline (todoUidOf todoData w) = false ->
  _createTodo cfg todoData w
  = mkRun (Ok (todoUidOf todoData w)) w1
      (console_log "CalDAV: Creating VTODO"
       :: t1
       ++ [console_log "CalDAV: Got calendar for VTODO";
           Net (CreateVObject (Calendar.url calendar)
                  (todoIcalData (todoUidOf todoData w) now due todoData));
           Log_log "CalDAV Calendar: Created VTODO" (todoUidOf todoData w)])
  /\ lines (todoIcalData (todoUidOf todoData w) now due todoData)
     = todoLines (todoUidOf todoData w) now due todoData.
Proof.
  intros Hres Hro Hnow Hdue Hcreate Huid.
  pose proof (getCalendar_clock cfg w) as Hclock.
  pose proof (getCalendar_randomUUID cfg w) as Huuid.
  unfold resolves in Hres. rewrite Hres in Hclock, Huuid.
  simpl in Hclock, Huuid. split.
  - unfold _createTodo, rejectReadOnly, uidOrGenerated, _generateUid,
      formatIcalDateTime, await_catch, bind, perform, ret, throw, getWorld.
    simpl. rewrite Hres; simpl. rewrite Hro; simpl.
    unfold todoUidOf, dueText in *. simpl in Hcreate |- *.
    destruct (String.eqb (Todo.uid todoData) EmptyString);
      simpl in Hcreate |- *; rewrite Hclock, Hnow; simpl;
      destruct (Todo.dueDate todoData) as [d|], due as [dueStr|];
      try contradiction; rewrite ?Hdue; simpl;
      rewrite ?Huuid; rewrite Hcreate; reflexivity.
  - apply todoIcalData_lines;
      [exact Huid | now apply (formatted_one_line _ _ Hnow) |].
    unfold dueText in Hdue.
    destruct (Todo.dueDate todoData) as [d|], due as [dueStr|]; simpl;
      try contradiction; try exact I.
    now apply (formatted_one_line d).
Qed.

Lemma createTodo_writes_one_line_per_field_witness :
  result (_createTodo Sample.cfg Sample.milk Sample.writable) = Ok "sp-task-7"
  /\ lines (todoIcalData "sp-task-7" "20231114T221320Z"
              (Some "20231114T231320Z") Sample.milk)
     = ["BEGIN:VCALENDAR"; "VERSION:2.0"; PRODID; "BEGIN:VTODO";
        "UID:sp-task-7"; "DTSTAMP:20231114T221320Z";
        "CREATED:20231114T221320Z"; "SUMMARY:Buy milk";
        "STATUS:NEEDS-ACTION"; "PRIORITY:5"; "DUE:20231114T231320Z";
        "SEQUENCE:0"; "END:VTODO"; "END:VCALENDAR"].
Proof.
  destruct (createTodo_writes_one_line_per_field Sample.cfg Sample.writable _
              (Sample.work false true true) _ Sample.milk "20231114T221320Z"
              (Some "20231114T231320Z") sample_resolves_writable eq_refl
              eq_refl eq_refl eq_refl eq_refl) as [Hrun Hlines].
  split; [now rewrite Hrun | exact Hlines].
Defined.

(** ** The text of a new event *)

Lemma eventIcalData_lines (uid now dtstart dtend : string)
  (eventData : Event.data) :
  hasNewline uid = false -> hasNewline now = false ->
  hasNewline dtstart = false -> hasNewline dtend = false ->
  lines (eventIcalData uid now dtstart dtend eventData)
  = eventLines uid now dtstart dtend eventData.
Proof.
  intros Hu Hn Hs He. unfold eventIcalData, eventLines.
  rewrite (lines_cons "BEGIN:VCALENDAR") by reflexivity.
  rewrite (lines_cons "VERSION:2.0") by reflexivity.
  rewrite (lines_cons PRODID) by reflexivity.
  rewrite (lines_cons "BEGIN:VEVENT") by reflexivity.
  rewrite <- (append_assoc "UID:" uid), lines_cons
    by (now rewrite hasNewline_app, Hu).
  rewrite <- (append_assoc "DTSTAMP:" now), lines_cons
    by (now rewrite hasNewline_app, Hn).
  rewrite <- (append_assoc "DTSTART:" dtstart), lines_cons
    by (now rewrite hasNewline_app, Hs).
  rewrite <- (append_assoc "DTEND:" dtend), lines_cons
    by (now rewrite hasNewline_app, He).
  rewrite <- (append_assoc "SUMMARY:" (_escapeIcalText _)), lines_cons
    by (now rewrite hasNewline_app, escape_one_line).
  rewrite lines_cons
    by (destruct (truthy (Event.description eventData));
        [now rewrite hasNewline_app, escape_one_line | reflexivity]).
  reflexivity.
Qed.

(** X19. Every create request of [createEvent] whose uid has no line
    feed carries a text of exactly thirteen lines: the header, UID,
    DTSTAMP at the clock, DTSTART and DTEND as formatted dates, the
    escaped SUMMARY, then the escaped DESCRIPTION, or an empty line when
    the description is absent or empty, and SEQUENCE:0 before the two
    closing lines. *)
Theorem createEvent_text_has_thirteen_lines (cfg : CaldavCalendarCfg)
  (eventData : Event.data) (w : World) (url data : string) :
  In (Net (CreateVObject url data)) (effects (_createEvent cfg eventData w)) ->
  hasNewline (uidOf eventData w) = false ->
  exists now dtstart dtend,
    _formatIcalDateTime (clock w) = Some now
    /\ _formatIcalDateTime (Event.start eventData) = Some dtstart
    /\ _formatIcalDateTime (Event.end_ eventData) = Some dtend
    /\ lines data
       = eventLines (uidOf eventData w) now dtstart dtend eventData.
Proof.
  pose proof (getCalendar_no_write cfg w) as Hno.
  pose proof (getCalendar_clock cfg w) as Hclock.
  pose proof (getCalendar_randomUUID cfg w) as Huuid.
  unfold _createEvent, rejectReadOnly, uidOrGenerated, _generateUid,
    formatIcalDateTime, await_catch, _handleNetErr, bind, perform, ret, throw,
    getWorld, uidOf.
  simpl.
  destruct (_getCalendar cfg w) as [[calendar|e] w1 t1];
    simpl in Hno, Hclock, Huuid; simpl.
  2: { intros [Hin|Hin]; [discriminate |].
       exfalso; revert Hin; now apply not_in_no_write. }
  destruct (Calendar.readOnly calendar); simpl.
  { intros [Hin|Hin]; [discriminate |].
    exfalso; revert Hin; apply not_in_no_write;
      [now rewrite existsb_app, Hno | reflexivity]. }
  destruct (String.eqb (Event.uid eventData) EmptyString); simpl;
    rewrite ?Hclock, ?Huuid;
    (destruct (_formatIcalDateTime (clock w)) as [now|] eqn:Hnow; simpl;
     [| intros [Hin|Hin]; [discriminate |];
        exfalso; revert Hin; apply not_in_no_write;
        [now rewrite existsb_app, Hno | reflexivity] ]);
    (destruct (_formatIcalDateTime (Event.start eventData)) as [dtstart|]
       eqn:Hstart; simpl;
     [| intros [Hin|Hin]; [discriminate |];
        exfalso; revert Hin; apply not_in_no_write;
        [now rewrite existsb_app, Hno | reflexivity] ]);
    (destruct (_formatIcalDateTime (Event.end_ eventData)) as [dtend|]
       eqn:Hend; simpl;
     [| intros [Hin|Hin]; [discriminate |];
        exfalso; revert Hin; apply not_in_no_write;
        [now rewrite existsb_app, Hno | reflexivity] ]);
    match goal with
    | |- context [Calendar.createVObject ?c ?d] =>
        destruct (Calendar.createVObject c d) as [err|[]]; simpl
    end;
    (intros [Hin|Hin]; [discriminate |]);
    (apply in_app_or in Hin as [Hin|Hin];
     [exfalso; revert Hin; now apply not_in_no_write |]);
    simpl in Hin;
    repeat (destruct Hin as [Hin|Hin]; try discriminate);
    try contradiction;
    injection Hin as <- <-;
    intros Huid; exists now, dtstart, dtend;
    (split; [reflexivity |]); (split; [reflexivity |]);
    (split; [reflexivity |]);
    (apply eventIcalData_lines;
     [ exact Huid
     | exact (formatted_one_line _ _ Hnow)
     | exact (formatted_one_line _ _ Hstart)
     | exact (formatted_one_line _ _ Hend) ]).
Qed.

Lemma createEvent_text_has_thirteen_lines_witness :
  exists now dtstart dtend,
    _formatIcalDateTime (clock Sample.writable) = Some now
    /\ _formatIcalDateTime (Event.start Sample.report) = Some dtstart
    /\ _formatIcalDateTime (Event.end_ Sample.report) = Some dtend
    /\ lines (eventIcalData "sp-task-42" "20231114T221320Z"
                "20231114T221320Z" "20231114T231320Z" Sample.report)
       = eventLines (uidOf Sample.report Sample.writable) now dtstart dtend
           Sample.report.
Proof.
  assert (In (Net (CreateVObject (Calendar.url (Sample.work false true true))
                     (eventIcalData "sp-task-42" "20231114T221320Z"
                        "20231114T221320Z" "20231114T231320Z" Sample.report)))
            (effects (_createEvent Sample.cfg Sample.report Sample.writable)))
    as Hin by (vm_compute; auto 10).
  exact (createEvent_text_has_thirteen_lines Sample.cfg Sample.report
           Sample.writable _ _ Hin eq_refl).
Defined.

(** * The effects and the settings form *)

Ltac unfold_calls :=
  unfold createEvent', updateEvent', deleteEvent', _createEvent, _updateEvent,
    _deleteEvent, _findEventByUid, rejectReadOnly, updateIfCapable,
    deleteIfCapable, uidOrGenerated, _generateUid, formatIcalDateTime, await,
    await_catch, _handleNetErr, observe, bind, perform, ret, throw, getWorld,
    setCache.

(** ** The gate of the effects *)

Lemma isEnabled_valid (cfg : CaldavCalendarCfg) :
  _isEnabled (Some cfg) = _isValidSettings cfg.
Proof.
  unfold _isEnabled, _isValidSettings.
  destruct (isEnabled cfg); simpl; [| reflexivity].
  destruct (truthy (caldavUrl cfg)) eqn:E1; simpl; [| reflexivity].
  rewrite (truthy_lengthPositive _ E1); simpl.
  destruct (truthy (calendarName cfg)) eqn:E2; simpl; [| reflexivity].
  rewrite (truthy_lengthPositive _ E2); simpl.
  destruct (truthy (username cfg)) eqn:E3; simpl; [| reflexivity].
  rewrite (truthy_lengthPositive _ E3); simpl.
  destruct (truthy (password cfg)) eqn:E4; simpl; [| reflexivity].
  now rewrite (truthy_lengthPositive _ E4).
Qed.

Lemma getCalendar_configured cfg w :
  _isValidSettings cfg = true ->
  existsb isNotConfigured (effects (_getCalendar cfg w)) = false.
Proof.
  intros Hv.
  unfold _getCalendar, _getClient, _checkSettings, await_catch, _handleNetErr,
    throwHandledError, bind, perform, ret, throw, getWorld, setCache.
  rewrite Hv; simpl.
  destruct (_clientCache w !! _) as [cc|]; simpl.
  - destruct (calendars cc !! _); simpl; [reflexivity |].
    destruct (calendarHomes (client cc)) as [|home homes]; simpl;
      [reflexivity |].
    destruct (findAllCalendars home) as [err|cals]; simpl; [reflexivity |].
    destruct (find _ cals); reflexivity.
  - destruct (dav_connect w _ _) as [err|[|home homes]]; simpl;
      try reflexivity.
    rewrite lookup_empty; simpl.
    destruct (findAllCalendars home) as [err|cals]; simpl; [reflexivity |].
    destruct (find _ cals); reflexivity.
Qed.

Ltac split_run Hv :=
  match goal with
  | |- context [_getCalendar ?cfg ?w] =>
      let Hq := fresh "Hq" in
      pose proof (getCalendar_configured cfg w Hv) as Hq;
      destruct (_getCalendar cfg w) as [[calendar|e] w1 t1]; simpl in Hq |- *
  end.

Lemma createEvent_configured cfg eventData w :
  _isValidSettings cfg = true ->
  existsb isNotConfigured (effects (createEvent' cfg eventData w)) = false.
Proof.
  intros Hv. unfold_calls. simpl. split_run Hv; [| exact Hq].
  destruct (Calendar.readOnly calendar); simpl;
    [now rewrite existsb_app, Hq |].
  destruct (String.eqb (Event.uid eventData) ""); simpl;
    destruct (_formatIcalDateTime (clock w1)); simpl;
    rewrite ?existsb_app, ?Hq; simpl; try reflexivity;
    destruct (_formatIcalDateTime (Event.start eventData)); simpl;
    rewrite ?existsb_app, ?Hq; simpl; try reflexivity;
    destruct (_formatIcalDateTime (Event.end_ eventData)); simpl;
    rewrite ?existsb_app, ?Hq; simpl; try reflexivity;
    match goal with
    | |- context [Calendar.createVObject ?c ?d] =>
        destruct (Calendar.createVObject c d)
    end; simpl; rewrite ?existsb_app, ?Hq; reflexivity.
Qed.

Lemma deleteEvent_configured cfg uid w :
  _isValidSettings cfg = true ->
  existsb isNotConfigured (effects (deleteEvent' cfg uid w)) = false.
Proof.
  intros Hv. unfold_calls. split_run Hv; [| exact Hq].
  destruct (Calendar.calendarQuery calendar _ _) as [err|[|event rest]]; simpl;
    rewrite ?existsb_app, ?Hq; simpl; try reflexivity.
  destruct (VObject.delete event) as [[err|[]]|]; simpl;
    rewrite ?existsb_app, ?Hq; reflexivity.
Qed.

Lemma updateEvent_configured `{ICAL} cfg uid eventData w :
  _isValidSettings cfg = true ->
  existsb isNotConfigured (effects (updateEvent' cfg uid eventData w)) = false.
Proof.
  intros Hv. unfold_calls. split_run Hv; [| exact Hq].
  destruct (Calendar.readOnly calendar); simpl;
    [now rewrite existsb_app, Hq |].
  destruct (Calendar.calendarQuery calendar _ _) as [err|[|event rest]]; simpl;
    rewrite ?existsb_app, ?Hq; simpl; try reflexivity.
  destruct (ICAL_parse (VObject.data event)) as [err|jCal]; simpl;
    rewrite ?existsb_app, ?Hq; simpl; try reflexivity.
  destruct (getFirstSubcomponent "vevent" jCal) as [vevent|]; simpl;
    rewrite ?existsb_app, ?Hq; simpl; try reflexivity.
  destruct (snd (patchEvent eventData (compProps vevent))); simpl;
    rewrite ?existsb_app, ?Hq; simpl; try reflexivity.
  destruct (VObject.update event) as [update|]; simpl;
    rewrite ?existsb_app, ?Hq; simpl; try reflexivity.
  destruct (update _) as [err|[]]; simpl;
    rewrite ?existsb_app, ?Hq; reflexivity.
Qed.

Lemma pipe_configured {A} (call : M A) next caught w :
  existsb isNotConfigured (effects (call w)) = false ->
  (forall a, showsNotConfigured (mkOutcome [] w (snd (next a))) = false) ->
  showsNotConfigured (mkOutcome [] w caught) = false ->
  showsNotConfigured (pipe call next caught w) = false.
Proof.
  unfold showsNotConfigured, pipe. intros Hq Hn Hc.
  assert (forall t, existsb isNotConfigured t = false ->
            existsb (fun s => match s with
                              | Did e => isNotConfigured e
                              | _ => false
                              end) (map Did t) = false) as Hmap.
  { induction t as [|e t IH]; simpl; [reflexivity |].
    intros E. apply orb_false_iff in E as [-> E]. now apply IH. }
  destruct (call w) as [[a|e] w' t]; simpl in *;
    rewrite existsb_app, (Hmap _ Hq); simpl; [apply Hn | exact Hc].
Qed.

Lemma withLatestCfg_nothing gate app k w :
  (forall cfg, gate cfg = true -> _isEnabled cfg = true) ->
  validCfg app = false -> withLatestCfg gate app k w = nothing w.
Proof.
  unfold withLatestCfg, validCfg. intros Hg Hv.
  destruct (gate (caldavCalendar app)) eqn:E; [| reflexivity].
  apply Hg in E. destruct (caldavCalendar app) as [cfg|]; [| reflexivity].
  rewrite isEnabled_valid in E. congruence.
Qed.

Lemma withLatestCfg_configured gate app k w :
  (forall cfg, gate cfg = true -> _isEnabled cfg = true) ->
  (forall cfg, _isValidSettings cfg = true ->
               showsNotConfigured (k cfg w) = false) ->
  showsNotConfigured (withLatestCfg gate app k w) = false.
Proof.
  unfold withLatestCfg. intros Hg Hk.
  destruct (gate (caldavCalendar app)) eqn:E; [| reflexivity].
  apply Hg in E. destruct (caldavCalendar app) as [cfg|]; [| reflexivity].
  rewrite isEnabled_valid in E. now apply Hk.
Qed.

Lemma withLinkedTask_configured app id accepts k w :
  (forall uid, showsNotConfigured (k uid w) = false) ->
  showsNotConfigured (withLinkedTask app id accepts k w) = false.
Proof.
  unfold withLinkedTask. intros Hk.
  destruct (getByIdOnce app id) as [task|]; [| reflexivity].
  destruct (_ && _); [apply Hk | reflexivity].
Qed.

Lemma todoSync_enabled cfg :
  _isTodoSyncEnabled cfg = true -> _isEnabled cfg = true.
Proof. unfold _isTodoSyncEnabled. intros E. now apply andb_true_iff in E. Qed.

Create HintDb gates.
#[local] Hint Resolve todoSync_enabled : gates.

Ltac gate :=
  let cfg := fresh "cfg" in
  let E := fresh "E" in
  intros cfg E; auto with gates;
  repeat (apply andb_true_iff in E as [E _]); auto with gates.

(** X20. The gate of the effects is the settings check of the service:
    [_isEnabled] accepts a configuration exactly when [_isValidSettings]
    does.  So without a valid configuration none of the ten effects does
    anything, whatever the action, and no effect ever brings up the
    notification that the settings are missing. *)
Theorem effects_need_valid_settings `{ICAL} (app : App) (action : Action)
  (w : World) :
  _isEnabled (caldavCalendar app) = validCfg app
  /\ (validCfg app = true
      \/ Forall (fun fx => fx w = nothing w) (allEffects app action))
  /\ Forall (fun fx => showsNotConfigured (fx w) = false)
       (allEffects app action).
Proof.
  split; [| split].
  - unfold validCfg. destruct (caldavCalendar app); [apply isEnabled_valid |].
    reflexivity.
  - destruct (validCfg app) eqn:Hv; [now left | right].
    unfold allEffects. repeat apply List.Forall_cons; try apply List.Forall_nil;
      destruct action as [task due|task due|id|task|task|id changes b|type];
      try reflexivity; cbn [createEventOnSchedule updateEventOnReschedule
        deleteEventOnUnschedule deleteEventOnTaskDelete
        updateEventOnTitleChange deleteEventOnTaskDone createEventOnAddTask
        updateSyncedEventOnTitleChange deleteSyncedEventOnTaskDone
        deleteSyncedEventOnTaskDelete];
      try (destruct (truthy (Changes.title changes)); [| reflexivity]);
      try (destruct (Changes.isDone changes) as [[|]|]; try reflexivity);
      (apply withLatestCfg_nothing; [solve [gate] | exact Hv]).
  - unfold allEffects. repeat apply List.Forall_cons; try apply List.Forall_nil;
      destruct action as [task due|task due|id|task|task|id changes b|type];
      try reflexivity; cbn [createEventOnSchedule updateEventOnReschedule
        deleteEventOnUnschedule deleteEventOnTaskDelete
        updateEventOnTitleChange deleteEventOnTaskDone createEventOnAddTask
        updateSyncedEventOnTitleChange deleteSyncedEventOnTaskDone
        deleteSyncedEventOnTaskDelete];
      try (destruct (truthy (Changes.title changes)); [| reflexivity]);
      try (destruct (Changes.isDone changes) as [[|]|]; try reflexivity);
      (apply withLatestCfg_configured;
       [ solve [gate]
       | intros cfg Hv; try apply withLinkedTask_configured; intros;
         try (destruct (negb _)); unfold deleteOnTaskDone, updateTitle;
         apply pipe_configured;
         auto using createEvent_configured, deleteEvent_configured,
           updateEvent_configured ]).
Qed.

(** ** Creating the event of a task *)

Lemma getCalendar_no_created_log cfg w :
  existsb isCreatedLog (effects (_getCalendar cfg w)) = false.
Proof.
  unfold _getCalendar, _getClient, _checkSettings, await_catch, _handleNetErr,
    throwHandledError, bind, perform, ret, throw, getWorld, setCache.
  destruct (_isValidSettings cfg); simpl; [| reflexivity].
  destruct (_clientCache w !! _) as [cc|]; simpl.
  - destruct (calendars cc !! _); simpl; [reflexivity |].
    destruct (calendarHomes (client cc)) as [|home homes]; simpl;
      [reflexivity |].
    destruct (findAllCalendars home) as [err|cals]; simpl; [reflexivity |].
    destruct (find _ cals); reflexivity.
  - destruct (dav_connect w _ _) as [err|[|home homes]]; simpl;
      try reflexivity.
    rewrite lookup_empty; simpl.
    destruct (findAllCalendars home) as [err|cals]; simpl; [reflexivity |].
    destruct (find _ cals); reflexivity.
Qed.

Ltac split_calendar :=
  match goal with
  | |- context [_getCalendar ?cfg ?w] =>
      let Hq := fresh "Hq" in
      pose proof (getCalendar_no_created_log cfg w) as Hq;
      destruct (_getCalendar cfg w) as [[calendar|e] w1 t1]; simpl in Hq |- *
  end.

Lemma map_Did_created t :
  existsb (fun s => match s with Did e => isCreatedLog e | _ => false end)
    (map Did t) = existsb isCreatedLog t.
Proof. induction t as [|e t IH]; simpl; [reflexivity | now rewrite IH]. Qed.

Lemma map_Did_given t :
  flat_map (fun s => match s with store_dispatch a => [a] | _ => [] end)
    (map Did t) = [].
Proof. induction t as [|e t IH]; simpl; auto. Qed.

(** What a run of [createEvent$] for a task ends in. *)
Lemma createEvent_for_task cfg task start w :
  match result (createEvent' cfg (taskEventData task start) w) with
  | Ok uid =>
      uid = taskUid task
      /\ exists url now dtstart dtend,
           _formatIcalDateTime start = Some dtstart
           /\ _formatIcalDateTime (start + durationOf task) = Some dtend
           /\ In (Net (CreateVObject url
                         (eventIcalData (taskUid task) now dtstart dtend
                            (taskEventData task start))))
                (effects (createEvent' cfg (taskEventData task start) w))
           /\ In (Log_log "CalDAV Calendar: Created event" (taskUid task))
                (effects (createEvent' cfg (taskEventData task start) w))
  | Throw _ =>
      existsb isCreatedLog
        (effects (createEvent' cfg (taskEventData task start) w)) = false
  end.
Proof.
  unfold_calls. cbn [taskEventData Event.uid Event.start Event.end_ truthy].
  change (negb (String.eqb ("sp-task-" +:+ Task.id task) "")) with true.
  cbn iota. split_calendar; [| exact Hq].
  destruct (Calendar.readOnly calendar); simpl;
    [now rewrite existsb_app, Hq |].
  destruct (_formatIcalDateTime (clock w1)) as [now|]; simpl;
    [| now rewrite !existsb_app, Hq].
  destruct (_formatIcalDateTime start) as [dtstart|]; simpl;
    [| now rewrite !existsb_app, Hq].
  destruct (_formatIcalDateTime (start + durationOf task)) as [dtend|]; simpl;
    [| now rewrite !existsb_app, Hq].
  match goal with
  | |- context [Calendar.createVObject ?c ?d] =>
      destruct (Calendar.createVObject c d) as [err|[]]
  end; simpl; [now rewrite !existsb_app, Hq |].
  split; [reflexivity |].
  exists (Calendar.url calendar), now, dtstart, dtend.
  repeat split; auto; right; apply in_or_app; right; simpl; auto 10.
Qed.

Lemma updateEvent_no_created_log `{ICAL} cfg uid eventData w :
  existsb isCreatedLog (effects (updateEvent' cfg uid eventData w)) = false.
Proof.
  unfold_calls. split_calendar; [| exact Hq].
  destruct (Calendar.readOnly calendar); simpl;
    [now rewrite existsb_app, Hq |].
  destruct (Calendar.calendarQuery calendar _ _) as [err|[|event rest]]; simpl;
    rewrite ?existsb_app, ?Hq; simpl; try reflexivity.
  destruct (ICAL_parse (VObject.data event)) as [err|jCal]; simpl;
    rewrite ?existsb_app, ?Hq; simpl; try reflexivity.
  destruct (getFirstSubcomponent "vevent" jCal) as [vevent|]; simpl;
    rewrite ?existsb_app, ?Hq; simpl; try reflexivity.
  destruct (snd (patchEvent eventData (compProps vevent))); simpl;
    rewrite ?existsb_app, ?Hq; simpl; try reflexivity.
  destruct (VObject.update event) as [update|]; simpl;
    rewrite ?existsb_app, ?Hq; simpl; try reflexivity.
  destruct (update _) as [err|[]]; simpl;
    rewrite ?existsb_app, ?Hq; reflexivity.
Qed.

(** The pipe behind a create: the link is handed on exactly when the
    event was created. *)
Lemma create_pipe cfg task start (next : string -> list Action * list Seen)
  (f : string -> Action) caught w :
  (forall uid,
      given (mkOutcome (fst (next uid)) w (snd (next uid))) = [f uid]
      /\ loggedCreated (mkOutcome [] w (snd (next uid))) = false) ->
  loggedCreated (mkOutcome [] w caught) = false ->
  given (mkOutcome [] w caught) = [] ->
  linkedIffCreated task start (f (taskUid task))
    (pipe (createEvent' cfg (taskEventData task start)) next caught w).
Proof.
  intros Hnext Hc Hg. pose proof (createEvent_for_task cfg task start w) as Hrun.
  unfold pipe, linkedIffCreated.
  destruct (createEvent' cfg (taskEventData task start) w) as [[uid|e] w' t];
    simpl in Hrun.
  - right. destruct Hrun as [-> (url & now & dtstart & dtend & Hs & He & Hin & Hlog)].
    destruct (Hnext (taskUid task)) as [Hgiven _].
    unfold given in *; simpl in *. split.
    + now rewrite flat_map_app, map_Did_given.
    + exists url, now, dtstart, dtend. repeat split; auto;
        apply in_or_app; left; now apply in_map.
  - left. unfold given, loggedCreated in *; simpl in *.
    rewrite flat_map_app, map_Did_given, existsb_app, map_Did_created, Hrun.
    simpl. split; [exact Hg | exact Hc].
Qed.

Lemma nothing_linked task start link w :
  linkedIffCreated task start link (nothing w).
Proof. left. split; reflexivity. Qed.

Lemma withLatestCfg_linked gate app k task start link w :
  (forall cfg, linkedIffCreated task start link (k cfg w)) ->
  linkedIffCreated task start link (withLatestCfg gate app k w).
Proof.
  unfold withLatestCfg. intros Hk.
  destruct (gate _); [| apply nothing_linked].
  destruct (caldavCalendar app); [apply Hk | apply nothing_linked].
Qed.


Lemma createEvent_run cfg w calendar w1 t1 (eventData : Event.data)
  now dtstart dtend :
  resolves cfg w calendar w1 t1 ->
  Calendar.readOnly calendar = false ->
  _formatIcalDateTime (clock w) = Some now ->
  _formatIcalDateTime (Event.start eventData) = Some dtstart ->
  _formatIcalDateTime (Event.end_ eventData) = Some dtend ->
  Calendar.createVObject calendar
    (eventIcalData (uidOf eventData w) now dtstart dtend eventData) = inr tt ->
  createEvent' cfg eventData w
  = mkRun (Ok (uidOf eventData w)) w1
      (creation calendar t1 (uidOf eventData w)
         (eventIcalData (uidOf eventData w) now dtstart dtend eventData)).
Proof.
  intros Hres Hro Hnow Hs He Hcreate.
  pose proof (getCalendar_clock cfg w) as Hclock.
  pose proof (getCalendar_randomUUID cfg w) as Huuid.
  unfold resolves in Hres. rewrite Hres in Hclock, Huuid.
  simpl in Hclock, Huuid. unfold_calls. unfold creation, uidOf in *.
  simpl. rewrite Hres; simpl. rewrite Hro; simpl. simpl in Hcreate.
  destruct (String.eqb (Event.uid eventData) EmptyString);
    simpl in Hcreate |- *; rewrite Hclock, Hnow; simpl; rewrite Hs; simpl;
    rewrite He; simpl; rewrite ?Huuid; rewrite Hcreate; reflexivity.
Qed.

Lemma withLatestCfg_run gate app cfg k w :
  caldavCalendar app = Some cfg -> gate (Some cfg) = true ->
  withLatestCfg gate app k w = k cfg w.
Proof. unfold withLatestCfg. intros -> ->. reflexivity. Qed.

Lemma withLinkedTask_run app id task uid accepts k w :
  getByIdOnce app id = Some task ->
  Task.calendarEventUid task = Some uid ->
  uid <> EmptyString -> accepts uid = true ->
  withLinkedTask app id accepts k w = k uid w.
Proof.
  unfold withLinkedTask. intros -> -> Hne Ha. simpl. rewrite Ha.
  destruct (String.eqb_spec uid EmptyString); [contradiction | reflexivity].
Qed.

Lemma hour_floor (t : Z) :
  MakeDate (Day t) (MakeTime (HourFromTime t) 0 0 0) = t - t mod 3600000.
Proof.
  unfold MakeDate, MakeTime, Day, HourFromTime.
  Z.to_euclidean_division_equations. lia.
Qed.

Lemma hour_after (t : Z) :
  t mod 3600000 = 0 ->
  MakeDate (Day t)
    (MakeTime (HourFromTime t + 1) (MinFromTime t) (SecFromTime t)
       (msFromTime t))
  = t + 3600000.
Proof.
  unfold MakeDate, MakeTime, Day, HourFromTime, MinFromTime, SecFromTime,
    msFromTime.
  intros Ht. Z.to_euclidean_division_equations. lia.
Qed.

Lemma nextFullHour_fixed_offset (app : App) (tz now : Z) :
  (forall t isUTC, LocalTZA app t isUTC = tz) ->
  0 <= now -> validTime now = true ->
  validTime (nextLocalHour tz now) = true ->
  nextFullHour app now = nextLocalHour tz now.
Proof.
  intros Htz Hpos Hnow Hnext.
  unfold nextFullHour, TimeClip. rewrite Hnow.
  cbn [setMinutes]. unfold LocalTime, UTC. rewrite !Htz, hour_floor.
  assert (validTime (now + tz - (now + tz) mod 3600000 - tz) = true) as Hm.
  { unfold validTime in *. apply andb_true_iff in Hnow as [_ Hmax].
    apply Z.leb_le in Hmax. apply andb_true_iff; split; apply Z.leb_le;
      pose proof (Z.mod_pos_bound (now + tz) 3600000 ltac:(lia)); lia. }
  unfold TimeClip. rewrite Hm. cbn [getHours option_map setHours].
  unfold LocalTime, UTC. rewrite !Htz.
  replace (now + tz - (now + tz) mod 3600000 - tz + tz)
    with (now + tz - (now + tz) mod 3600000) by lia.
  rewrite hour_after.
  - unfold nextLocalHour in Hnext.
    replace (now + tz - (now + tz) mod 3600000 + 3600000 - tz)
      with (now - (now + tz) mod 3600000 + 3600000) by lia.
    unfold TimeClip. rewrite Hnext. reflexivity.
  - Z.to_euclidean_division_equations. lia.
Qed.

Lemma nextLocalHour_spec (tz now : Z) :
  now < nextLocalHour tz now <= now + 3600000
  /\ (nextLocalHour tz now + tz) mod 3600000 = 0.
Proof.
  unfold nextLocalHour.
  pose proof (Z.mod_pos_bound (now + tz) 3600000 ltac:(lia)).
  split; [lia |]. Z.to_euclidean_division_equations. lia.
Qed.

Lemma resolves_valid cfg w calendar w1 t1 :
  resolves cfg w calendar w1 t1 -> _isValidSettings cfg = true.
Proof.
  unfold resolves. intros Hres.
  destruct (_isValidSettings cfg) eqn:Hv; [reflexivity |].
  rewrite (getCalendar_invalid cfg w Hv) in Hres. discriminate.
Qed.


(** ** Deleting the event of a task *)

Lemma map_Did_wrote t :
  existsb (fun s => match s with Did e => isWrite e | _ => false end)
    (map Did t) = existsb isWrite t.
Proof. induction t as [|e t IH]; simpl; [reflexivity | now rewrite IH]. Qed.

Lemma delete_pipe cfg calendar w w1 t1 id uid failure :
  resolves cfg w calendar w1 t1 ->
  unlinkFollowsDelete calendar id uid failure
    (pipe (deleteEvent' cfg uid) (dispatch (fun _ => setEventUid id None))
       [Did (Log_err failure)] w).
Proof.
  intros Hres. pose proof (resolves_no_write _ _ _ _ _ Hres) as Hno.
  unfold resolves in Hres.
  unfold unlinkFollowsDelete, pipe. unfold_calls. rewrite Hres; simpl.
  destruct (Calendar.calendarQuery calendar "VEVENT" uid)
    as [err|[|event rest]]; simpl; unfold given, wrote; simpl;
    [| | destruct (VObject.delete event) as [[err|[]]|]; simpl ];
    rewrite flat_map_app, map_Did_given, ?existsb_app, ?map_Did_wrote,
      ?existsb_app, ?Hno; simpl; repeat split;
    try (apply in_or_app; simpl; now auto);
    apply in_or_app; left; apply in_map; apply in_or_app; right; simpl; auto.
Qed.


(** ** Rescheduling, and the effects for synced tasks *)

Lemma editEvent_rescheduled (now : ICAL_Time) (task : Task.t)
  (dueWithTime : Z) (v : Props) :
  sequenceSafe v ->
  editEvent now (reschedulePatch task dueWithTime) v
  = rescheduledProps now task dueWithTime v.
Proof.
  intros Hv. unfold editEvent, rescheduledProps, bumpRevision. simpl.
  now rewrite (sequenceInt_raised v Hv).
Qed.

Lemma prefixed_truthy (uid : option string) :
  prefixed uid = true -> truthy uid = true.
Proof. destruct uid as [[|c s]|]; simpl; auto. Qed.

Section Reschedule.

Context `{ICAL}.


(** X25. The effects for synced tasks are the plain ones behind two
    more filters, todo sync on and a uid that starts with sp-task-: when
    they act on an action, the plain effect acts on it too with the same
    call of the service (for a deleted task only the text of the failure
    log differs), so the request is made twice; otherwise they do
    nothing. *)
Theorem synced_effects_repeat_the_plain_ones (app : App) (action : Action)
  (task : Task.t) (w : World) :
  updateSyncedEventOnTitleChange app action w
  = (if repeats app action then updateEventOnTitleChange app action w
     else nothing w)
  /\ deleteSyncedEventOnTaskDone app action w
     = (if repeats app action then deleteEventOnTaskDone app action w
        else nothing w)
  /\ (if repeats app (deleteTask task) then
        exists cfg,
          deleteEventOnTaskDelete app (deleteTask task) w
          = pipe (deleteEvent' cfg (js_string_of (Task.calendarEventUid task)))
              ignore
              [Did (Log_err
                      "CalDAV Calendar: Failed to delete event on task delete")]
              w
          /\ deleteSyncedEventOnTaskDelete app (deleteTask task) w
             = pipe (deleteEvent' cfg
                       (js_string_of (Task.calendarEventUid task)))
                 ignore
                 [Did (Log_err "CalDAV Calendar: Failed to delete synced event")]
                 w
      else deleteSyncedEventOnTaskDelete app (deleteTask task) w = nothing w).
Proof.
  unfold repeats, _isTodoSyncEnabled. split; [| split].
  - destruct action as [t due|t due|id|t|t|id changes b|type];
      cbn [updateSyncedEventOnTitleChange updateEventOnTitleChange];
      rewrite ?andb_false_r; try reflexivity; try (now destruct (_ && _)).
    destruct (truthy (Changes.title changes));
      [| now destruct (_ && _)].
    unfold withLatestCfg, withLinkedTask, _isTodoSyncEnabled.
    destruct (caldavCalendar app) as [cfg|]; [| reflexivity].
    destruct (_isEnabled (Some cfg)); [| reflexivity].
    destruct (syncTodos cfg); [| reflexivity].
    destruct (getByIdOnce app id) as [t|]; [| reflexivity].
    destruct (prefixed (Task.calendarEventUid t)) eqn:Hp.
    + pose proof (prefixed_truthy _ Hp) as Ht. unfold prefixed in Hp.
      simpl. now rewrite Ht, Hp.
    + unfold prefixed in Hp. simpl. now rewrite Hp, andb_false_r.
  - destruct action as [t due|t due|id|t|t|id changes b|type];
      cbn [deleteSyncedEventOnTaskDone deleteEventOnTaskDone];
      rewrite ?andb_false_r; try reflexivity; try (now destruct (_ && _)).
    destruct (Changes.isDone changes) as [[|]|];
      try now destruct (_ && _).
    unfold withLatestCfg, withLinkedTask, _isTodoSyncEnabled.
    destruct (caldavCalendar app) as [cfg|]; [| reflexivity].
    destruct (_isEnabled (Some cfg)); [| reflexivity].
    destruct (syncTodos cfg); [| reflexivity].
    destruct (getByIdOnce app id) as [t|]; [| reflexivity].
    destruct (prefixed (Task.calendarEventUid t)) eqn:Hp.
    + pose proof (prefixed_truthy _ Hp) as Ht. unfold prefixed in Hp.
      simpl. now rewrite Ht, Hp.
    + unfold prefixed in Hp. simpl. now rewrite Hp, andb_false_r.
  - cbn [deleteSyncedEventOnTaskDelete deleteEventOnTaskDelete].
    unfold withLatestCfg, _isTodoSyncEnabled.
    destruct (caldavCalendar app) as [cfg|]; [| reflexivity].
    destruct (_isEnabled (Some cfg)); [| reflexivity].
    destruct (syncTodos cfg); [| reflexivity].
    destruct (prefixed (Task.calendarEventUid task)) eqn:Hp.
    + pose proof (prefixed_truthy _ Hp) as Ht. unfold prefixed in Hp.
      simpl. rewrite Ht, Hp. simpl. exists cfg. split; reflexivity.
    + unfold prefixed in Hp. simpl. now rewrite Hp, andb_false_r.
Qed.

End Reschedule.

(** ** The settings form *)

(** X26. The connection test of the settings form always ends with the
    answer of the service as its result, not testing, and the cache
    cleared; the handler for a thrown error is never used.  The only
    notification is the form's own: success when the calendars were
    listed and the configured name is absent, empty or among them, a
    warning with the not-found text when it is not among them, and none
    at all when the test failed. *)
Theorem form_test_shows_the_service_answer (describe : js_error -> string)
  (form : CfgComponent.t) (w : World) :
  exists answer,
    result (testConnection (CfgComponent.localCfg form) w) = Ok answer
    /\ formTestConnection describe form w
       = (CfgComponent.mk (CfgComponent.localCfg form) false (Some answer),
          cleared w,
          (map Did (effects (testConnection (CfgComponent.localCfg form) w))
           ++ expectedSnack (CfgComponent.localCfg form) w)%list)
    /\ forallb isNet (effects (testConnection (CfgComponent.localCfg form) w))
       = true.
Proof.
  unfold formTestConnection, expectedSnack, testConnection, await_or_fail,
    bind, perform, ret, getWorld, setCache, cleared; simpl.
  destruct (dav_connect w _ _) as [err|[|home homes]]; simpl;
    try (eexists; repeat split; reflexivity).
  destruct (findAllCalendars home) as [err|cals]; simpl;
    try (eexists; repeat split; reflexivity).
  destruct (truthy (calendarName (CfgComponent.localCfg form))); simpl;
    try (eexists; repeat split; reflexivity).
  destruct (existsb _ _); simpl; eexists; repeat split; reflexivity.
Qed.

(** ** The properties of the effects at the sample *)



